(** * msl-loadlib: the 32-bit server and the library loader

    A shallow embedding of [msl/loadlib/load_library.py] (class
    [LoadLibrary]) and [msl/loadlib/server32.py] (classes [Server32] and
    [RequestHandler]) together with the properties of the inter-process
    bridge that the specification states about them.

    Python objects are modelled by first-order data: strings are [string]
    (the characters of Latin-1, which is how the request line is decoded),
    integers are [Z], a raised exception is the [Raise] case of [result],
    and the file system is a finite map from paths to file contents.  The
    libraries the code calls into ([pickle], [ctypes], [clr],
    [xml.etree.ElementTree], [os.path.abspath]) are not part of the
    repository; they appear here at their interface.  A method of a server
    class is modelled by what it returns or raises and what it does to the
    files, given the instance and its arguments. *)

From Stdlib Require Import ZArith Ascii.
From stdpp Require Import gmap strings list fin_maps pretty.

Local Open Scope Z_scope.
Set Warnings "-register-all".
Set Default Proof Using "Type".

(** ** Strings *)

Module Str.

(** The double-quote character, as a one-character string. *)
Definition dq : string := String (ascii_of_nat 34) EmptyString.
Definition nl : string := String (ascii_of_nat 10) EmptyString.

Definition colon : ascii := ascii_of_nat 58.
Definition dot : ascii := ascii_of_nat 46.
Definition slash : ascii := ascii_of_nat 47.
Definition backslash : ascii := ascii_of_nat 92.

Definition ascii_eqb (a b : ascii) : bool := bool_decide (a = b).

(** [s[n:]] *)
Fixpoint drop (n : nat) (s : string) : string :=
  match n, s with
  | O, _ => s
  | S _, EmptyString => EmptyString
  | S n', String _ t => drop n' t
  end.

(** [s[:n]] *)
Fixpoint take (n : nat) (s : string) : string :=
  match n, s with
  | O, _ => EmptyString
  | S _, EmptyString => EmptyString
  | S n', String c t => String c (take n' t)
  end.

Fixpoint startswith (p s : string) : bool :=
  match p, s with
  | EmptyString, _ => true
  | String a p', String b s' => ascii_eqb a b && startswith p' s'
  | String _ _, EmptyString => false
  end.

(** [needle in hay] *)
Fixpoint contains (needle hay : string) : bool :=
  startswith needle hay ||
  match hay with
  | EmptyString => false
  | String _ t => contains needle t
  end.

(** [s.find(c)]: the text before and after the first [c]. *)
Fixpoint cut (c : ascii) (s : string) : option (string * string) :=
  match s with
  | EmptyString => None
  | String a t =>
      if ascii_eqb a c then Some (EmptyString, t)
      else match cut c t with
           | Some (l, r) => Some (String a l, r)
           | None => None
           end
  end.

(** [s.split(c, maxsplit)] for a one-character separator. *)
Fixpoint split (c : ascii) (maxsplit : nat) (s : string) : list string :=
  match maxsplit with
  | O => [s]
  | S n =>
      match cut c s with
      | Some (l, r) => l :: split c n r
      | None => [s]
      end
  end.

(** [s.rfind(c)], as [None] for -1. *)
Fixpoint rfind_from (c : ascii) (i : nat) (s : string) : option nat :=
  match s with
  | EmptyString => None
  | String a t =>
      match rfind_from c (S i) t with
      | Some j => Some j
      | None => if ascii_eqb a c then Some i else None
      end
  end.
Definition rfind (c : ascii) (s : string) : option nat := rfind_from c 0 s.

Definition get (i : nat) (s : string) : option ascii := String.get i s.

Definition lower_ascii (a : ascii) : ascii :=
  let n := nat_of_ascii a in
  if (Nat.leb 65 n && Nat.leb n 90)%bool then ascii_of_nat (n + 32) else a.

Fixpoint lower (s : string) : string :=
  match s with
  | EmptyString => EmptyString
  | String a t => String (lower_ascii a) (lower t)
  end.

Fixpoint concat (l : list string) : string :=
  match l with
  | [] => EmptyString
  | s :: t => s +:+ concat t
  end.

(** [text] occurs in [s]: the propositional reading of [contains]. *)
Definition occurs (text s : string) : Prop :=
  exists pre post, s = pre +:+ text +:+ post.

End Str.

(** ** The interpreter and the machine *)

(** What the built-ins the code calls depend on, besides the files: which
    paths can be opened for writing, the highest protocol of [pickle], the
    largest C [long] (the type through which [pickle.dump] reads its
    protocol), and the limit on the digits of an integer literal
    ([sys.get_int_max_str_digits()], 0 for none).  The highest protocol is
    a small number: it fits a C [long]. *)
Record Machine := {
  can_write : string -> bool;
  HIGHEST_PROTOCOL : Z;
  LONG_MAX : Z;
  int_max_str_digits : nat;
  HIGHEST_fits : HIGHEST_PROTOCOL <= LONG_MAX
}.

Definition LONG_MIN (mc : Machine) : Z := - LONG_MAX mc - 1.

(** ** Python integers from text: [int(s)] *)

Definition digit_of (a : ascii) : option Z :=
  let n := nat_of_ascii a in
  if (Nat.leb 48 n && Nat.leb n 57)%bool then Some (Z.of_nat (n - 48)) else None.

(** The white space [int] skips around the literal: the white space of
    ASCII (tab to carriage return, and the space) and, above 127, the two
    white-space characters a text of Latin-1 can hold (U+0085 and U+00A0),
    which [int] reads as spaces.  The separators U+001C to U+001F are not
    skipped. *)
Definition is_int_space (a : ascii) : bool :=
  let n := nat_of_ascii a in
  (Nat.eqb n 32 || (Nat.leb 9 n && Nat.leb n 13) || Nat.eqb n 133 || Nat.eqb n 160)%bool.

Fixpoint skip_spaces (s : string) : string :=
  match s with
  | String a t => if is_int_space a then skip_spaces t else s
  | EmptyString => EmptyString
  end.

(** The digits of the literal, from the left: the value so far, the number
    of digits so far, and what follows the digits.  Single underscores may
    stand between digits, not before the first digit nor after the last. *)
Fixpoint scan_digits (after_digit : bool) (acc : Z) (n : nat) (s : string)
  : option (Z * nat * string) :=
  match s with
  | EmptyString => if after_digit then Some (acc, n, s) else None
  | String a t =>
      if Str.ascii_eqb a (ascii_of_nat 95) then
        if after_digit then scan_digits false acc n t else None
      else
        match digit_of a with
        | Some d => scan_digits true (10 * acc + d) (S n) t
        | None => if after_digit then Some (acc, n, s) else None
        end
  end.

(** [sys.int_info.str_digits_check_threshold] *)
Definition str_digits_check_threshold : nat := 640.

Inductive int_outcome :=
| IntValue (z : Z)
| IntInvalid
| IntTooLong (digits : nat).

(** [int(s)] for a text, in base 10, as CPython 3 reads it (underscores
    since 3.6, the limit on the digits since 3.11): white space, a sign,
    the digits, white space. *)
Definition parse_int (mc : Machine) (s : string) : int_outcome :=
  let t := skip_spaces s in
  let '(negative, body) :=
    match t with
    | String a r =>
        if Str.ascii_eqb a (ascii_of_nat 45) then (true, r)
        else if Str.ascii_eqb a (ascii_of_nat 43) then (false, r)
        else (false, t)
    | EmptyString => (false, t)
    end in
  match scan_digits false 0 0 body with
  | Some (v, n, rest) =>
      if (Nat.ltb str_digits_check_threshold n && Nat.ltb 0 (int_max_str_digits mc)
          && Nat.ltb (int_max_str_digits mc) n)%bool
      then IntTooLong n
      else match skip_spaces rest with
           | EmptyString => IntValue (if negative : bool then - v else v)
           | _ => IntInvalid
           end
  | None => IntInvalid
  end.

(** The value of [int(s)]; [None] is the [ValueError]. *)
Definition int (mc : Machine) (s : string) : option Z :=
  match parse_int mc s with
  | IntValue z => Some z
  | _ => None
  end.

(** ** Python values, exceptions and tracebacks *)

(** The values that cross the bridge. *)
Inductive pyval :=
| PNone
| PBool (b : bool)
| PInt (z : Z)
| PStr (s : string)
| PTuple (l : list pyval)
| PList (l : list pyval)
| PDict (kv : list (pyval * pyval)).

Definition type_name (v : pyval) : string :=
  match v with
  | PNone => "NoneType"
  | PBool _ => "bool"
  | PInt _ => "int"
  | PStr _ => "str"
  | PTuple _ => "tuple"
  | PList _ => "list"
  | PDict _ => "dict"
  end.

(** One entry of [traceback.extract_tb]: [(filename, lineno, name, line)]. *)
Record tb_entry := TbEntry {
  tb_filename : string;
  tb_lineno : Z;
  tb_name : string;
  tb_line : string
}.

(** A raised exception: [exc_type.__name__], [str(exc_value)], the
    traceback entries of the frames below the one that is looking at it,
    outermost first, and whether its class derives from [Exception]
    ([SystemExit], [KeyboardInterrupt], [GeneratorExit] and the classes a
    program derives from [BaseException] alone do not). *)
Record exception := BaseExc {
  exc_type : string;
  exc_value : string;
  exc_tb : list tb_entry;
  is_Exception : bool
}.

(** An exception of a class that derives from [Exception]. *)
Abbreviation Exc ty value tb := (BaseExc ty value tb true).

(** The same exception seen from the frame above: one more traceback
    entry on top. *)
Definition push_frame (fr : tb_entry) (e : exception) : exception :=
  BaseExc (exc_type e) (exc_value e) (fr :: exc_tb e) (is_Exception e).

Inductive result (A : Type) :=
| Return (a : A)
| Raise (e : exception).
Arguments Return {A} a.
Arguments Raise {A} e.

(** ** The file system and [pickle] *)

(** One pickled object on disk: the object and the protocol it was written
    with. *)
Record pickled := Pickled { pk_protocol : Z; pk_obj : pyval }.

(** A file holds text (the characters as they are on disk, line ends
    included) or a sequence of independently pickled objects. *)
Inductive file_data :=
| Text (s : string)
| Pickles (objs : list pickled).

(** The targets handed to [threading.Thread]. *)
Inductive target := ServerShutdown.

Inductive event :=
| EOpen (path mode : string)
| ELog (msg : string)
| EExternal (fn arg : string)
| EBind (host : string) (port : Z)
| EListen
| EInvoke (method : string) (args : list pyval) (kwargs : list (string * pyval))
| EShutdown
| EThreadStart (tid : nat) (t : target)
| ESendResponse (code : Z)
| ESendHeader (k v : string)
| EEndHeaders
| EWfileWrite (s : string)
| EStderr (s : string).

(** What the code can change: the files, [sys.path], the thread table and,
    as a record of what happened, the trace of effects. *)
Record state := State {
  files : gmap string file_data;
  sys_path : list string;
  next_tid : nat;
  trace : list event
}.

Definition set_files (f : gmap string file_data) (s : state) : state :=
  State f (sys_path s) (next_tid s) (trace s).
Definition set_sys_path (p : list string) (s : state) : state :=
  State (files s) p (next_tid s) (trace s).
Definition set_trace (t : list event) (s : state) : state :=
  State (files s) (sys_path s) (next_tid s) t.

(** *** A state-and-exception monad *)

Definition M (A : Type) : Type := state -> result A * state.

Definition ret {A} (a : A) : M A := fun s => (Return a, s).
Definition raise {A} (e : exception) : M A := fun s => (Raise e, s).
Definition bind {A B} (m : M A) (k : A -> M B) : M B :=
  fun s => match m s with
           | (Return a, s') => k a s'
           | (Raise e, s') => (Raise e, s')
           end.
Definition lift {A} (r : result A) : M A := fun s => (r, s).

(** [try: body except cls as e: handler(e)]: the clause handles the
    exceptions that are instances of its class, [catches] says which; any
    other exception leaves the statement. *)
Definition try_except {A} (body : M A) (catches : exception -> bool)
    (handler : exception -> M A) : M A :=
  fun s => match body s with
           | (Return a, s') => (Return a, s')
           | (Raise e, s') => if catches e then handler e s' else (Raise e, s')
           end.

Notation "'do' x <- m ; k" := (bind m (fun x => k))
  (at level 10, x pattern, m at level 100, k at level 200).
Notation "'run' m ; k" := (bind m (fun _ => k))
  (at level 10, m at level 100, k at level 200).

Definition emit (e : event) : M unit :=
  fun s => (Return tt, set_trace (trace s ++ [e]) s).

Definition get_files : M (gmap string file_data) := fun s => (Return (files s), s).
Definition put_file (p : string) (d : file_data) : M unit :=
  fun s => (Return tt, set_files (<[p := d]> (files s)) s).

(** An exception raised by a built-in called from the running frame: its
    traceback below that frame is empty. *)
Definition builtin_error {A} (ty msg : string) : M A := raise (Exc ty msg []).

(** [os.path.isfile] *)
Definition isfile (p : string) : M bool :=
  fun s => (Return (bool_decide (is_Some (files s !! p))), s).

(** The call [int(s)]. *)
Definition call_int (mc : Machine) (s : string) : M Z :=
  match parse_int mc s with
  | IntValue z => ret z
  | IntInvalid =>
      builtin_error "ValueError" ("invalid literal for int() with base 10: '" +:+ s +:+ "'")
  | IntTooLong n =>
      builtin_error "ValueError"
        ("Exceeds the limit (" +:+ pretty (Z.of_nat (int_max_str_digits mc))
         +:+ " digits) for integer string conversion: value has "
         +:+ pretty (Z.of_nat n)
         +:+ " digits; use sys.set_int_max_str_digits() to increase the limit")
  end.

(** [open(path, 'rb')] and [open(path, 'r')]: the contents to read. *)
Definition open_read (path mode : string) : M file_data :=
  run emit (EOpen path mode);
  do fs <- get_files;
  match fs !! path with
  | Some d => ret d
  | None =>
      builtin_error "FileNotFoundError"
        ("[Errno 2] No such file or directory: '" +:+ path +:+ "'")
  end.

(** [open(path, 'wb')] and [open(path, 'w')]: the file is created or
    truncated at once. *)
Definition open_write (mc : Machine) (path mode : string) (empty : file_data) : M unit :=
  run emit (EOpen path mode);
  if can_write mc path then put_file path empty
  else builtin_error "PermissionError"
         ("[Errno 13] Permission denied: '" +:+ path +:+ "'").

(** [pickle.load(f)]: the next object of the stream and the rest of it. *)
Definition pickle_load (mc : Machine) (f : file_data) : M (pyval * file_data) :=
  match f with
  | Pickles (p :: rest) =>
      if bool_decide (pk_protocol p <= HIGHEST_PROTOCOL mc) then
        ret (pk_obj p, Pickles rest)
      else builtin_error "ValueError"
             ("unsupported pickle protocol: " +:+ pretty (pk_protocol p))
  | Pickles [] | Text EmptyString => builtin_error "EOFError" "Ran out of input"
  | Text _ => builtin_error "UnpicklingError" "invalid load key"
  end.

(** [pickle.dump(obj, f, protocol=p)] into the file at [path], which is
    open for writing.  The pickler reads the protocol as a C [long]: a
    protocol outside its range is an [OverflowError]; then a negative
    protocol selects the highest one, and one above the highest is refused. *)
Definition pickle_dump (mc : Machine) (obj : pyval) (path : string) (p : Z) : M unit :=
  if bool_decide (p < LONG_MIN mc \/ LONG_MAX mc < p) then
    builtin_error "OverflowError" "Python int too large to convert to C long"
  else if bool_decide (HIGHEST_PROTOCOL mc < p) then
    builtin_error "ValueError"
      ("pickle protocol must be <= " +:+ pretty (HIGHEST_PROTOCOL mc))
  else
    let used := if bool_decide (p < 0) then HIGHEST_PROTOCOL mc else p in
    do fs <- get_files;
    match fs !! path with
    | Some (Pickles objs) => put_file path (Pickles (objs ++ [Pickled used obj]))
    | _ => put_file path (Pickles [Pickled used obj])
    end.

(** ** [os.path] *)

Definition rfindZ (c : ascii) (p : string) : Z :=
  match Str.rfind c p with
  | Some i => Z.of_nat i
  | None => -1
  end.

(** The loop of [genericpath._splitext] that skips leading dots: is some
    character of [p[i : i+n]] not a dot? *)
Fixpoint has_stem (p : string) (i n : nat) : bool :=
  match n with
  | O => false
  | S n' =>
      match Str.get i p with
      | Some a => if Str.ascii_eqb a Str.dot then has_stem p (S i) n' else true
      | None => true
      end
  end.

(** [genericpath._splitext(p, sep, altsep, '.')] *)
Definition _splitext (p : string) (sep : ascii) (altsep : option ascii) : string * string :=
  let sepIndex :=
    match altsep with
    | Some a => Z.max (rfindZ sep p) (rfindZ a p)
    | None => rfindZ sep p
    end in
  let dotIndex := rfindZ Str.dot p in
  if bool_decide (sepIndex < dotIndex) then
    let filenameIndex := sepIndex + 1 in
    if has_stem p (Z.to_nat filenameIndex) (Z.to_nat (dotIndex - filenameIndex)) then
      (Str.take (Z.to_nat dotIndex) p, Str.drop (Z.to_nat dotIndex) p)
    else (p, EmptyString)
  else (p, EmptyString).

(** ** The environment of the loader *)

(** A parsed XML element, as [xml.etree.ElementTree] gives it. *)
Inductive element :=
| Element (tag : string) (attrib : list (string * string)) (children : list element).

Definition el_tag (e : element) : string := let 'Element t _ _ := e in t.
Definition el_attrib (e : element) : list (string * string) := let 'Element _ a _ := e in a.
Definition el_children (e : element) : list element := let 'Element _ _ c := e in c.

Fixpoint assoc (k : string) (l : list (string * string)) : option string :=
  match l with
  | [] => None
  | (k', v) :: t => if bool_decide (k' = k) then Some v else assoc k t
  end.

(** A loaded library object: a [ctypes] class instance or an imported
    module. *)
Inductive lib_ref :=
| CtypesLib (class : string) (handle : Z)
| NetModule (namespace : string).

(** A .NET [RuntimeAssembly]: the namespaces of its exported types. *)
Record assembly := Assembly { exported_namespaces : list string }.

(** The platform and the libraries outside the repository. *)
Record Env := {
  IS_WINDOWS : bool;
  IS_LINUX : bool;
  IS_MAC : bool;
  abspath : string -> string;
  path_split : string -> string * string;
  sys_executable : string;
  machine : Machine;
  socket_bind : string -> Z -> result unit;
  ctypes_open : string -> string -> result Z;
  clr_importable : bool;
  Assembly_LoadFile : string -> result assembly;
  clr_AddReference : string -> result unit;
  __import__ : string -> result lib_ref;
  ET_parse : string -> option element
}.

Definition os_sep (env : Env) : ascii :=
  if IS_WINDOWS env then Str.backslash else Str.slash.
Definition os_altsep (env : Env) : option ascii :=
  if IS_WINDOWS env then Some Str.slash else None.

Definition splitext (env : Env) (p : string) : string * string :=
  _splitext p (os_sep env) (os_altsep env).

(** ** [load_library.py] *)

Definition NET_FRAMEWORK_DESCRIPTION : string :=
"
<!--
  Created by the MSL-LoadLib package.

  By default, applications that target the .NET Framework version 4.0+ cannot load assemblies from
  previous .NET Framework versions. You must add and modify the " +:+ Str.dq +:+ "app" +:+ Str.dq +:+ ".config file and set the
  useLegacyV2RuntimeActivationPolicy property.

  See http://support.microsoft.com/kb/2572158 for an overview.

  For example, Python for .NET (pythonnet, http://pythonnet.github.io/) only works with .NET 4.0+
  and therefore it cannot automatically load a shared library that was compiled with .NET <4.0. If
  you try to load the library and a System.IO.FileNotFoundException is raised then that probably
  means that the library is from .NET <4.0.

  The System.IO.FileNotFoundException exception will also be raised if the folder that the DLL is
  located in is not within sys.path, so first make sure that the shared library is visible to the
  Python interpreter.

  NOTE: To install pythonnet, run:
  $ pip install pythonnet

  Example using SpelNetLib.dll, which is a .NET library for the EPSON RC+ 6-axis robot
  http://www.d.umn.edu/~rlindek1/ME4135_11/e_SPEL%2BRef54_r1.pdf

  >>> import clr
  >>> clr.AddReference(" +:+ Str.dq +:+ "SpelNetLib" +:+ Str.dq +:+ ")

  If calling AddReference raises the following exception

      System.IO.FileNotFoundException: Unable to find assembly 'SpelNetLib.dll'

  and you are certain that the path to the library is in sys.path, then you can use the following
  to obtain a more detailed description of the exception:

  >>> from clr import System
  >>> from System import Reflection
  >>> Reflection.Assembly.LoadFile('path/to/dll/SpelNetLib.dll')
-->
".

Definition NET_FRAMEWORK_FIX : string :=
"
    <startup useLegacyV2RuntimeActivationPolicy=" +:+ Str.dq +:+ "true" +:+ Str.dq +:+ ">
        <supportedRuntime version=" +:+ Str.dq +:+ "v4.0" +:+ Str.dq +:+ " />
        <supportedRuntime version=" +:+ Str.dq +:+ "v2.0.50727" +:+ Str.dq +:+ " />
    </startup>
".

(** Reading in text mode: a carriage return followed by a line feed, and a
    carriage return alone, are read as one line feed (universal newlines). *)
Fixpoint universal_newlines (s : string) : string :=
  match s with
  | EmptyString => EmptyString
  | String a t =>
      if Str.ascii_eqb a (ascii_of_nat 13) then
        match t with
        | String b t' =>
            if Str.ascii_eqb b (ascii_of_nat 10) then String b (universal_newlines t')
            else String (ascii_of_nat 10) (universal_newlines t)
        | EmptyString => String (ascii_of_nat 10) EmptyString
        end
      else String a (universal_newlines t)
  end.

(** Writing in text mode: every line feed is written as the line
    separator of the platform. *)
Fixpoint written_with (linesep : string) (s : string) : string :=
  match s with
  | EmptyString => EmptyString
  | String a t =>
      (if Str.ascii_eqb a (ascii_of_nat 10) then linesep else String a EmptyString)
      +:+ written_with linesep t
  end.

(** [os.linesep] *)
Definition os_linesep (env : Env) : string :=
  if IS_WINDOWS env
  then String (ascii_of_nat 13) (String (ascii_of_nat 10) EmptyString)
  else Str.nl.

(** What a file holds after [text] was written to it in text mode. *)
Definition on_disk (env : Env) (text : string) : string :=
  written_with (os_linesep env) text.

(** The lines of a text that was read in text mode, each with its line
    feed: what [fp.readlines()] returns is [readlines] of the
    [universal_newlines] of the file. *)
Fixpoint readlines (s : string) : list string :=
  match s with
  | EmptyString => []
  | String a t =>
      if Str.ascii_eqb a (ascii_of_nat 10) then String a EmptyString :: readlines t
      else match readlines t with
           | [] => [String a EmptyString]
           | l :: ls => String a l :: ls
           end
  end.

(** [lines.insert(-1, x)]: before the last element, or into the empty list. *)
Fixpoint insert_before_last (x : string) (lines : list string) : list string :=
  match lines with
  | [] => [x]
  | [l] => [x; l]
  | l :: ls => l :: insert_before_last x ls
  end.

(** [root.find('startup/[@useLegacyV2RuntimeActivationPolicy]')]: the first
    child [startup] of the root that carries the attribute. *)
Definition find_policy (root : element) : option element :=
  List.find (fun c => bool_decide (el_tag c = "startup") &&
                      bool_decide (is_Some (assoc "useLegacyV2RuntimeActivationPolicy" (el_attrib c))))
            (el_children root).

(** The characters of a file that is read as text. *)
Definition read_text (d : file_data) : M string :=
  match d with
  | Text s => ret s
  | Pickles [] => ret EmptyString
  | Pickles _ => builtin_error "UnicodeDecodeError" "invalid start byte"
  end.

Definition policy_key : string := "useLegacyV2RuntimeActivationPolicy".

(** [LoadLibrary.check_dot_net_config(py_exe_path)]: the status (-1, 0, 1)
    and the message.  The lines are read in text mode; [ET.parse] opens the
    file itself and is given what the file holds. *)
Definition check_dot_net_config (env : Env) (py_exe_path : string) : M (Z * string) :=
  let config_path := py_exe_path +:+ ".config" in
  do exists_ <- isfile config_path;
  if exists_ : bool then
    do fp <- open_read config_path "r";
    do text <- read_text fp;
    let lines := readlines (universal_newlines text) in
    run emit (EExternal "ET.parse" config_path);
    match ET_parse env text with
    | None =>
        let msg := "Invalid XML file " +:+ config_path in
        let msg := msg +:+ Str.nl +:+ "Cannot create useLegacyV2RuntimeActivationPolicy property." in
        run emit (ELog msg);
        ret (-1, msg)
    | Some root =>
        if negb (bool_decide (el_tag root = "configuration")) then
          let msg := "The root tag in " +:+ config_path +:+ " is " +:+ Str.dq +:+ el_tag root
                     +:+ Str.dq +:+ "." +:+ Str.nl in
          let msg := msg +:+ "It must be " +:+ Str.dq +:+ "configuration" +:+ Str.dq
                     +:+ " in order to create a .NET Framework config file " in
          let msg := msg +:+ "to enable the useLegacyV2RuntimeActivationPolicy property." +:+ Str.nl in
          let msg := msg +:+ "To load an assembly from a .NET Framework version <4.0 the " in
          let msg := msg +:+ "following must be in " +:+ config_path +:+ ":" +:+ Str.nl in
          let msg := msg +:+ "<configuration>" +:+ NET_FRAMEWORK_FIX +:+ "</configuration>" +:+ Str.nl in
          run emit (ELog msg);
          ret (-1, msg)
        else
          match find_policy root with
          | None =>
              let lines := insert_before_last NET_FRAMEWORK_FIX lines in
              run open_write (machine env) config_path "w" (Text EmptyString);
              run put_file config_path (Text (on_disk env (Str.concat lines)));
              let msg := "Added the useLegacyV2RuntimeActivationPolicy property to " +:+ config_path in
              let msg := msg +:+ Str.nl +:+ "Try again to see if Python can now load the .NET library."
                         +:+ Str.nl in
              ret (1, msg)
          | Some policy =>
              if negb (bool_decide
                         (Str.lower (default EmptyString (assoc policy_key (el_attrib policy))) = "true"))
              then
                let msg := "The useLegacyV2RuntimeActivationPolicy in " +:+ config_path
                           +:+ " is False" +:+ Str.nl in
                let msg := msg +:+ "Cannot load an assembly from a .NET Framework version <4.0." in
                run emit (ELog msg);
                ret (-1, msg)
              else ret (0, "The useLegacyV2RuntimeActivationPolicy property is enabled")
          end
    end
  else
    run open_write (machine env) config_path "w" (Text EmptyString);
    run put_file config_path
          (Text (on_disk env
                   ("<?xml version =" +:+ Str.dq +:+ "1.0" +:+ Str.dq +:+ "?>"
                    +:+ NET_FRAMEWORK_DESCRIPTION
                    +:+ "<configuration>"
                    +:+ NET_FRAMEWORK_FIX
                    +:+ "</configuration>" +:+ Str.nl)));
    let msg := "Added the useLegacyV2RuntimeActivationPolicy property to " +:+ config_path in
    let msg := msg +:+ Str.nl +:+ "to fix the " +:+ Str.dq
               +:+ "System.IO.FileLoadException: Mixed mode assembly..." +:+ Str.dq
               +:+ " error." +:+ Str.nl in
    let msg := msg +:+ "Try again to see if Python can now load the .NET library." +:+ Str.nl in
    ret (1, msg).

(** [LoadLibrary.is_python_net_installed()] *)
Definition is_python_net_installed (env : Env) : M bool :=
  if clr_importable env then ret true
  else
    let msg := "Python for .NET <pythonnet> is not installed. Cannot load a .NET library." in
    run emit (ELog msg);
    ret false.

(** A constructed [LoadLibrary] object. *)
Record LoadLibrary := {
  _net : option assembly;
  _path : string;
  _lib : lib_ref
}.

(** The default extension the constructor appends. *)
Definition default_extension (env : Env) : string :=
  if IS_WINDOWS env then ".dll"
  else if IS_LINUX env then ".so"
  else if IS_MAC env then ".dylib"
  else EmptyString.

(** The value of [self._path]: lines 47 to 55 of the constructor. *)
Definition resolve_path (env : Env) (path : string) : string :=
  let path :=
    if bool_decide (snd (splitext env path) = EmptyString)
    then path +:+ default_extension env
    else path in
  abspath env path.

Definition ctypes_class (env : Env) (class : string) (path : string) : M lib_ref :=
  run emit (EExternal ("ctypes." +:+ class) path);
  do h <- lift (ctypes_open env class path);
  ret (CtypesLib class h).

(** The [except clr.System.IO.FileLoadException as err] clause. *)
Definition on_FileLoadException {A} (env : Env) (err : string) : M A :=
  if Str.contains "Mixed mode assembly" err then
    do r <- check_dot_net_config env (sys_executable env);
    let '(status, msg) := r in
    if negb (bool_decide (status = 0)) then
      builtin_error "IOError" msg
    else
      let update_msg := "Checking .NET config returned " +:+ Str.dq +:+ msg +:+ Str.dq in
      let update_msg := update_msg +:+ " and still cannot load library." +:+ Str.nl in
      let update_msg := update_msg +:+ err in
      builtin_error "IOError" update_msg
  else
    builtin_error "IOError"
      ("The above " +:+ Str.dq +:+ "System.IO.FileLoadException" +:+ Str.dq
       +:+ " is not handled." +:+ Str.nl).

(** The [net] branch of the constructor, lines 66 to 99. *)
Definition load_net (env : Env) (path : string) : M LoadLibrary :=
  run emit (EExternal "Assembly.LoadFile" path);
  do net <- try_except (lift (Assembly_LoadFile env path))
              (fun err => bool_decide (exc_type err = "FileLoadException"))
              (fun err => on_FileLoadException env (exc_value err));
  let '(head, tail) := path_split env path in
  run (fun s => (Return tt, set_sys_path (head :: sys_path s) s));
  run emit (EExternal "clr.AddReference" (fst (splitext env tail)));
  run lift (clr_AddReference env (fst (splitext env tail)));
  match exported_namespaces net with
  | [] => builtin_error "IndexError" "list index out of range"
  | ns :: _ =>
      run emit (EExternal "__import__" ns);
      do m <- lift (__import__ env ns);
      ret {| _net := Some net; _path := path; _lib := m |}
  end.

(** [LoadLibrary.__init__(self, path, libtype)] *)
Definition LoadLibrary__init__ (env : Env) (path libtype : string) : M LoadLibrary :=
  let _path := resolve_path env path in
  do found <- isfile _path;
  if negb found then
    builtin_error "IOError" ("Cannot find the shared library " +:+ _path +:+ Str.nl)
  else if bool_decide (libtype = "cdll") then
    do l <- ctypes_class env "CDLL" _path;
    ret {| _net := None; _path := _path; _lib := l |}
  else if bool_decide (libtype = "windll") then
    do l <- ctypes_class env "WinDLL" _path;
    ret {| _net := None; _path := _path; _lib := l |}
  else if bool_decide (libtype = "oledll") then
    do l <- ctypes_class env "OleDLL" _path;
    ret {| _net := None; _path := _path; _lib := l |}
  else
    do net_ok <- (if bool_decide (libtype = "net") then is_python_net_installed env
                  else ret false);
    if net_ok : bool then load_net env _path
    else builtin_error "TypeError" ("Invalid library type: " +:+ libtype).

(** ** [server32.py] *)

Abbreviation fs := (gmap string file_data).

(** A method of the server class, before it is bound to an instance: it
    sees the [quiet] flag and the loader's object of the instance and the
    positional and the named arguments, and may read and change files. *)
Definition server_method : Type :=
  bool -> LoadLibrary -> list pyval -> list (string * pyval) -> fs -> result pyval * fs.

(** What [getattr(self.server, name)] can find: a method or a plain value. *)
Inductive attribute :=
| Method (f : server_method)
| Value (v : pyval).

(** A subclass of [Server32]: its name and the attributes of its instances
    (its own methods and the inherited ones). *)
Record subclass := {
  cls_name : string;
  cls_attrs : string -> option attribute
}.

Module Server32.

Record t := {
  quiet : bool;
  _library : LoadLibrary;
  cls : subclass
}.

(** [HTTPServer.__init__(self, (host, port), RequestHandler)]: the socket
    is bound and put into the listening state by the base constructor. *)
Definition HTTPServer__init__ (env : Env) (host : string) (port : Z) : M unit :=
  run emit (EBind host port);
  run lift (socket_bind env host port);
  emit EListen.

(** [Server32.__init__(self, path, libtype, host, port, quiet)] *)
Definition __init__ (env : Env) (c : subclass)
    (path libtype host port : string) (quiet : bool) : M t :=
  do port <- call_int (machine env) port;
  run HTTPServer__init__ env host port;
  do lib <- LoadLibrary__init__ env path libtype;
  ret {| quiet := quiet; _library := lib; cls := c |}.

(** The [path] property. *)
Definition path (self : t) : string := _path (_library self).

(** The [lib] property. *)
Definition lib (self : t) : lib_ref := _lib (_library self).

(** The [net] property. *)
Definition net (self : t) : option assembly := _net (_library self).

(** A method bound to the instance, as [getattr] returns it. *)
Definition bound (self : t) (f : server_method)
  : list pyval -> list (string * pyval) -> fs -> result pyval * fs :=
  f (quiet self) (_library self).

End Server32.

(** The call [f] with starred [args]: the positional arguments an object
    unpacks to. *)
Definition unpack_args (args : pyval) : M (list pyval) :=
  match args with
  | PTuple l | PList l => ret l
  | PDict kv => ret (List.map fst kv)
  | PStr s => ret (List.map (fun a => PStr (String a EmptyString)) (String.list_ascii_of_string s))
  | _ => builtin_error "TypeError"
           ("argument after * must be an iterable, not " +:+ type_name args)
  end.

Fixpoint string_keys (kv : list (pyval * pyval)) : option (list (string * pyval)) :=
  match kv with
  | [] => Some []
  | (PStr k, v) :: t => (fun r => (k, v) :: r) <$> string_keys t
  | _ => None
  end.

(** The call [f] with double-starred [kwargs]: the named arguments an
    object unpacks to. *)
Definition unpack_kwargs (kwargs : pyval) : M (list (string * pyval)) :=
  match kwargs with
  | PDict kv =>
      match string_keys kv with
      | Some l => ret l
      | None => builtin_error "TypeError" "keywords must be strings"
      end
  | _ => builtin_error "TypeError"
           ("argument after ** must be a mapping, not " +:+ type_name kwargs)
  end.

Module RequestHandler.

Record t := {
  server : Server32.t;
  path : string;
  (** the thread that runs the handler *)
  thread : nat;
  (** [__file__] of the module, and whether its source can be read *)
  module_file : string;
  has_source : bool
}.

(** The text of the lines of [do_GET] that can raise. *)
Definition source_line (line : Z) : string :=
  if bool_decide (line = 165) then "method, pickle_protocol, pickle_temp_file = request.split(':', 2)"
  else if bool_decide (line = 169) then "with open(pickle_temp_file, 'rb') as f:"
  else if bool_decide (line = 170) then "args = pickle.load(f)"
  else if bool_decide (line = 171) then "kwargs = pickle.load(f)"
  else if bool_decide (line = 172) then "response = getattr(self.server, method)(*args, **kwargs)"
  else if bool_decide (line = 174) then "with open(pickle_temp_file, 'wb') as f:"
  else if bool_decide (line = 175) then "pickle.dump(response, f, protocol=int(pickle_protocol))"
  else EmptyString.

(** The traceback entry of the frame of [do_GET] at a line. *)
Definition frame (self : t) (line : Z) : tb_entry :=
  TbEntry (module_file self) line "do_GET"
          (if has_source self then source_line line else EmptyString).

(** A statement of [do_GET] at [line]: an exception that leaves it has
    the frame of [do_GET] on top of its traceback. *)
Definition at_line {A} (self : t) (line : Z) (m : M A) : M A :=
  fun s => match m s with
           | (Raise e, s') => (Raise (push_frame (frame self line) e), s')
           | r => r
           end.

(** [log_message]: the body is [pass]. *)
Definition log_message (self : t) (fmt : string) (args : list string) : M unit :=
  ret tt.

(** [BaseHTTPRequestHandler.log_request], which [send_response] calls. *)
Definition log_request (self : t) (code : Z) : M unit :=
  log_message self (Str.dq +:+ "%s" +:+ Str.dq +:+ " %s %s")
              ["GET " +:+ path self; pretty code; "-"].

(** What [BaseHTTPRequestHandler.log_message] does when it is not
    overridden: one line on [sys.stderr]. *)
Definition base_log_message (self : t) (fmt : string) (args : list string) : M unit :=
  emit (EStderr (Str.concat args)).

Definition send_response (self : t) (code : Z) : M unit :=
  run log_request self code;
  emit (ESendResponse code).

Definition send_header (self : t) (k v : string) : M unit := emit (ESendHeader k v).
Definition end_headers (self : t) : M unit := emit EEndHeaders.
Definition wfile_write (self : t) (data : string) : M unit := emit (EWfileWrite data).

(** [threading.Thread(target=t).start()]: the target runs on a thread of
    its own, with an identifier no running thread has. *)
Definition Thread_start (tg : target) : M unit :=
  fun s => (Return tt,
            State (files s) (sys_path s) (S (next_tid s))
                  (trace s ++ [EThreadStart (next_tid s) tg])).

(** [method, pickle_protocol, pickle_temp_file = request.split(':', 2)] *)
Definition unpack3 (parts : list string) : M (string * string * string) :=
  match parts with
  | [a; b; c] => ret (a, b, c)
  | _ => builtin_error "ValueError"
           ("not enough values to unpack (expected 3, got "
            +:+ pretty (Z.of_nat (length parts)) +:+ ")")
  end.

(** The call of [getattr(self.server, method)] with the starred [args] and
    the double-starred [kwargs]. *)
Definition invoke (self : t) (method : string) (args kwargs : pyval) : M pyval :=
  match cls_attrs (Server32.cls (server self)) method with
  | None =>
      builtin_error "AttributeError"
        ("'" +:+ cls_name (Server32.cls (server self))
         +:+ "' object has no attribute '" +:+ method +:+ "'")
  | Some a =>
      do pos <- unpack_args args;
      do kw <- unpack_kwargs kwargs;
      match a with
      | Value v => builtin_error "TypeError" ("'" +:+ type_name v +:+ "' object is not callable")
      | Method f =>
          run emit (EInvoke method pos kw);
          fun s => let '(r, files') := Server32.bound (server self) f pos kw (files s) in
                   (r, set_files files' s)
      end
  end.

(** The body of the [try] statement, lines 165 to 178. *)
Definition try_body (env : Env) (self : t) (request : string) : M unit :=
  do parts <- at_line self 165 (unpack3 (Str.split Str.colon 2 request));
  let '(method, pickle_protocol, pickle_temp_file) := parts in
  do response <-
    (if bool_decide (method = "LIB32_PATH") then
       ret (PStr (Server32.path (server self)))
     else
       do f <- at_line self 169 (open_read pickle_temp_file "rb");
       do a <- at_line self 170 (pickle_load (machine env) f);
       do k <- at_line self 171 (pickle_load (machine env) (snd a));
       at_line self 172 (invoke self method (fst a) (fst k)));
  run at_line self 174 (open_write (machine env) pickle_temp_file "wb" (Pickles []));
  run at_line self 175
        (do p <- call_int (machine env) pickle_protocol;
         pickle_dump (machine env) response pickle_temp_file p);
  run send_response self 200;
  end_headers self.

(** [tb_list[min(len(tb_list)-1, 1)]] *)
Definition pick_entry (tb_list : list tb_entry) : M tb_entry :=
  match tb_list with
  | [] => builtin_error "IndexError" "list index out of range"
  | [a] => ret a
  | _ :: b :: _ => ret b
  end.

(** The text the [except] clause builds from the entry and the exception. *)
Definition format_error (tb : tb_entry) (e : exception) : string :=
  let msg := Str.nl +:+ "  File " +:+ Str.dq +:+ tb_filename tb +:+ Str.dq
             +:+ ", line " +:+ pretty (tb_lineno tb) +:+ ", in " +:+ tb_name tb in
  let msg := if bool_decide (tb_line tb = EmptyString) then msg
             else msg +:+ Str.nl +:+ "    " +:+ tb_line tb in
  msg +:+ Str.nl +:+ exc_type e +:+ ": " +:+ exc_value e.

(** The [except Exception] clause, lines 181 to 194. *)
Definition except_clause (self : t) (e : exception) : M unit :=
  run send_response self 501;
  run send_header self "Content-type" "text/plain";
  run end_headers self;
  do tb <- pick_entry (exc_tb e);
  wfile_write self (format_error tb e).

(** [RequestHandler.do_GET(self)] *)
Definition do_GET (env : Env) (self : t) : M unit :=
  let request := Str.drop 1 (path self) in
  if bool_decide (request = "SHUTDOWN_SERVER") then
    Thread_start ServerShutdown
  else
    try_except (try_body env self request) is_Exception (except_clause self).

End RequestHandler.

(** ** Observations on a trace *)

Definition is_invoke (e : event) : bool :=
  match e with EInvoke _ _ _ => true | _ => false end.
Definition is_response (e : event) : bool :=
  match e with
  | ESendResponse _ | ESendHeader _ _ | EEndHeaders | EWfileWrite _ => true
  | _ => false
  end.
Definition is_open (e : event) : bool :=
  match e with EOpen _ _ => true | _ => false end.
Definition is_open_w (e : event) : bool :=
  match e with EOpen _ m => bool_decide (m = "w") | _ => false end.
Definition is_LoadFile (e : event) : bool :=
  match e with EExternal f _ => bool_decide (f = "Assembly.LoadFile") | _ => false end.
Definition is_stderr (e : event) : bool :=
  match e with EStderr _ => true | _ => false end.

(** The status line sent, if any. *)
Fixpoint status_of (tr : list event) : option Z :=
  match tr with
  | [] => None
  | ESendResponse c :: _ => Some c
  | _ :: t => status_of t
  end.

(** The body written to [wfile]. *)
Fixpoint body_of (tr : list event) : string :=
  match tr with
  | [] => EmptyString
  | EWfileWrite b :: t => b +:+ body_of t
  | _ :: t => body_of t
  end.

(** The events a computation added to the trace. *)
Definition events_since (s s' : state) : list event :=
  drop (length (trace s)) (trace s').

(** ** The two ends of an exchange *)

(** The request line of the protocol, the leading slash left out. *)
Definition request_line (method protocol file : string) : string :=
  method +:+ ":" +:+ protocol +:+ ":" +:+ file.

(** Named arguments as a Python dictionary. *)
Definition kwdict (kw : list (string * pyval)) : pyval :=
  PDict (List.map (fun p => (PStr (fst p), snd p)) kw).

(** The exchange file as the client leaves it for a request: the positional
    arguments as a tuple, then the named ones as a dictionary, each pickled
    on its own with the client's protocol. *)
Definition exchange (p : Z) (args : list pyval) (kwargs : list (string * pyval)) : file_data :=
  Pickles [Pickled p (PTuple args); Pickled p (kwdict kwargs)].

(** The echo method of the tests ([send_data] of the dummy server): it
    returns the pair of the arguments it received. *)
Definition send_data : server_method :=
  fun _ _ args kwargs f => (Return (PTuple [PTuple args; kwdict kwargs]), f).

(** What the client of the echo method reads back from the object in the
    exchange file: [args, kwargs = ...]. *)
Definition decode_echo (v : pyval) : option (list pyval * list (string * pyval)) :=
  match v with
  | PTuple [PTuple args; PDict kv] => (fun kw => (args, kw)) <$> string_keys kv
  | _ => None
  end.

(** ** Fixtures: a Linux machine and the echo server of the tests *)

Module Fixture.

(** A 32-bit interpreter. *)
Definition mc : Machine := {|
  can_write := fun _ => true;
  HIGHEST_PROTOCOL := 4;
  LONG_MAX := 2147483647;
  int_max_str_digits := 4300;
  HIGHEST_fits := ltac:(done)
|}.

Definition env : Env := {|
  IS_WINDOWS := false; IS_LINUX := true; IS_MAC := false;
  abspath := fun p => if Str.startswith "/" p then p else "/work/" +:+ p;
  path_split := fun p => ("/work", Str.drop 6 p);
  sys_executable := "/usr/bin/python";
  machine := mc;
  socket_bind := fun _ _ => Return tt;
  ctypes_open := fun _ p =>
    if Str.contains "64" p then Raise (Exc "OSError" (p +:+ ": wrong ELF class: ELFCLASS64") [])
    else Return 1;
  clr_importable := false;
  Assembly_LoadFile := fun _ => Raise (Exc "FileLoadException" "Mixed mode assembly is built against version 'v2.0.50727'" []);
  clr_AddReference := fun _ => Return tt;
  __import__ := fun ns => Return (NetModule ns);
  ET_parse := fun text =>
    if Str.contains "<configuration>" text
    then Some (Element "configuration" []
                 (if Str.contains policy_key text
                  then [Element "startup" [(policy_key, "true")] []]
                  else []))
    else None
|}.

(** The same machine with pythonnet installed. *)
Definition env_net : Env := {|
  IS_WINDOWS := false; IS_LINUX := true; IS_MAC := false;
  abspath := abspath env; path_split := path_split env;
  sys_executable := sys_executable env; machine := mc;
  socket_bind := socket_bind env; ctypes_open := ctypes_open env;
  clr_importable := true;
  Assembly_LoadFile := Assembly_LoadFile env;
  clr_AddReference := clr_AddReference env;
  __import__ := __import__ env;
  ET_parse := ET_parse env
|}.

Definition helper_entry : tb_entry := TbEntry "/work/dummy32.py" 40 "check" "raise ValueError('bad value')".
Definition method_entry : tb_entry := TbEntry "/work/dummy32.py" 31 "fail" "self.check(x)".

(** A method whose helper raises. *)
Definition fail : server_method :=
  fun _ _ args kwargs f =>
    (Raise (Exc "ValueError" "bad value" [method_entry; helper_entry]), f).

Definition Dummy32 : subclass := {|
  cls_name := "Dummy32";
  cls_attrs := fun name =>
    if bool_decide (name = "send_data") then Some (Method send_data)
    else if bool_decide (name = "fail") then Some (Method fail)
    else if bool_decide (name = "quiet") then Some (Value (PBool true))
    else None
|}.

Definition lib : LoadLibrary :=
  {| _net := None; _path := "/work/dummy_lib32.so"; _lib := CtypesLib "CDLL" 1 |}.

Definition srv (q : bool) : Server32.t :=
  {| Server32.quiet := q; Server32._library := lib; Server32.cls := Dummy32 |}.

Definition handler (q : bool) (p : string) : RequestHandler.t := {|
  RequestHandler.server := srv q;
  RequestHandler.path := p;
  RequestHandler.thread := 0;
  RequestHandler.module_file := "/work/msl/loadlib/server32.py";
  RequestHandler.has_source := true
|}.

(** A server class with a method that answers with [self.quiet] and a
    method that calls [sys.exit()]. *)
Definition is_quiet : server_method :=
  fun q _ args kwargs f => (Return (PBool q), f).

Definition exit_entry : tb_entry := TbEntry "/work/probe32.py" 12 "leave" "sys.exit(0)".

Definition leave : server_method :=
  fun _ _ args kwargs f => (Raise (BaseExc "SystemExit" "0" [exit_entry] false), f).

Definition Probe32 : subclass := {|
  cls_name := "Probe32";
  cls_attrs := fun name =>
    if bool_decide (name = "is_quiet") then Some (Method is_quiet)
    else if bool_decide (name = "leave") then Some (Method leave)
    else None
|}.

Definition probe (q : bool) (p : string) : RequestHandler.t := {|
  RequestHandler.server :=
    {| Server32.quiet := q; Server32._library := lib; Server32.cls := Probe32 |};
  RequestHandler.path := p;
  RequestHandler.thread := 0;
  RequestHandler.module_file := "/work/msl/loadlib/server32.py";
  RequestHandler.has_source := true
|}.

Definition s0 : state := {|
  files := {[ "/tmp/x.pickle" := exchange 2 [PInt 111; PTuple [PInt 1; PInt 2]] [("x", PStr "abcd")];
              "/work/dummy_lib32.so" := Text "ELF32";
              "/work/dummy_lib64.so" := Text "ELF64" ]};
  sys_path := [];
  next_tid := 1;
  trace := []
|}.

End Fixture.

(** * The vocabulary of the properties *)

(** The events of the [try] body before it answers: files opened and
    methods invoked. *)
Definition io_event (e : event) : Prop :=
  match e with
  | EOpen _ _ | EInvoke _ _ _ => True
  | _ => False
  end.

(** A computation that only opens files and invokes methods: it starts no
    thread and sends nothing. *)
Definition silent {A} (m : M A) : Prop :=
  forall s r s', m s = (r, s') ->
    next_tid s' = next_tid s /\
    exists evs, trace s' = trace s ++ evs /\ Forall io_event evs.

(** A statement of [do_GET]: silent, and an exception that leaves it has the
    frame of [do_GET] on top of its traceback. *)
Definition framed {A} (self : RequestHandler.t) (m : M A) : Prop :=
  silent m /\
  forall s e s', m s = (Raise e, s') ->
    exists line rest, exc_tb e = RequestHandler.frame self line :: rest.

(** The body of the [try]: when it returns, the last thing it did was to
    send status 200 and end the headers; when it raises, it has sent
    nothing. *)
Definition completes (self : RequestHandler.t) (m : M unit) : Prop :=
  forall s r s', m s = (r, s') ->
    next_tid s' = next_tid s /\
    exists evs, Forall io_event evs /\
      match r with
      | Return _ => trace s' = trace s ++ evs ++ [ESendResponse 200; EEndHeaders]
      | Raise e =>
          trace s' = trace s ++ evs /\
          exists line rest, exc_tb e = RequestHandler.frame self line :: rest
      end.

(** The location the claim asks for: the innermost frame of the traceback,
    the frame of [do_GET] left out. *)
Definition innermost_user_entry (tb_list : list tb_entry) : option tb_entry :=
  last (tail tb_list).

(** Claim C2 as it is stated, at one request: the location in the body. *)
Definition reports_innermost (env : Env) (self : RequestHandler.t) (s : state) : Prop :=
  forall e s1,
    RequestHandler.try_body env self (Str.drop 1 (RequestHandler.path self)) s = (Raise e, s1) ->
    exists tb,
      innermost_user_entry (exc_tb e) = Some tb /\
      body_of (events_since s (snd (RequestHandler.do_GET env self s)))
      = RequestHandler.format_error tb e.

(** Claim C2 as it is stated, at one request: the failure never leaves
    [do_GET]. *)
Definition caught_at_boundary (env : Env) (self : RequestHandler.t) (s : state) : Prop :=
  forall e s1,
    RequestHandler.try_body env self (Str.drop 1 (RequestHandler.path self)) s = (Raise e, s1) ->
    exists s', RequestHandler.do_GET env self s = (Return tt, s').

(** The entry the code reports: the second of the traceback, which is the
    frame [do_GET] called, or the frame of [do_GET] itself when the
    traceback has no other. *)
Definition reported_entry (self : RequestHandler.t) (e : exception) (tb : tb_entry) : Prop :=
  (exists line, exc_tb e = [tb] /\ tb = RequestHandler.frame self line) \/
  (exists line rest, exc_tb e = RequestHandler.frame self line :: tb :: rest).

(** What [do_GET] sends after the [try] body raised. *)
Definition failure_events (tb : tb_entry) (e : exception) : list event :=
  [ESendResponse 501; ESendHeader "Content-type" "text/plain"; EEndHeaders;
   EWfileWrite (RequestHandler.format_error tb e)].

(** The same handler on a server that was given another [quiet]. *)
Definition with_quiet (q : bool) (self : RequestHandler.t) : RequestHandler.t := {|
  RequestHandler.server :=
    {| Server32.quiet := q;
       Server32._library := Server32._library (RequestHandler.server self);
       Server32.cls := Server32.cls (RequestHandler.server self) |};
  RequestHandler.path := RequestHandler.path self;
  RequestHandler.thread := RequestHandler.thread self;
  RequestHandler.module_file := RequestHandler.module_file self;
  RequestHandler.has_source := RequestHandler.has_source self
|}.

(** The method that a request line names: its first field. *)
Definition method_of (request : string) : string :=
  hd EmptyString (Str.split Str.colon 2 request).

(** The method does not look at [self.quiet]. *)
Definition ignores_quiet (f : server_method) : Prop :=
  forall q q' l args kwargs (files : fs),
    f q l args kwargs files = f q' l args kwargs files.

(** The attribute that the request names, if it is a method of the class,
    does not look at [self.quiet]. *)
Definition quiet_blind (self : RequestHandler.t) : Prop :=
  forall f,
    cls_attrs (Server32.cls (RequestHandler.server self))
              (method_of (Str.drop 1 (RequestHandler.path self))) = Some (Method f) ->
    ignores_quiet f.

(** Claim C9 as it is stated, at one request: whatever [quiet] is, the
    status, the body and the files after the request are the same. *)
Definition same_answer_whatever_quiet (env : Env) (self : RequestHandler.t) (s : state)
  : Prop :=
  forall q,
    let s1 := snd (RequestHandler.do_GET env (with_quiet q self) s) in
    let s2 := snd (RequestHandler.do_GET env self s) in
    status_of (events_since s s1) = status_of (events_since s s2) /\
    body_of (events_since s s1) = body_of (events_since s s2) /\
    files s1 = files s2.

(** Did the handler write a log line to the console? *)
Definition logged (tr : list event) : bool := existsb is_stderr tr.

(** Claim C9 as it is stated, at one request: the request is logged on the
    console exactly when the server is not quiet. *)
Definition logs_unless_quiet (env : Env) (self : RequestHandler.t) (s : state) : Prop :=
  logged (events_since s (snd (RequestHandler.do_GET env self s)))
  = negb (Server32.quiet (RequestHandler.server self)).

(** The [ctypes] class of a calling-convention kind. *)
Definition ctypes_kind (libtype : string) : option string :=
  if bool_decide (libtype = "cdll") then Some "CDLL"
  else if bool_decide (libtype = "windll") then Some "WinDLL"
  else if bool_decide (libtype = "oledll") then Some "OleDLL"
  else None.

(** The library types the documentation of [LoadLibrary] allows. *)
Definition valid_libtype (libtype : string) : bool :=
  bool_decide (libtype = "cdll") || bool_decide (libtype = "windll")
  || bool_decide (libtype = "oledll") || bool_decide (libtype = "net").

(** The failure of line 57. *)
Definition NotFound (resolved : string) : exception :=
  Exc "IOError" ("Cannot find the shared library " +:+ resolved +:+ Str.nl) [].

(** Claim C4 as it is stated, at one call: an existing file and a valid
    kind are enough for the load to succeed. *)
Definition loads_every_existing_file (env : Env) (path libtype : string) (s : state) : Prop :=
  (exists d, files s !! resolve_path env path = Some d) ->
  valid_libtype libtype = true ->
  exists l s', LoadLibrary__init__ env path libtype s = (Return l, s') /\
               _path l = resolve_path env path.

(** Is the event the socket entering the listening state? *)
Definition is_listen (e : event) : bool :=
  match e with EListen => true | _ => false end.

(** The state in which the loader runs: the socket is bound and listening. *)
Definition listening (host : string) (port : Z) (s : state) : state :=
  set_trace (trace s ++ [EBind host port; EListen]) s.

(** Claim C6 as it is stated, at one call: when the constructor fails, the
    socket was never put into the listening state. *)
Definition never_listens_on_failure (env : Env) (c : subclass)
    (path libtype host port : string) (q : bool) (s : state) : Prop :=
  forall e s',
    Server32.__init__ env c path libtype host port q s = (Raise e, s') ->
    existsb is_listen (events_since s s') = false.

(** How many of the events satisfy [P]. *)
Definition count (P : event -> bool) (evs : list event) : nat :=
  length (List.filter P evs).

(** The failure the constructor raises after a check of the configuration
    that answered [status] with [msg]. *)
Definition repair_failure (status : Z) (msg err : string) : exception :=
  if bool_decide (status = 0) then
    Exc "IOError" ((("Checking .NET config returned " +:+ Str.dq +:+ msg +:+ Str.dq)
                    +:+ " and still cannot load library." +:+ Str.nl) +:+ err) []
  else Exc "IOError" msg [].

(** Claim C8 as it is stated, at one call: the failure that follows the
    repair tells the caller to try again. *)
Definition instructs_retry (env : Env) (path : string) (s : state) : Prop :=
  forall e s',
    LoadLibrary__init__ env path "net" s = (Raise e, s') ->
    Str.contains "Try again" (exc_value e) = true.

(** The fixture with a configuration file that already enables the policy. *)
Definition s_enabled : state :=
  set_files (<["/usr/bin/python.config" :=
                 Text "<configuration><startup useLegacyV2RuntimeActivationPolicy='true'/></configuration>"]>
               (files Fixture.s0)) Fixture.s0.

(** The class of the exception that line 175 raises on a protocol field it
    cannot use: [pickle.dump] raises [OverflowError] for an integer outside
    the range of a C [long]; the other refusals, of [int] and of
    [pickle.dump], are [ValueError]s. *)
Definition refusal (mc : Machine) (protocol : string) : string :=
  match int mc protocol with
  | Some p => if bool_decide (p < LONG_MIN mc \/ LONG_MAX mc < p) then "OverflowError"
              else "ValueError"
  | None => "ValueError"
  end.

(** Does [do_GET] answer a [try] body that finished with [r]?  It does
    when the body returned and when it raised an exception that the
    [except Exception] clause handles. *)
Definition answered (r : result unit) : bool :=
  match r with
  | Return _ => true
  | Raise e => is_Exception e
  end.

(** Is the event a status line? *)
Definition is_status (e : event) : bool :=
  match e with ESendResponse _ => true | _ => false end.

(** Is the event the end of the headers? *)
Definition is_end_headers (e : event) : bool :=
  match e with EEndHeaders => true | _ => false end.

(** Is the event the start of a thread? *)
Definition is_thread_start (e : event) : bool :=
  match e with EThreadStart _ _ => true | _ => false end.

(** The exchange file that a request line names: its third field. *)
Definition exchange_of (request : string) : option string :=
  match Str.split Str.colon 2 request with
  | [_; _; file] => Some file
  | _ => None
  end.

(** The methods of a class leave the files as they are. *)
Definition file_preserving (c : subclass) : Prop :=
  forall name f q l args kwargs (files : fs),
    cls_attrs c name = Some (Method f) -> snd (f q l args kwargs files) = files.

(** A computation that leaves [sys.path] alone and changes no file but,
    possibly, the file [o]. *)
Definition keeps {A} (o : option string) (m : M A) : Prop :=
  forall s r s', m s = (r, s') ->
    sys_path s' = sys_path s /\
    forall p, o <> Some p -> files s' !! p = files s !! p.

(** Is the event the binding of the socket? *)
Definition is_bind (e : event) : bool :=
  match e with EBind _ _ => true | _ => false end.
(** The text that [check_dot_net_config] writes when there is no
    configuration file yet (lines 249 to 253). *)
Definition created_config : string :=
  "<?xml version =" +:+ Str.dq +:+ "1.0" +:+ Str.dq +:+ "?>"
  +:+ NET_FRAMEWORK_DESCRIPTION
  +:+ "<configuration>"
  +:+ NET_FRAMEWORK_FIX
  +:+ "</configuration>" +:+ Str.nl.

(** The warnings logged among some events. *)
Definition log_messages (evs : list event) : list string :=
  omap (fun e => match e with ELog msg => Some msg | _ => None end) evs.


(** Fixtures for the .NET branch: the machine of [Fixture.env_net] with an
    assembly loader of one's choice. *)
Module NetFixture.

Definition with_LoadFile (load : string -> result assembly) : Env := {|
  IS_WINDOWS := false; IS_LINUX := true; IS_MAC := false;
  abspath := abspath Fixture.env; path_split := path_split Fixture.env;
  sys_executable := sys_executable Fixture.env; machine := Fixture.mc;
  socket_bind := socket_bind Fixture.env; ctypes_open := ctypes_open Fixture.env;
  clr_importable := true;
  Assembly_LoadFile := load;
  clr_AddReference := clr_AddReference Fixture.env;
  __import__ := __import__ Fixture.env;
  ET_parse := ET_parse Fixture.env
|}.

(** The assembly loads and exports types of two namespaces. *)
Definition env_loaded : Env :=
  with_LoadFile (fun _ => Return (Assembly ["DotNet"; "DotNet.Util"])).

(** The assembly is refused, and not for the mixed-mode reason. *)
Definition env_refused : Env :=
  with_LoadFile (fun p => Raise (Exc "FileLoadException"
                                     ("Could not load file or assembly '" +:+ p +:+ "'") [])).

(** The fixture with a .NET library beside the others. *)
Definition s_dll : state :=
  set_files (<["/work/dummy_lib32.dll" := Text "PE32"]> (files Fixture.s0)) Fixture.s0.

(** The fixture with a configuration file of two lines, without the
    policy, as an editor on Windows leaves them: each line ends with a
    carriage return and a line feed. *)
Definition s_crlf : state :=
  set_files (<["/usr/bin/python.config" :=
                 Text ("<configuration>" +:+ String (ascii_of_nat 13) Str.nl
                       +:+ "</configuration>" +:+ String (ascii_of_nat 13) Str.nl)]>
               (files Fixture.s0)) Fixture.s0.

(** The configuration written on one line. *)
Definition s_one_line : state :=
  set_files (<["/usr/bin/python.config" := Text "<configuration></configuration>"]>
               (files Fixture.s0)) Fixture.s0.

End NetFixture.

(** * Properties *)

#[local] Arguments String.append !_ _ / : simpl nomatch.

(** ** Sanity checks of the string and path functions *)

Example int_2 : int Fixture.mc "2" = Some 2.
Proof. reflexivity. Qed.

Example int_neg : int Fixture.mc " -1 " = Some (-1).
Proof. reflexivity. Qed.

Example int_bad : int Fixture.mc "two" = None.
Proof. reflexivity. Qed.

Example int_underscore : int Fixture.mc "80_00" = Some 8000.
Proof. reflexivity. Qed.

Example int_separator :
  int Fixture.mc (String "2" (String (ascii_of_nat 31) EmptyString)) = None.
Proof. reflexivity. Qed.

Example split_3 :
  Str.split Str.colon 2 "add:2:C:\tmp\x.pickle" = ["add"; "2"; "C:\tmp\x.pickle"].
Proof. reflexivity. Qed.

Example split_1 : Str.split Str.colon 2 "add" = ["add"].
Proof. reflexivity. Qed.

Example splitext_dll : _splitext "C:\lib\my.lib.dll" Str.backslash (Some Str.slash)
                       = ("C:\lib\my.lib", ".dll").
Proof. reflexivity. Qed.

Example splitext_none : _splitext "./examples/cpp_lib32" Str.slash None
                        = ("./examples/cpp_lib32", "").
Proof. reflexivity. Qed.

Example splitext_hidden : _splitext "/home/u/.bashrc" Str.slash None
                          = ("/home/u/.bashrc", "").
Proof. reflexivity. Qed.

Example readlines_ex : readlines ("<a>" +:+ Str.nl +:+ "</a>" +:+ Str.nl)
                       = ["<a>" +:+ Str.nl; "</a>" +:+ Str.nl].
Proof. reflexivity. Qed.

Example readlines_crlf :
  readlines (universal_newlines
               ("<a>" +:+ String (ascii_of_nat 13) Str.nl +:+ "</a>"
                +:+ String (ascii_of_nat 13) EmptyString +:+ "<b>"))
  = ["<a>" +:+ Str.nl; "</a>" +:+ Str.nl; "<b>"].
Proof. reflexivity. Qed.

(** ** Strings *)

Section StrFacts.

Lemma append_nil_r (s : string) : s +:+ "" = s.
Proof. induction s as [|a s IH]; simpl; [done | by rewrite IH]. Qed.

Lemma append_assoc (a b c : string) : (a +:+ b) +:+ c = a +:+ b +:+ c.
Proof. induction a as [|x a IH]; simpl; [done | by rewrite IH]. Qed.

Lemma ascii_eqb_refl (a : ascii) : Str.ascii_eqb a a = true.
Proof. unfold Str.ascii_eqb. by rewrite bool_decide_eq_true. Qed.

Lemma startswith_app (p s : string) : Str.startswith p (p +:+ s) = true.
Proof.
  induction p as [|a p IH]; simpl; [done |].
  by rewrite ascii_eqb_refl, IH.
Qed.

Lemma startswith_inv (p s : string) :
  Str.startswith p s = true -> exists post, s = p +:+ post.
Proof.
  revert s. induction p as [|a p IH]; intros s H; simpl in *.
  - by exists s.
  - destruct s as [|b s]; [done |].
    apply andb_true_iff in H as [Hab Hps].
    apply bool_decide_eq_true in Hab as ->.
    destruct (IH _ Hps) as [post ->]. by exists post.
Qed.

(** [needle in hay] holds exactly when the text occurs in it. *)
Lemma contains_spec (needle hay : string) :
  Str.contains needle hay = true <-> Str.occurs needle hay.
Proof.
  split.
  - induction hay as [|a hay IH]; simpl; intros H.
    + rewrite orb_false_r in H. apply startswith_inv in H as [post ->].
      by exists "", post.
    + apply orb_true_iff in H as [H | H].
      * apply startswith_inv in H as [post ->]. by exists "", post.
      * destruct (IH H) as (pre & post & ->). by exists (String a pre), post.
  - intros (pre & post & ->).
    induction pre as [|a pre IH]; simpl.
    + destruct needle as [|b needle]; simpl; [by destruct post |].
      by rewrite ascii_eqb_refl, startswith_app.
    + rewrite IH. apply orb_true_r.
Qed.

Lemma occurs_app_l (t a b : string) : Str.occurs t a -> Str.occurs t (a +:+ b).
Proof.
  intros (pre & post & ->). exists pre, (post +:+ b).
  by rewrite !append_assoc.
Qed.

Lemma occurs_app_r (t a b : string) : Str.occurs t b -> Str.occurs t (a +:+ b).
Proof.
  intros (pre & post & ->). exists (a +:+ pre), post.
  by rewrite !append_assoc.
Qed.

Lemma occurs_refl (t : string) : Str.occurs t t.
Proof. exists "", "". simpl. by rewrite append_nil_r. Qed.

Lemma cut_app (c : ascii) (m r : string) :
  Str.cut c m = None -> Str.cut c (m +:+ String c r) = Some (m, r).
Proof.
  induction m as [|a m IH]; simpl; intros H.
  - by rewrite ascii_eqb_refl.
  - destruct (Str.ascii_eqb a c); [done |].
    destruct (Str.cut c m) as [[l r']|]; [done |].
    by rewrite IH.
Qed.

(** The request line of the protocol splits into its three fields, also
    when the path of the exchange file has colons of its own. *)
Lemma split_request (method protocol file : string) :
  Str.cut Str.colon method = None ->
  Str.cut Str.colon protocol = None ->
  Str.split Str.colon 2 (request_line method protocol file)
  = [method; protocol; file].
Proof.
  intros Hm Hp. unfold request_line. simpl.
  change (String ":" (protocol +:+ String ":" file))
    with (String Str.colon (protocol +:+ String Str.colon file)).
  rewrite (cut_app _ _ _ Hm).
  by rewrite (cut_app _ _ _ Hp).
Qed.

Lemma request_line_not_sentinel (method protocol file : string) :
  request_line method protocol file <> "SHUTDOWN_SERVER".
Proof.
  intros H.
  assert (Hc : Str.contains ":" (request_line method protocol file) = true).
  { apply contains_spec. by exists method, (protocol +:+ ":" +:+ file). }
  rewrite H in Hc. vm_compute in Hc. done.
Qed.

End StrFacts.

(** ** What the steps of a request do to the trace *)

Section Silent.

Context {A B : Type}.

Lemma silent_ret (a : A) : silent (ret a).
Proof.
  intros s r s' [= <- <-]. split; [done |].
  exists []. by rewrite app_nil_r.
Qed.

Lemma silent_raise (e : exception) : silent (@raise A e).
Proof.
  intros s r s' [= <- <-]. split; [done |].
  exists []. by rewrite app_nil_r.
Qed.

Lemma silent_lift (r : result A) : silent (lift r).
Proof.
  intros s r' s' [= <- <-]. split; [done |].
  exists []. by rewrite app_nil_r.
Qed.

Lemma silent_bind (m : M A) (k : A -> M B) :
  silent m -> (forall a, silent (k a)) -> silent (bind m k).
Proof.
  intros Hm Hk s r s' H. unfold bind in H.
  destruct (m s) as [[a|e] s1] eqn:E.
  - destruct (Hm _ _ _ E) as (Ht1 & evs1 & Htr1 & Hio1).
    destruct (Hk a _ _ _ H) as (Ht2 & evs2 & Htr2 & Hio2).
    split; [congruence |].
    exists (evs1 ++ evs2). split.
    + by rewrite Htr2, Htr1, app_assoc.
    + by apply Forall_app.
  - injection H as <- <-. exact (Hm _ _ _ E).
Qed.

End Silent.

Lemma silent_emit (e : event) : io_event e -> silent (emit e).
Proof.
  intros He s r s' [= <- <-]. split; [done |].
  exists [e]. split; [done | by constructor].
Qed.

Lemma silent_get_files : silent get_files.
Proof.
  intros s r s' [= <- <-]. split; [done |].
  exists []. by rewrite app_nil_r.
Qed.

Lemma silent_put_file (p : string) (d : file_data) : silent (put_file p d).
Proof.
  intros s r s' [= <- <-]. split; [done |].
  exists []. by rewrite app_nil_r.
Qed.

Lemma silent_builtin_error {A} (ty msg : string) : silent (@builtin_error A ty msg).
Proof. apply silent_raise. Qed.

Create HintDb silent.
#[local] Hint Resolve silent_ret silent_raise silent_lift silent_get_files
  silent_put_file silent_builtin_error : silent.

Ltac silent_step :=
  first
    [ apply silent_bind; [| intros ?]
    | apply silent_emit; exact I
    | progress eauto with silent ].

Lemma silent_open_read (path mode : string) : silent (open_read path mode).
Proof.
  unfold open_read. repeat silent_step.
  destruct (_ !! _); eauto with silent.
Qed.

Lemma silent_open_write (mc : Machine) (path mode : string) (d : file_data) :
  silent (open_write mc path mode d).
Proof.
  unfold open_write. repeat silent_step.
  destruct (can_write mc path); eauto with silent.
Qed.

Lemma silent_pickle_load (mc : Machine) (f : file_data) : silent (pickle_load mc f).
Proof.
  unfold pickle_load.
  destruct f as [[|]|[|p rest]]; eauto with silent.
  case_bool_decide; eauto with silent.
Qed.

Lemma silent_pickle_dump (mc : Machine) (obj : pyval) (path : string) (p : Z) :
  silent (pickle_dump mc obj path p).
Proof.
  unfold pickle_dump. do 2 (case_bool_decide; eauto with silent).
  repeat silent_step.
  destruct (_ !! _) as [[|]|]; eauto with silent.
Qed.

Lemma silent_call_int (mc : Machine) (s : string) : silent (call_int mc s).
Proof. unfold call_int. destruct (parse_int mc s); eauto with silent. Qed.

Lemma silent_unpack_args (v : pyval) : silent (unpack_args v).
Proof. destruct v; simpl; eauto with silent. Qed.

Lemma silent_unpack_kwargs (v : pyval) : silent (unpack_kwargs v).
Proof.
  destruct v; simpl; eauto with silent.
  destruct (string_keys kv); eauto with silent.
Qed.

Lemma silent_unpack3 (parts : list string) : silent (RequestHandler.unpack3 parts).
Proof.
  unfold RequestHandler.unpack3.
  destruct parts as [|a [|b [|c [|]]]]; eauto with silent.
Qed.

#[local] Hint Resolve silent_open_read silent_open_write silent_pickle_load
  silent_pickle_dump silent_call_int silent_unpack_args silent_unpack_kwargs
  silent_unpack3 : silent.

Lemma silent_invoke (self : RequestHandler.t) (method : string) (args kwargs : pyval) :
  silent (RequestHandler.invoke self method args kwargs).
Proof.
  unfold RequestHandler.invoke.
  destruct (cls_attrs _ _) as [a|]; eauto with silent.
  repeat silent_step.
  destruct a as [f|v]; eauto with silent.
  silent_step; [silent_step |].
  intros s r s' H. destruct (Server32.bound _ f _ _ _) as [r0 files'] eqn:Ef.
  injection H as <- <-. split; [done |].
  exists []. by rewrite app_nil_r.
Qed.

#[local] Hint Resolve silent_invoke : silent.

Section Framed.

Variable self : RequestHandler.t.

Lemma framed_at_line {A} (line : Z) (m : M A) :
  silent m -> framed self (RequestHandler.at_line self line m).
Proof.
  intros Hm. split.
  - intros s r s' H. unfold RequestHandler.at_line in H.
    destruct (m s) as [[a|e] s1] eqn:E; injection H as <- <-; exact (Hm _ _ _ E).
  - intros s e s' H. unfold RequestHandler.at_line in H.
    destruct (m s) as [[a|e0] s1] eqn:E; [done |].
    injection H as <- <-. simpl. eauto.
Qed.

Lemma framed_ret {A} (a : A) : framed self (ret a).
Proof. split; [apply silent_ret | intros s e s' [=]]. Qed.

Lemma framed_bind {A B} (m : M A) (k : A -> M B) :
  framed self m -> (forall a, framed self (k a)) -> framed self (bind m k).
Proof.
  intros [Hm Hfm] Hk. split.
  - apply silent_bind; [done | intros a; apply Hk].
  - intros s e s' H. unfold bind in H.
    destruct (m s) as [[a|e0] s1] eqn:E.
    + exact (proj2 (Hk a) _ _ _ H).
    + injection H as <- <-. exact (Hfm _ _ _ E).
Qed.

Lemma completes_bind {A} (m : M A) (k : A -> M unit) :
  framed self m -> (forall a, completes self (k a)) -> completes self (bind m k).
Proof.
  intros [Hm Hfm] Hk s r s' H. unfold bind in H.
  destruct (m s) as [[a|e0] s1] eqn:E.
  - destruct (Hm _ _ _ E) as (Ht1 & evs1 & Htr1 & Hio1).
    destruct (Hk a _ _ _ H) as (Ht2 & evs2 & Hio2 & Hr).
    split; [congruence |].
    exists (evs1 ++ evs2). split; [by apply Forall_app |].
    destruct r as [[]|e].
    + by rewrite Hr, Htr1, <- !app_assoc.
    + destruct Hr as [Hr Hf]. split; [| done].
      by rewrite Hr, Htr1, <- !app_assoc.
  - injection H as <- <-.
    destruct (Hm _ _ _ E) as (Ht1 & evs1 & Htr1 & Hio1).
    split; [done |]. exists evs1. split; [done |].
    split; [done |]. exact (Hfm _ _ _ E).
Qed.

Lemma completes_send :
  completes self (run RequestHandler.send_response self 200;
                  RequestHandler.end_headers self).
Proof.
  intros s r s' H. injection H as <- <-. split; [done |].
  exists []. split; [constructor |].
  simpl. by rewrite <- app_assoc.
Qed.

(** The whole [try] body. *)
Lemma try_body_completes (env : Env) (request : string) :
  completes self (RequestHandler.try_body env self request).
Proof.
  unfold RequestHandler.try_body.
  apply completes_bind; [apply framed_at_line; eauto with silent |].
  intros [[method pickle_protocol] pickle_temp_file].
  apply completes_bind.
  { case_bool_decide; [apply framed_ret |].
    repeat (apply framed_bind; [apply framed_at_line; eauto with silent | intros ?]).
    apply framed_at_line; eauto with silent. }
  intros response.
  apply completes_bind; [apply framed_at_line; eauto with silent |].
  intros _.
  apply completes_bind; [| intros _; apply completes_send].
  apply framed_at_line.
  apply silent_bind; [| intros ?]; eauto with silent.
Qed.

End Framed.

(** ** Observations on the events of one step *)

Lemma events_since_app (s s' : state) (evs : list event) :
  trace s' = trace s ++ evs -> events_since s s' = evs.
Proof. intros H. unfold events_since. by rewrite H, drop_app_length. Qed.

Lemma status_of_io (evs rest : list event) :
  Forall io_event evs -> status_of (evs ++ rest) = status_of rest.
Proof.
  induction 1 as [|e evs He _ IH]; simpl; [done |].
  by destruct e.
Qed.

Lemma body_of_io (evs rest : list event) :
  Forall io_event evs -> body_of (evs ++ rest) = body_of rest.
Proof.
  induction 1 as [|e evs He _ IH]; simpl; [done |].
  by destruct e.
Qed.

(** ** The failure response (claim C2) *)

Lemma format_error_occurs (tb : tb_entry) (e : exception) :
  let body := RequestHandler.format_error tb e in
  Str.occurs (exc_type e) body /\ Str.occurs (exc_value e) body /\
  Str.occurs (tb_filename tb) body /\ Str.occurs (pretty (tb_lineno tb)) body /\
  Str.occurs (tb_name tb) body.
Proof.
  unfold RequestHandler.format_error.
  set (head := Str.nl +:+ "  File " +:+ Str.dq +:+ tb_filename tb +:+ Str.dq
               +:+ ", line " +:+ pretty (tb_lineno tb) +:+ ", in " +:+ tb_name tb).
  assert (Hhead : Str.occurs (tb_filename tb) head /\
                  Str.occurs (pretty (tb_lineno tb)) head /\
                  Str.occurs (tb_name tb) head).
  { subst head. repeat split.
    - do 3 apply occurs_app_r. apply occurs_app_l, occurs_refl.
    - do 6 apply occurs_app_r. apply occurs_app_l, occurs_refl.
    - do 8 apply occurs_app_r. apply occurs_refl. }
  set (msg := if bool_decide (tb_line tb = "") then head
              else head +:+ Str.nl +:+ "    " +:+ tb_line tb).
  assert (Hmsg : forall t, Str.occurs t head -> Str.occurs t msg).
  { intros t Ht. subst msg. case_bool_decide; [done | by apply occurs_app_l]. }
  destruct Hhead as (H1 & H2 & H3). cbv zeta. fold head. fold msg.
  clearbody msg head. repeat split.
  - do 2 apply occurs_app_r. apply occurs_app_l, occurs_refl.
  - do 4 apply occurs_app_r. apply occurs_refl.
  - by apply occurs_app_l, Hmsg.
  - by apply occurs_app_l, Hmsg.
  - by apply occurs_app_l, Hmsg.
Qed.

(** A run of [do_GET] whose [try] body raises an exception that the
    [except] clause handles. *)
Lemma do_GET_on_raise (env : Env) (self : RequestHandler.t) (s s1 : state) (e : exception) :
  Str.drop 1 (RequestHandler.path self) <> "SHUTDOWN_SERVER" ->
  RequestHandler.try_body env self (Str.drop 1 (RequestHandler.path self)) s = (Raise e, s1) ->
  is_Exception e = true ->
  exists tb evs,
    reported_entry self e tb /\
    Forall io_event evs /\
    trace s1 = trace s ++ evs /\
    RequestHandler.do_GET env self s
    = (Return tt, set_trace (trace s1 ++ failure_events tb e) s1).
Proof.
  intros Hreq Hbody Hexc.
  destruct (try_body_completes self env _ _ _ _ Hbody)
    as (_ & evs & Hio & Htr & line & rest & Htb).
  exists (match rest with [] => RequestHandler.frame self line | b :: _ => b end), evs.
  split_and!; try done.
  - destruct rest as [|b rest]; [left | right]; eauto.
  - unfold RequestHandler.do_GET. rewrite bool_decide_eq_false_2 by done.
    unfold try_except. rewrite Hbody, Hexc.
    unfold RequestHandler.except_clause, bind. simpl.
    rewrite Htb.
    destruct rest as [|b rest]; simpl;
      unfold RequestHandler.wfile_write, emit, set_trace, failure_events; simpl;
      by rewrite <- !app_assoc.
Qed.

(** A run of [do_GET] whose [try] body raises an exception that the
    [except] clause does not handle: the exception leaves [do_GET] as it
    left the body, and nothing is sent. *)
Lemma do_GET_on_escape (env : Env) (self : RequestHandler.t) (s s1 : state) (e : exception) :
  Str.drop 1 (RequestHandler.path self) <> "SHUTDOWN_SERVER" ->
  RequestHandler.try_body env self (Str.drop 1 (RequestHandler.path self)) s = (Raise e, s1) ->
  is_Exception e = false ->
  RequestHandler.do_GET env self s = (Raise e, s1) /\
  exists evs, Forall io_event evs /\ trace s1 = trace s ++ evs.
Proof.
  intros Hreq Hbody Hexc.
  destruct (try_body_completes self env _ _ _ _ Hbody) as (_ & evs & Hio & Htr & _).
  split; [| by exists evs].
  unfold RequestHandler.do_GET. rewrite bool_decide_eq_false_2 by done.
  unfold try_except. by rewrite Hbody, Hexc.
Qed.

(** A run of [do_GET] whose [try] body returns. *)
Lemma do_GET_on_return (env : Env) (self : RequestHandler.t) (s s1 : state) :
  Str.drop 1 (RequestHandler.path self) <> "SHUTDOWN_SERVER" ->
  RequestHandler.try_body env self (Str.drop 1 (RequestHandler.path self)) s = (Return tt, s1) ->
  RequestHandler.do_GET env self s = (Return tt, s1) /\
  exists evs, Forall io_event evs /\
              trace s1 = trace s ++ evs ++ [ESendResponse 200; EEndHeaders].
Proof.
  intros Hreq Hbody.
  destruct (try_body_completes self env _ _ _ _ Hbody) as (_ & evs & Hio & Htr).
  split; [| by exists evs].
  unfold RequestHandler.do_GET. rewrite bool_decide_eq_false_2 by done.
  unfold try_except. by rewrite Hbody.
Qed.

(** C2 (as amended): a request whose deserialization or invocation raises
    an exception of a class derived from [Exception] is answered, without
    the exception leaving [do_GET], with status 501 and a plain-text body
    that holds the exception's kind and message and the file, line and
    function of one traceback entry: the entry of the frame that [do_GET]
    called when there is one, and the entry of [do_GET] itself otherwise.
    The files are left as the failed step left them.  An exception of a
    class that does not derive from [Exception] is not handled: it leaves
    [do_GET] with the state as the failed step left it, and no answer is
    sent. *)
Theorem do_GET_failure_response (env : Env) (self : RequestHandler.t) (s s1 : state)
    (e : exception) :
  Str.drop 1 (RequestHandler.path self) <> "SHUTDOWN_SERVER" ->
  RequestHandler.try_body env self (Str.drop 1 (RequestHandler.path self)) s = (Raise e, s1) ->
  (is_Exception e = true ->
   exists tb s',
     reported_entry self e tb /\
     RequestHandler.do_GET env self s = (Return tt, s') /\
     files s' = files s1 /\
     events_since s1 s'
     = [ESendResponse 501; ESendHeader "Content-type" "text/plain"; EEndHeaders;
        EWfileWrite (RequestHandler.format_error tb e)] /\
     status_of (events_since s s') = Some 501 /\
     body_of (events_since s s') = RequestHandler.format_error tb e /\
     Str.occurs (exc_type e) (RequestHandler.format_error tb e) /\
     Str.occurs (exc_value e) (RequestHandler.format_error tb e) /\
     Str.occurs (tb_filename tb) (RequestHandler.format_error tb e) /\
     Str.occurs (pretty (tb_lineno tb)) (RequestHandler.format_error tb e) /\
     Str.occurs (tb_name tb) (RequestHandler.format_error tb e)) /\
  (is_Exception e = false ->
   RequestHandler.do_GET env self s = (Raise e, s1) /\
   Forall (fun ev => is_response ev = false) (events_since s s1)).
Proof.
  intros Hreq Hbody. split; intros Hexc.
  - destruct (do_GET_on_raise env self s s1 e Hreq Hbody Hexc)
      as (tb & evs & Hrep & Hio & Htr & Hrun).
    exists tb, (set_trace (trace s1 ++ failure_events tb e) s1).
    assert (Hsince : events_since s (set_trace (trace s1 ++ failure_events tb e) s1)
                     = evs ++ failure_events tb e).
    { apply events_since_app. simpl. by rewrite Htr, <- app_assoc. }
    split_and!; try done.
    + by apply events_since_app.
    + rewrite Hsince. by rewrite status_of_io.
    + rewrite Hsince. rewrite body_of_io by done. simpl. apply append_nil_r.
    + apply format_error_occurs.
    + apply format_error_occurs.
    + apply format_error_occurs.
    + apply format_error_occurs.
    + apply format_error_occurs.
  - destruct (do_GET_on_escape env self s s1 e Hreq Hbody Hexc) as (Hrun & evs & Hio & Htr).
    split; [done |].
    rewrite (events_since_app _ _ _ Htr).
    eapply Forall_impl; [exact Hio |]. by intros [].
Qed.

Ltac by_eval := vm_compute; first [reflexivity | discriminate | done].

(** The request [fail] of the fixture: the method's helper raises a
    [ValueError]. *)
Lemma do_GET_failure_response_witness :
  let h := Fixture.handler true "/fail:2:/tmp/x.pickle" in
  exists tb s',
    RequestHandler.do_GET Fixture.env h Fixture.s0 = (Return tt, s') /\
    status_of (events_since Fixture.s0 s') = Some 501 /\
    tb = Fixture.method_entry /\
    Str.occurs "ValueError" (body_of (events_since Fixture.s0 s')).
Proof.
  intros h.
  destruct (proj1 (do_GET_failure_response Fixture.env h Fixture.s0
              (State (files Fixture.s0) [] 1
                 [EOpen "/tmp/x.pickle" "rb";
                  EInvoke "fail" [PInt 111; PTuple [PInt 1; PInt 2]] [("x", PStr "abcd")]])
              (Exc "ValueError" "bad value"
                 [RequestHandler.frame h 172; Fixture.method_entry; Fixture.helper_entry])
              ltac:(by_eval) ltac:(by_eval)) eq_refl)
    as (tb & s' & Hrep & Hrun & _ & _ & Hst & Hbody & Hty & _).
  exists tb, s'. split_and!; try done.
  - destruct Hrep as [(line & Htb & _) | (line & rest & Htb)];
      [discriminate Htb | by inversion Htb].
  - by rewrite Hbody.
Defined.

(** C2 (counterexample): the location in the body is not the innermost
    frame below [do_GET]: when the helper of a method raises, the entry of
    the method is reported, not the helper's.  And not every failure is
    caught: a method that calls [sys.exit()] raises [SystemExit], which
    leaves [do_GET]. *)
Lemma failure_location_counterexample :
  ~ reports_innermost Fixture.env (Fixture.handler true "/fail:2:/tmp/x.pickle") Fixture.s0 /\
  ~ caught_at_boundary Fixture.env (Fixture.probe true "/leave:2:/tmp/x.pickle") Fixture.s0.
Proof.
  split; intros H.
  - destruct (H _ _ ltac:(by_eval)) as (tb & Hlast & Hbody).
    vm_compute in Hlast. injection Hlast as <-.
    vm_compute in Hbody. discriminate Hbody.
  - destruct (H _ _ ltac:(by_eval)) as (s' & Hrun).
    vm_compute in Hrun. discriminate Hrun.
Qed.

(** ** The shutdown request (claims C3 and C10) *)

(** C3: on the shutdown request [do_GET] invokes no method of the server and
    does not run the shutdown itself: all it does is to start one thread,
    other than the thread that handles the request, whose target is the
    server's shutdown. *)
Theorem shutdown_starts_other_thread (env : Env) (self : RequestHandler.t) (s : state) :
  Str.drop 1 (RequestHandler.path self) = "SHUTDOWN_SERVER" ->
  (RequestHandler.thread self < next_tid s)%nat ->
  exists tid s',
    RequestHandler.do_GET env self s = (Return tt, s') /\
    tid <> RequestHandler.thread self /\
    events_since s s' = [EThreadStart tid ServerShutdown] /\
    Forall (fun e => is_invoke e = false /\ e <> EShutdown) (events_since s s').
Proof.
  intros Hreq Hme.
  exists (next_tid s),
    (State (files s) (sys_path s) (S (next_tid s))
           (trace s ++ [EThreadStart (next_tid s) ServerShutdown])).
  assert (Hsince : events_since s
            (State (files s) (sys_path s) (S (next_tid s))
                   (trace s ++ [EThreadStart (next_tid s) ServerShutdown]))
          = [EThreadStart (next_tid s) ServerShutdown])
    by by apply events_since_app.
  split_and!.
  - unfold RequestHandler.do_GET. by rewrite bool_decide_eq_true_2.
  - lia.
  - done.
  - rewrite Hsince. by repeat constructor.
Qed.

Lemma shutdown_starts_other_thread_witness :
  exists tid s',
    RequestHandler.do_GET Fixture.env (Fixture.handler true "/SHUTDOWN_SERVER") Fixture.s0
    = (Return tt, s') /\
    tid <> 0%nat /\
    events_since Fixture.s0 s' = [EThreadStart tid ServerShutdown].
Proof.
  destruct (shutdown_starts_other_thread Fixture.env
              (Fixture.handler true "/SHUTDOWN_SERVER") Fixture.s0
              ltac:(by_eval) ltac:(vm_compute; lia))
    as (tid & s' & Hrun & Hne & Hev & _).
  by exists tid, s'.
Defined.

(** C10: on the shutdown request the handler returns without sending
    anything (no status line, no header, no body) and without opening or
    changing a file; hence a request for which something is sent or a file
    is opened is not the shutdown request. *)
Theorem shutdown_sends_nothing (env : Env) (self : RequestHandler.t) (s : state) :
  let r := RequestHandler.do_GET env self s in
  (Str.drop 1 (RequestHandler.path self) = "SHUTDOWN_SERVER" ->
   fst r = Return tt /\
   files (snd r) = files s /\
   Forall (fun e => is_response e = false /\ is_open e = false) (events_since s (snd r))) /\
  (Exists (fun e => is_response e = true \/ is_open e = true) (events_since s (snd r)) ->
   Str.drop 1 (RequestHandler.path self) <> "SHUTDOWN_SERVER").
Proof.
  assert (Hquiet : Str.drop 1 (RequestHandler.path self) = "SHUTDOWN_SERVER" ->
            fst (RequestHandler.do_GET env self s) = Return tt /\
            files (snd (RequestHandler.do_GET env self s)) = files s /\
            Forall (fun e => is_response e = false /\ is_open e = false)
                   (events_since s (snd (RequestHandler.do_GET env self s)))).
  { intros Hreq. unfold RequestHandler.do_GET. rewrite bool_decide_eq_true_2 by done.
    simpl. split_and!; [done | done |].
    unfold events_since. simpl. rewrite drop_app_length.
    by repeat constructor. }
  split; [exact Hquiet |].
  intros Hsent Hreq. destruct (Hquiet Hreq) as (_ & _ & Hnone).
  apply Exists_exists in Hsent as (e & Hin & He).
  rewrite Forall_forall in Hnone. destruct (Hnone e Hin) as [Hr Ho].
  destruct He as [He | He]; congruence.
Qed.

Lemma shutdown_sends_nothing_witness :
  let r := RequestHandler.do_GET Fixture.env (Fixture.handler true "/SHUTDOWN_SERVER")
             Fixture.s0 in
  fst r = Return tt /\ files (snd r) = files Fixture.s0 /\
  Str.drop 1 (RequestHandler.path (Fixture.handler true "/send_data:2:/tmp/x.pickle"))
  <> "SHUTDOWN_SERVER".
Proof.
  intros r.
  destruct (proj1 (shutdown_sends_nothing Fixture.env
                     (Fixture.handler true "/SHUTDOWN_SERVER") Fixture.s0) eq_refl)
    as (Hret & Hfiles & _).
  split_and!; [exact Hret | exact Hfiles |].
  apply (proj2 (shutdown_sends_nothing Fixture.env
                  (Fixture.handler true "/send_data:2:/tmp/x.pickle") Fixture.s0)).
  vm_compute. apply Exists_cons_hd. by right.
Defined.

(** ** A served call (claim C1) *)

Lemma string_keys_kwdict (kw : list (string * pyval)) :
  string_keys (List.map (fun p => (PStr (fst p), snd p)) kw) = Some kw.
Proof.
  induction kw as [|[k v] kw IH]; simpl; [done |].
  by rewrite IH.
Qed.

Lemma decode_echo_send_data (args : list pyval) (kwargs : list (string * pyval)) :
  decode_echo (PTuple [PTuple args; kwdict kwargs]) = Some (args, kwargs).
Proof. simpl. by rewrite string_keys_kwdict. Qed.

(** *** The steps of a request that goes well *)

Lemma bind_Return {A B} (m : M A) (k : A -> M B) (s s1 : state) (a : A) :
  m s = (Return a, s1) -> bind m k s = k a s1.
Proof. intros H. unfold bind. by rewrite H. Qed.

Lemma bind_Raise {A B} (m : M A) (k : A -> M B) (s s1 : state) (e : exception) :
  m s = (Raise e, s1) -> bind m k s = (Raise e, s1).
Proof. intros H. unfold bind. by rewrite H. Qed.

Lemma at_line_Return {A} (self : RequestHandler.t) (line : Z) (m : M A)
    (s s1 : state) (a : A) :
  m s = (Return a, s1) -> RequestHandler.at_line self line m s = (Return a, s1).
Proof. intros H. unfold RequestHandler.at_line. by rewrite H. Qed.

Lemma open_read_ok (path mode : string) (d : file_data) (s : state) :
  files s !! path = Some d ->
  open_read path mode s = (Return d, set_trace (trace s ++ [EOpen path mode]) s).
Proof. intros H. unfold open_read, bind, emit, get_files. simpl. by rewrite H. Qed.

Lemma open_write_ok (mc : Machine) (path mode : string) (d : file_data) (s : state) :
  can_write mc path = true ->
  open_write mc path mode d s
  = (Return tt, State (<[path := d]> (files s)) (sys_path s) (next_tid s)
                      (trace s ++ [EOpen path mode])).
Proof. intros H. unfold open_write, bind, emit. simpl. by rewrite H. Qed.

Lemma pickle_load_ok (mc : Machine) (p : pickled) (rest : list pickled) (s : state) :
  pk_protocol p <= HIGHEST_PROTOCOL mc ->
  pickle_load mc (Pickles (p :: rest)) s = (Return (pk_obj p, Pickles rest), s).
Proof. intros H. unfold pickle_load. by rewrite bool_decide_eq_true_2. Qed.

(** A dump into the file just opened for writing. *)
Lemma pickle_dump_ok (mc : Machine) (obj : pyval) (path : string) (p : Z) (s : state) :
  LONG_MIN mc <= p <= HIGHEST_PROTOCOL mc ->
  files s !! path = Some (Pickles []) ->
  pickle_dump mc obj path p s
  = (Return tt,
     set_files (<[path := Pickles [Pickled (if bool_decide (p < 0) then HIGHEST_PROTOCOL mc else p) obj]]>
                  (files s)) s).
Proof.
  intros Hp Hf. unfold pickle_dump.
  pose proof (HIGHEST_fits mc) as Hfits.
  rewrite bool_decide_eq_false_2 by lia.
  rewrite bool_decide_eq_false_2 by lia.
  unfold bind, get_files. by rewrite Hf.
Qed.

(** A protocol that [pickle] knows is in the range of a C [long]. *)
Lemma protocol_fits (mc : Machine) (p : Z) :
  0 <= p <= HIGHEST_PROTOCOL mc -> LONG_MIN mc <= p <= HIGHEST_PROTOCOL mc.
Proof. pose proof (HIGHEST_fits mc). unfold LONG_MIN. lia. Qed.

Lemma call_int_Some (mc : Machine) (text : string) (p : Z) (s : state) :
  int mc text = Some p -> call_int mc text s = (Return p, s).
Proof.
  unfold int, call_int. destruct (parse_int mc text); [| done | done].
  by intros [= ->].
Qed.

Lemma call_int_None (mc : Machine) (text : string) (s : state) :
  int mc text = None ->
  exists msg, call_int mc text s = (Raise (Exc "ValueError" msg []), s).
Proof.
  unfold int, call_int. destruct (parse_int mc text); [done | |]; intros _; by eexists.
Qed.

(** Lines 174 to 178: the response is written and status 200 is sent. *)
Lemma store_and_reply (env : Env) (self : RequestHandler.t) (response : pyval)
    (protocol file : string) (p : Z) (s : state) :
  can_write (machine env) file = true ->
  int (machine env) protocol = Some p ->
  LONG_MIN (machine env) <= p <= HIGHEST_PROTOCOL (machine env) ->
  (run RequestHandler.at_line self 174 (open_write (machine env) file "wb" (Pickles []));
   run RequestHandler.at_line self 175
         (do p <- call_int (machine env) protocol;
          pickle_dump (machine env) response file p);
   run RequestHandler.send_response self 200;
   RequestHandler.end_headers self) s
  = (Return tt,
     State (<[file := Pickles [Pickled (if bool_decide (p < 0)
                                        then HIGHEST_PROTOCOL (machine env) else p)
                                       response]]> (files s))
           (sys_path s) (next_tid s)
           (trace s ++ [EOpen file "wb"; ESendResponse 200; EEndHeaders])).
Proof.
  intros Hw Hint Hp.
  erewrite bind_Return; [| by apply at_line_Return, open_write_ok].
  erewrite bind_Return.
  2:{ apply at_line_Return.
      erewrite bind_Return; [| by apply call_int_Some].
      apply pickle_dump_ok; [done |]. simpl. apply lookup_insert_eq. }
  simpl. unfold set_files. simpl.
  rewrite insert_insert_eq.
  unfold bind, RequestHandler.send_response, RequestHandler.end_headers,
    RequestHandler.log_request, RequestHandler.log_message, emit, set_trace, ret.
  simpl. by rewrite <- !app_assoc.
Qed.

(** Lines 169 to 172: the arguments are read and the method is called. *)
Lemma load_and_invoke (env : Env) (self : RequestHandler.t) (s : state)
    (method file : string) (pa : Z)
    (args : list pyval) (kwargs : list (string * pyval))
    (f : server_method) (value : pyval) (files' : fs) :
  files s !! file = Some (exchange pa args kwargs) ->
  pa <= HIGHEST_PROTOCOL (machine env) ->
  cls_attrs (Server32.cls (RequestHandler.server self)) method = Some (Method f) ->
  Server32.bound (RequestHandler.server self) f args kwargs (files s) = (Return value, files') ->
  (do f0 <- RequestHandler.at_line self 169 (open_read file "rb");
   do a <- RequestHandler.at_line self 170 (pickle_load (machine env) f0);
   do k <- RequestHandler.at_line self 171 (pickle_load (machine env) (snd a));
   RequestHandler.at_line self 172
     (RequestHandler.invoke self method (fst a) (fst k))) s
  = (Return value, State files' (sys_path s) (next_tid s)
                         (trace s ++ [EOpen file "rb"; EInvoke method args kwargs])).
Proof.
  intros Hfile Hpa Hattr Hf.
  erewrite bind_Return; [| by apply at_line_Return, open_read_ok].
  unfold exchange.
  erewrite bind_Return; [| by apply at_line_Return, pickle_load_ok].
  erewrite bind_Return; [| by apply at_line_Return, pickle_load_ok].
  apply at_line_Return.
  unfold RequestHandler.invoke. rewrite Hattr. simpl.
  unfold bind, ret, emit, kwdict. simpl.
  rewrite string_keys_kwdict. simpl.
  rewrite Hf. unfold set_files. simpl. by rewrite <- app_assoc.
Qed.

(** C1: a request that names a method of the server, with an exchange file
    that holds the positional and the named arguments as the client pickled
    them, calls that method with exactly those arguments and leaves in the
    same exchange file the value the method returned, pickled with the
    protocol the request carries, and status 200 is sent.  For the echo
    method the client reads the arguments it sent back from that value. *)
Theorem dispatch_roundtrip (env : Env) (self : RequestHandler.t) (s : state)
    (method protocol file : string) (pa p : Z)
    (args : list pyval) (kwargs : list (string * pyval))
    (f : server_method) (value : pyval) (files' : fs) :
  RequestHandler.path self = "/" +:+ request_line method protocol file ->
  Str.cut Str.colon method = None ->
  Str.cut Str.colon protocol = None ->
  method <> "LIB32_PATH" ->
  files s !! file = Some (exchange pa args kwargs) ->
  pa <= HIGHEST_PROTOCOL (machine env) ->
  cls_attrs (Server32.cls (RequestHandler.server self)) method = Some (Method f) ->
  Server32.bound (RequestHandler.server self) f args kwargs (files s) = (Return value, files') ->
  can_write (machine env) file = true ->
  int (machine env) protocol = Some p ->
  0 <= p <= HIGHEST_PROTOCOL (machine env) ->
  exists s',
    RequestHandler.do_GET env self s = (Return tt, s') /\
    files s' = <[file := Pickles [Pickled p value]]> files' /\
    events_since s s'
    = [EOpen file "rb"; EInvoke method args kwargs; EOpen file "wb";
       ESendResponse 200; EEndHeaders] /\
    (f = send_data -> decode_echo value = Some (args, kwargs)).
Proof.
  intros Hpath Hm Hp Hlib Hfile Hpa Hattr Hf Hw Hint Hrange.
  unfold RequestHandler.do_GET. rewrite Hpath.
  change (Str.drop 1 ("/" +:+ request_line method protocol file))
    with (request_line method protocol file).
  rewrite bool_decide_eq_false_2 by apply request_line_not_sentinel.
  unfold try_except, RequestHandler.try_body.
  rewrite (split_request _ _ _ Hm Hp).
  erewrite bind_Return; [| by apply at_line_Return].
  cbv beta iota.
  rewrite bool_decide_eq_false_2 by done.
  erewrite bind_Return; [| by eapply load_and_invoke].
  rewrite (store_and_reply env self value protocol file p _ Hw Hint)
    by (by apply protocol_fits).
  rewrite bool_decide_eq_false_2 by lia. simpl.
  eexists. split_and!; [reflexivity | done | |].
  - apply events_since_app. simpl. by rewrite <- app_assoc.
  - intros ->. injection Hf as <- _. apply decode_echo_send_data.
Qed.

(** The first call of [test_dummy], on the fixture. *)
Lemma dispatch_roundtrip_witness :
  exists s',
    RequestHandler.do_GET Fixture.env (Fixture.handler true "/send_data:2:/tmp/x.pickle")
      Fixture.s0 = (Return tt, s') /\
    files s' !! "/tmp/x.pickle"
    = Some (Pickles [Pickled 2 (PTuple [PTuple [PInt 111; PTuple [PInt 1; PInt 2]];
                                        kwdict [("x", PStr "abcd")]])]) /\
    decode_echo (PTuple [PTuple [PInt 111; PTuple [PInt 1; PInt 2]];
                         kwdict [("x", PStr "abcd")]])
    = Some ([PInt 111; PTuple [PInt 1; PInt 2]], [("x", PStr "abcd")]).
Proof.
  destruct (dispatch_roundtrip Fixture.env
              (Fixture.handler true "/send_data:2:/tmp/x.pickle") Fixture.s0
              "send_data" "2" "/tmp/x.pickle" 2 2
              [PInt 111; PTuple [PInt 1; PInt 2]] [("x", PStr "abcd")]
              send_data
              (PTuple [PTuple [PInt 111; PTuple [PInt 1; PInt 2]];
                       kwdict [("x", PStr "abcd")]])
              (files Fixture.s0)
              ltac:(by_eval) ltac:(by_eval) ltac:(by_eval) ltac:(by_eval)
              ltac:(by_eval) ltac:(by_eval) ltac:(by_eval) ltac:(by_eval)
              ltac:(by_eval) ltac:(by_eval) ltac:(simpl; lia))
    as (s' & Hrun & Hfiles & _ & Hecho).
  exists s'. split_and!; [done | | by apply Hecho].
  rewrite Hfiles. apply lookup_insert_eq.
Defined.

(** ** The path of the loaded library (claim C5) *)

(** Whatever the constructor of [LoadLibrary] returns has the resolved path. *)
Lemma LoadLibrary_path (env : Env) (path libtype : string) (s s' : state) (l : LoadLibrary) :
  LoadLibrary__init__ env path libtype s = (Return l, s') ->
  _path l = resolve_path env path.
Proof.
  unfold LoadLibrary__init__, bind, isfile. simpl.
  destruct (bool_decide (is_Some _)); simpl; [| done].
  repeat (case_bool_decide;
          [ unfold ctypes_class, bind, lift, emit; simpl;
            destruct (ctypes_open _ _ _); simpl; [by intros [= <- _] | done] | ]).
  case_bool_decide; [| done].
  unfold is_python_net_installed.
  destruct (clr_importable env); simpl; [| done].
  unfold load_net, bind, try_except, lift, emit. simpl.
  destruct (Assembly_LoadFile _ _) as [net|err]; simpl.
  - destruct (path_split _ _) as [head tail]. simpl.
    destruct (clr_AddReference _ _); simpl; [| done].
    destruct (exported_namespaces net) as [|ns ?]; simpl; [done |].
    destruct (__import__ _ _); simpl; [by intros [= <- _] | done].
  - case_bool_decide; [| done].
    unfold on_FileLoadException.
    destruct (Str.contains _ _); [| done].
    unfold bind.
    destruct (check_dot_net_config _ _ _) as [[[status msg]|?] ?]; [| done].
    by case_bool_decide.
Qed.

(** The server that the constructor returns answers with the resolved path. *)
Lemma Server32_path (env : Env) (c : subclass) (path libtype host port : string)
    (q : bool) (s s' : state) (srv : Server32.t) :
  Server32.__init__ env c path libtype host port q s = (Return srv, s') ->
  Server32.path srv = resolve_path env path.
Proof.
  unfold Server32.__init__, bind, call_int.
  destruct (parse_int (machine env) port) as [p| |n]; simpl; [| done | done].
  unfold Server32.HTTPServer__init__, bind, emit, lift. simpl.
  destruct (socket_bind env host p); simpl; [| done].
  destruct (LoadLibrary__init__ _ _ _ _) as [[l|?] s1] eqn:Hload; [| done].
  intros [= <- _]. unfold Server32.path. simpl.
  by eapply LoadLibrary_path.
Qed.

(** C5: the request for the reserved method [LIB32_PATH], with a protocol
    that [pickle.dump] accepts (in the range of a C [long] and not above the
    highest protocol), leaves in the exchange file the path its loader
    resolved from the path given to the constructor (the default extension
    appended when it had none, then made absolute), sends status 200, and
    neither invokes a method of the server nor calls into the loaded
    library: it only opens the exchange file for writing. *)
Theorem lib32_path_response (env : Env) (c : subclass) (path libtype host port : string)
    (q : bool) (s0 s1 : state) (self : RequestHandler.t) (s : state)
    (protocol file : string) (p : Z) :
  Server32.__init__ env c path libtype host port q s0
  = (Return (RequestHandler.server self), s1) ->
  RequestHandler.path self = "/" +:+ request_line "LIB32_PATH" protocol file ->
  Str.cut Str.colon protocol = None ->
  can_write (machine env) file = true ->
  int (machine env) protocol = Some p ->
  LONG_MIN (machine env) <= p <= HIGHEST_PROTOCOL (machine env) ->
  exists s',
    RequestHandler.do_GET env self s = (Return tt, s') /\
    files s'
    = <[file := Pickles [Pickled (if bool_decide (p < 0) then HIGHEST_PROTOCOL (machine env)
                                  else p)
                                 (PStr (resolve_path env path))]]> (files s) /\
    resolve_path env path
    = abspath env (if bool_decide (snd (splitext env path) = "")
                   then path +:+ default_extension env else path) /\
    events_since s s' = [EOpen file "wb"; ESendResponse 200; EEndHeaders] /\
    Forall (fun e => is_invoke e = false /\ forall fn a, e <> EExternal fn a)
           (events_since s s').
Proof.
  intros Hinit Hpath Hp Hw Hint Hrange.
  assert (Hev : forall s' : state,
             trace s' = trace s ++ [EOpen file "wb"; ESendResponse 200; EEndHeaders] ->
             events_since s s' = [EOpen file "wb"; ESendResponse 200; EEndHeaders])
    by (intros; by apply events_since_app).
  unfold RequestHandler.do_GET. rewrite Hpath.
  change (Str.drop 1 ("/" +:+ request_line "LIB32_PATH" protocol file))
    with (request_line "LIB32_PATH" protocol file).
  rewrite bool_decide_eq_false_2 by apply request_line_not_sentinel.
  unfold try_except, RequestHandler.try_body.
  rewrite (split_request "LIB32_PATH" protocol file eq_refl Hp).
  erewrite bind_Return; [| by apply at_line_Return].
  cbv beta iota.
  rewrite bool_decide_eq_true_2 by done.
  erewrite bind_Return; [| reflexivity].
  rewrite (store_and_reply env self _ protocol file p _ Hw Hint Hrange).
  rewrite (Server32_path _ _ _ _ _ _ _ _ _ _ Hinit).
  eexists. split_and!; [reflexivity | done | done | by apply Hev |].
  rewrite Hev by done. repeat constructor; done.
Qed.

Lemma lib32_path_response_witness :
  exists s',
    RequestHandler.do_GET Fixture.env (Fixture.handler true "/LIB32_PATH:2:/tmp/x.pickle")
      Fixture.s0 = (Return tt, s') /\
    files s' !! "/tmp/x.pickle" = Some (Pickles [Pickled 2 (PStr "/work/dummy_lib32.so")]).
Proof.
  destruct (lib32_path_response Fixture.env Fixture.Dummy32
              "dummy_lib32" "cdll" "127.0.0.1" "8000" true Fixture.s0
              (set_trace [EBind "127.0.0.1" 8000; EListen;
                          EExternal "ctypes.CDLL" "/work/dummy_lib32.so"] Fixture.s0)
              (Fixture.handler true "/LIB32_PATH:2:/tmp/x.pickle") Fixture.s0
              "2" "/tmp/x.pickle" 2
              ltac:(by_eval) ltac:(by_eval) ltac:(by_eval) ltac:(by_eval)
              ltac:(by_eval) ltac:(vm_compute; split; discriminate))
    as (s' & Hrun & Hfiles & _).
  exists s'. split; [done |].
  rewrite Hfiles. apply lookup_insert_eq.
Defined.

(** ** The [quiet] flag (claim C9) *)

Lemma logged_app (a b : list event) : logged (a ++ b) = logged a || logged b.
Proof. apply existsb_app. Qed.

Lemma logged_io (evs : list event) : Forall io_event evs -> logged evs = false.
Proof.
  induction 1 as [|e evs He _ IH]; simpl; [done |].
  fold (logged evs). rewrite IH. by destruct e.
Qed.

(** Whatever the request is, [do_GET] writes no log line to the console. *)
Lemma do_GET_never_logs (env : Env) (self : RequestHandler.t) (s : state) :
  logged (events_since s (snd (RequestHandler.do_GET env self s))) = false.
Proof.
  destruct (decide (Str.drop 1 (RequestHandler.path self) = "SHUTDOWN_SERVER")) as [Hreq|Hreq].
  - unfold RequestHandler.do_GET. rewrite bool_decide_eq_true_2 by done.
    simpl. unfold events_since. simpl. by rewrite drop_app_length.
  - destruct (RequestHandler.try_body env self (Str.drop 1 (RequestHandler.path self)) s)
      as [[[]|e] s1] eqn:Hbody.
    + destruct (do_GET_on_return env self s s1 Hreq Hbody) as (Hrun & evs & Hio & Htr).
      rewrite Hrun. simpl. rewrite (events_since_app _ _ _ Htr).
      by rewrite logged_app, logged_io.
    + destruct (is_Exception e) eqn:Hexc.
      * destruct (do_GET_on_raise env self s s1 e Hreq Hbody Hexc)
          as (tb & evs & _ & Hio & Htr & Hrun).
        rewrite Hrun. simpl.
        rewrite (events_since_app _ _ (evs ++ failure_events tb e)).
        -- by rewrite logged_app, logged_io.
        -- simpl. by rewrite Htr, <- app_assoc.
      * destruct (do_GET_on_escape env self s s1 e Hreq Hbody Hexc)
          as (Hrun & evs & Hio & Htr).
        rewrite Hrun. simpl. rewrite (events_since_app _ _ _ Htr).
        by apply logged_io.
Qed.

Lemma bind_ext {A B} (m : M A) (k k' : A -> M B) (s : state) :
  (forall a s1, k a s1 = k' a s1) -> bind m k s = bind m k' s.
Proof. intros H. unfold bind. destruct (m s) as [[a|e] s1]; [apply H | done]. Qed.

Lemma bind_ext_l {A B} (m m' : M A) (k : A -> M B) (s : state) :
  m s = m' s -> bind m k s = bind m' k s.
Proof. intros H. unfold bind. by rewrite H. Qed.

(** The call of a method that does not look at [self.quiet]. *)
Lemma invoke_quiet (self : RequestHandler.t) (q : bool) (name : string) (a k : pyval)
    (s : state) :
  (forall f, cls_attrs (Server32.cls (RequestHandler.server self)) name = Some (Method f) ->
             ignores_quiet f) ->
  RequestHandler.invoke (with_quiet q self) name a k s
  = RequestHandler.invoke self name a k s.
Proof.
  intros Hblind. unfold RequestHandler.invoke. simpl.
  destruct (cls_attrs _ name) as [[f|v]|] eqn:Hattr; [| done | done].
  apply bind_ext. intros pos s1. apply bind_ext. intros kw s2.
  apply bind_ext. intros _ s3.
  unfold Server32.bound. simpl.
  by rewrite (Hblind f eq_refl q (Server32.quiet (RequestHandler.server self))).
Qed.

(** The [try] body on servers that differ in [quiet] only. *)
Lemma try_body_quiet (env : Env) (self : RequestHandler.t) (q : bool) (request : string)
    (s : state) :
  (forall f, cls_attrs (Server32.cls (RequestHandler.server self)) (method_of request)
             = Some (Method f) -> ignores_quiet f) ->
  RequestHandler.try_body env (with_quiet q self) request s
  = RequestHandler.try_body env self request s.
Proof.
  intros Hblind. unfold RequestHandler.try_body, method_of in *.
  destruct (Str.split Str.colon 2 request) as [|name [|protocol [|file [|]]]];
    try reflexivity.
  simpl in Hblind.
  erewrite !bind_Return by (by apply at_line_Return).
  cbv beta iota.
  case_bool_decide; [reflexivity |].
  apply bind_ext_l.
  apply bind_ext. intros f0 s1. apply bind_ext. intros a s2. apply bind_ext. intros k s3.
  unfold RequestHandler.at_line. by rewrite invoke_quiet.
Qed.

(** C9 (as amended): the handler logs nothing to the console whatever the
    value of [quiet] (the body of its [log_message] is empty); and on
    servers that differ only in [quiet], a request that does not name a
    method that itself looks at [self.quiet] gives the same result, the same
    files and the same trace (and so the same status and body): [do_GET]
    never reads the flag. *)
Theorem quiet_flag_is_inert (env : Env) (self : RequestHandler.t) (s : state) (q : bool) :
  logged (events_since s (snd (RequestHandler.do_GET env (with_quiet q self) s))) = false /\
  (quiet_blind self ->
   RequestHandler.do_GET env (with_quiet q self) s = RequestHandler.do_GET env self s).
Proof.
  split; [apply do_GET_never_logs |].
  intros Hblind. unfold RequestHandler.do_GET, try_except.
  change (RequestHandler.path (with_quiet q self)) with (RequestHandler.path self).
  case_bool_decide; [reflexivity |].
  by rewrite (try_body_quiet env self q _ s Hblind).
Qed.

(** The echo method of the fixture does not look at the flag. *)
Lemma quiet_flag_is_inert_witness :
  RequestHandler.do_GET Fixture.env (Fixture.handler false "/send_data:2:/tmp/x.pickle")
    Fixture.s0
  = RequestHandler.do_GET Fixture.env (Fixture.handler true "/send_data:2:/tmp/x.pickle")
      Fixture.s0.
Proof.
  apply (proj2 (quiet_flag_is_inert Fixture.env
                  (Fixture.handler true "/send_data:2:/tmp/x.pickle") Fixture.s0 false)).
  intros f Hattr. vm_compute in Hattr. injection Hattr as <-.
  intros q q' l args kwargs files0. reflexivity.
Defined.

(** C9 (counterexample): a server that is not quiet logs nothing either,
    so the logging does not follow the flag; and a method that answers with
    [self.quiet] leaves another object in the exchange file when the flag
    is changed. *)
Lemma quiet_flag_counterexample :
  ~ logs_unless_quiet Fixture.env (Fixture.handler false "/send_data:2:/tmp/x.pickle")
      Fixture.s0 /\
  ~ same_answer_whatever_quiet Fixture.env (Fixture.probe true "/is_quiet:2:/tmp/x.pickle")
      Fixture.s0.
Proof.
  split.
  - unfold logs_unless_quiet. by_eval.
  - intros H. destruct (H false) as (_ & _ & Hfiles).
    apply (f_equal (fun m => m !! "/tmp/x.pickle")) in Hfiles.
    vm_compute in Hfiles. discriminate Hfiles.
Qed.

(** ** The library loader (claims C4 and C7) *)

Lemma isfile_Some (p : string) (d : file_data) (s : state) :
  files s !! p = Some d -> isfile p s = (Return true, s).
Proof.
  intros H. unfold isfile. rewrite bool_decide_eq_true_2; [done |]. by exists d.
Qed.

Lemma isfile_None (p : string) (s : state) :
  files s !! p = None -> isfile p s = (Return false, s).
Proof.
  intros H. unfold isfile. rewrite bool_decide_eq_false_2; [done |].
  rewrite H. by intros [? ?].
Qed.

(** C4 (as amended): the constructor appends the default extension of the
    platform to a path without extension and makes the result absolute; when
    no file has that resolved path it raises the not-found failure, whose
    message carries the resolved path, and changes nothing; when the file
    exists, the kind is one of the [ctypes] kinds and [ctypes] accepts the
    file, it returns an object whose path is the resolved path; when the
    file exists, the kind is one of the [ctypes] kinds and [ctypes] refuses
    the file, it raises the exception of [ctypes] as it is; and whenever it
    returns an object at all, the file exists and the object's path is the
    resolved path. *)
Theorem LoadLibrary_resolves (env : Env) (path libtype : string) (s : state) :
  let resolved := resolve_path env path in
  resolved = abspath env (if bool_decide (snd (splitext env path) = "")
                          then path +:+ default_extension env else path) /\
  (files s !! resolved = None ->
   LoadLibrary__init__ env path libtype s = (Raise (NotFound resolved), s)) /\
  (forall d class h,
     files s !! resolved = Some d ->
     ctypes_kind libtype = Some class ->
     ctypes_open env class resolved = Return h ->
     LoadLibrary__init__ env path libtype s
     = (Return {| _net := None; _path := resolved; _lib := CtypesLib class h |},
        set_trace (trace s ++ [EExternal ("ctypes." +:+ class) resolved]) s)) /\
  (forall d class e,
     files s !! resolved = Some d ->
     ctypes_kind libtype = Some class ->
     ctypes_open env class resolved = Raise e ->
     LoadLibrary__init__ env path libtype s
     = (Raise e, set_trace (trace s ++ [EExternal ("ctypes." +:+ class) resolved]) s)) /\
  (forall l s',
     LoadLibrary__init__ env path libtype s = (Return l, s') ->
     _path l = resolved /\ exists d, files s !! resolved = Some d).
Proof.
  intros resolved. split_and!.
  - done.
  - intros Hnone. unfold LoadLibrary__init__.
    erewrite bind_Return; [| by apply isfile_None]. done.
  - intros d class h Hsome Hkind Hopen. unfold LoadLibrary__init__.
    erewrite bind_Return; [| by eapply isfile_Some].
    fold resolved. simpl negb. cbv iota.
    unfold ctypes_kind in Hkind.
    repeat case_bool_decide; simplify_eq;
      unfold ctypes_class, bind, emit, lift; simpl; by rewrite Hopen.
  - intros d class e Hsome Hkind Hopen. unfold LoadLibrary__init__.
    erewrite bind_Return; [| by eapply isfile_Some].
    fold resolved. simpl negb. cbv iota.
    unfold ctypes_kind in Hkind.
    repeat case_bool_decide; simplify_eq;
      unfold ctypes_class, bind, emit, lift; simpl; by rewrite Hopen.
  - intros l s' Hrun. split; [by eapply LoadLibrary_path |].
    destruct (files s !! resolved) as [d|] eqn:Hf; [by exists d |].
    unfold LoadLibrary__init__ in Hrun.
    erewrite bind_Return in Hrun; [| by apply isfile_None]. done.
Qed.

Lemma LoadLibrary_resolves_witness :
  LoadLibrary__init__ Fixture.env "nolib" "cdll" Fixture.s0
  = (Raise (NotFound "/work/nolib.so"), Fixture.s0) /\
  LoadLibrary__init__ Fixture.env "dummy_lib32" "cdll" Fixture.s0
  = (Return {| _net := None; _path := "/work/dummy_lib32.so"; _lib := CtypesLib "CDLL" 1 |},
     set_trace [EExternal "ctypes.CDLL" "/work/dummy_lib32.so"] Fixture.s0).
Proof.
  split.
  - apply (LoadLibrary_resolves Fixture.env "nolib" "cdll" Fixture.s0). by_eval.
  - apply (proj1 (proj2 (proj2
             (LoadLibrary_resolves Fixture.env "dummy_lib32" "cdll" Fixture.s0)))
             (Text "ELF32") "CDLL" 1); by_eval.
Defined.

(** C4 (counterexample): a file that exists and a valid kind are not
    enough.  The library of the other word width is a file, and [ctypes]
    refuses it: the constructor raises (the case of the repository's tests
    [test_load_failure_in_64bit_python] and [..._32bit_python]). *)
Lemma existing_file_counterexample :
  ~ loads_every_existing_file Fixture.env "dummy_lib64" "cdll" Fixture.s0.
Proof.
  intros H. destruct H as (l & s' & Hrun & _).
  - eexists. by_eval.
  - by_eval.
  - vm_compute in Hrun. discriminate Hrun.
Qed.

(** C7 (the code at the failing input): with pythonnet missing, the kind
    [net] on an existing file is refused with the failure of an unsupported
    library type, a [TypeError] with the message of the final [else], after
    a warning was logged; no failure of its own is raised. *)
Theorem net_without_pythonnet (env : Env) (path : string) (s : state) (d : file_data) :
  files s !! resolve_path env path = Some d ->
  clr_importable env = false ->
  LoadLibrary__init__ env path "net" s
  = (Raise (Exc "TypeError" "Invalid library type: net" []),
     set_trace (trace s ++ [ELog "Python for .NET <pythonnet> is not installed. Cannot load a .NET library."]) s) /\
  LoadLibrary__init__ env path "bogus" s
  = (Raise (Exc "TypeError" "Invalid library type: bogus" []), s).
Proof.
  intros Hfile Hclr. unfold LoadLibrary__init__.
  erewrite !bind_Return by (by eapply isfile_Some).
  simpl. unfold is_python_net_installed. rewrite Hclr. done.
Qed.

Lemma net_without_pythonnet_witness :
  fst (LoadLibrary__init__ Fixture.env "dummy_lib32" "net" Fixture.s0)
  = Raise (Exc "TypeError" "Invalid library type: net" []) /\
  fst (LoadLibrary__init__ Fixture.env "dummy_lib32" "bogus" Fixture.s0)
  = Raise (Exc "TypeError" "Invalid library type: bogus" []).
Proof.
  destruct (net_without_pythonnet Fixture.env "dummy_lib32" Fixture.s0 (Text "ELF32")
              ltac:(by_eval) ltac:(by_eval)) as [H1 H2].
  by rewrite H1, H2.
Defined.

(** ** The constructor of the server (claim C6) *)

(** C6 (as amended): when the loader fails, the constructor of the server
    raises the loader's exception and returns no server, so that no request
    can be dispatched on one.  The loader runs after the base constructor:
    by then the socket is bound and listening. *)
Theorem loader_failure_propagates (env : Env) (c : subclass)
    (path libtype host port : string) (q : bool) (s s' : state) (p : Z) (e : exception) :
  int (machine env) port = Some p ->
  socket_bind env host p = Return tt ->
  LoadLibrary__init__ env path libtype (listening host p s) = (Raise e, s') ->
  Server32.__init__ env c path libtype host port q s = (Raise e, s') /\
  (forall srv s'', Server32.__init__ env c path libtype host port q s <> (Return srv, s'')).
Proof.
  intros Hport Hbind Hload.
  assert (Hrun : Server32.__init__ env c path libtype host port q s = (Raise e, s')).
  { unfold Server32.__init__.
    erewrite bind_Return; [| by apply call_int_Some].
    erewrite bind_Return.
    2:{ unfold Server32.HTTPServer__init__, bind, emit, lift. simpl.
        rewrite Hbind. simpl. unfold set_trace. simpl.
        by rewrite <- app_assoc. }
    erewrite bind_Raise; [done |]. exact Hload. }
  split; [done |].
  intros srv s''. by rewrite Hrun.
Qed.

Lemma loader_failure_propagates_witness :
  Server32.__init__ Fixture.env Fixture.Dummy32 "nolib" "cdll" "127.0.0.1" "8000" true
    Fixture.s0
  = (Raise (NotFound "/work/nolib.so"), listening "127.0.0.1" 8000 Fixture.s0).
Proof.
  apply (loader_failure_propagates Fixture.env Fixture.Dummy32 "nolib" "cdll"
           "127.0.0.1" "8000" true Fixture.s0 _ 8000 _); by_eval.
Defined.

(** C6 (counterexample): the library is missing, the constructor raises, and
    the socket has been listening since before the loader ran. *)
Lemma listening_counterexample :
  ~ never_listens_on_failure Fixture.env Fixture.Dummy32 "nolib" "cdll" "127.0.0.1" "8000"
      true Fixture.s0.
Proof.
  intros H. specialize (H _ _ ltac:(by_eval)).
  vm_compute in H. discriminate H.
Qed.

(** ** The repair of the .NET configuration (claim C8) *)

Lemma occurs_String (t s : string) (a : ascii) :
  Str.occurs t s -> Str.occurs t (String a s).
Proof. intros (pre & post & ->). by exists (String a pre), post. Qed.

Ltac occurs_tac :=
  first [ apply occurs_refl
        | apply contains_spec; vm_compute; reflexivity
        | apply occurs_String; occurs_tac
        | apply occurs_app_r; occurs_tac
        | apply occurs_app_l; occurs_tac ].

Lemma open_write_fail (mc : Machine) (path mode : string) (d : file_data) (s : state) :
  can_write mc path = false ->
  exists e, open_write mc path mode d s
            = (Raise e, set_trace (trace s ++ [EOpen path mode]) s).
Proof.
  intros H. unfold open_write, bind, emit, builtin_error, raise. simpl. rewrite H.
  by eexists.
Qed.

Lemma read_text_state (d : file_data) (s s' : state) (r : result string) :
  read_text d s = (r, s') -> s' = s.
Proof. destruct d as [t|[|p ps]]; by intros [= _ <-]. Qed.

Ltac step H :=
  erewrite bind_Return in H
    by first [ by eapply isfile_Some
             | by apply isfile_None
             | by apply open_read_ok
             | by apply open_write_ok
             | reflexivity ];
  cbv beta iota in H.

Ltac finish_check :=
  simpl trace; rewrite <- ?app_assoc; eexists; (split; [reflexivity |]);
  (split; [vm_compute; reflexivity |]);
  first
    [ left; split; [reflexivity |]; split; [occurs_tac | vm_compute; reflexivity]
    | right; left; split; [reflexivity |]; split; [reflexivity | vm_compute; reflexivity]
    | right; right; split; [reflexivity | vm_compute; reflexivity]
    | vm_compute; lia ].

(** What one check of the configuration does: it never loads an assembly;
    it writes the configuration file once when it answers 1, with a message
    that asks to try again, and not at all when it answers 0 or -1. *)
Lemma check_dot_net_config_outcome (env : Env) (exe : string) (s s' : state)
    (r : result (Z * string)) :
  check_dot_net_config env exe s = (r, s') ->
  exists evs,
    trace s' = trace s ++ evs /\
    count is_LoadFile evs = 0%nat /\
    match r with
    | Return (status, msg) =>
        (status = 1 /\ Str.occurs "Try again" msg /\ count is_open_w evs = 1%nat) \/
        (status = 0 /\ msg = "The useLegacyV2RuntimeActivationPolicy property is enabled" /\
         count is_open_w evs = 0%nat) \/
        (status = -1 /\ count is_open_w evs = 0%nat)
    | Raise _ => (count is_open_w evs <= 1)%nat
    end.
Proof.
  unfold check_dot_net_config. cbv zeta.
  intros Hrun.
  destruct (files s !! (exe +:+ ".config")) as [d|] eqn:Hcfg.
  - step Hrun. cbv iota in Hrun. step Hrun.
    destruct (read_text d (set_trace (trace s ++ [EOpen (exe +:+ ".config") "r"]) s))
      as [[text|e] s1] eqn:Hread;
      pose proof (read_text_state _ _ _ _ Hread) as ->.
    2:{ erewrite bind_Raise in Hrun by exact Hread.
        injection Hrun as <- <-. finish_check. }
    erewrite bind_Return in Hrun by exact Hread.
    cbv beta iota in Hrun. step Hrun.
    destruct (ET_parse env text) as [root|].
    2:{ step Hrun. injection Hrun as <- <-. finish_check. }
    destruct (negb (bool_decide (el_tag root = "configuration"))).
    { step Hrun. injection Hrun as <- <-. finish_check. }
    destruct (find_policy root) as [policy|].
    + destruct (negb (bool_decide (Str.lower _ = "true"))).
      * step Hrun. injection Hrun as <- <-. finish_check.
      * injection Hrun as <- <-. finish_check.
    + destruct (can_write (machine env) (exe +:+ ".config")) eqn:Hw.
      * step Hrun. step Hrun. injection Hrun as <- <-. finish_check.
      * destruct (open_write_fail (machine env) (exe +:+ ".config") "w" (Text "")
                    (set_trace ((trace s ++ [EOpen (exe +:+ ".config") "r"])
                                ++ [EExternal "ET.parse" (exe +:+ ".config")])
                       (set_trace (trace s ++ [EOpen (exe +:+ ".config") "r"]) s)) Hw)
          as [e He].
        erewrite bind_Raise in Hrun by exact He.
        injection Hrun as <- <-. finish_check.
  - step Hrun. cbv iota in Hrun.
    destruct (can_write (machine env) (exe +:+ ".config")) eqn:Hw.
    + step Hrun. step Hrun. injection Hrun as <- <-. finish_check.
    + destruct (open_write_fail (machine env) (exe +:+ ".config") "w" (Text "") s Hw)
        as [e He].
      erewrite bind_Raise in Hrun by exact He.
      injection Hrun as <- <-. finish_check.
Qed.

(** With pythonnet installed, the kind [net] on an existing file takes the
    .NET branch of the constructor. *)
Lemma LoadLibrary_net (env : Env) (path : string) (s : state) (d : file_data) :
  files s !! resolve_path env path = Some d ->
  clr_importable env = true ->
  LoadLibrary__init__ env path "net" s = load_net env (resolve_path env path) s.
Proof.
  intros Hfile Hclr. unfold LoadLibrary__init__.
  erewrite bind_Return by (by eapply isfile_Some).
  simpl. unfold is_python_net_installed. rewrite Hclr.
  by erewrite bind_Return by reflexivity.
Qed.

(** C8 (as amended): when loading the assembly fails with the mixed-mode
    [FileLoadException], the constructor checks the configuration once, makes
    no second attempt to load the assembly, writes the configuration file at
    most once, and always raises: the exception of the check if the check
    itself failed, and otherwise an [IOError] built from the answer of the
    check.  The message asks to try again when the check answered 1 (it
    wrote the property); on the answers 0 and -1 nothing is written and the
    message reports that the library still cannot be loaded, or the problem
    with the configuration file. *)
Theorem mixed_mode_repair_once (env : Env) (path : string) (s : state) (d : file_data)
    (err : exception) :
  files s !! resolve_path env path = Some d ->
  clr_importable env = true ->
  Assembly_LoadFile env (resolve_path env path) = Raise err ->
  exc_type err = "FileLoadException" ->
  Str.contains "Mixed mode assembly" (exc_value err) = true ->
  let s1 := set_trace (trace s ++ [EExternal "Assembly.LoadFile" (resolve_path env path)]) s in
  exists e s' evs,
    LoadLibrary__init__ env path "net" s = (Raise e, s') /\
    snd (check_dot_net_config env (sys_executable env) s1) = s' /\
    trace s' = trace s ++ evs /\
    count is_LoadFile evs = 1%nat /\
    (count is_open_w evs <= 1)%nat /\
    match fst (check_dot_net_config env (sys_executable env) s1) with
    | Raise e' => e = e'
    | Return (status, msg) =>
        e = repair_failure status msg (exc_value err) /\
        ((status = 1 /\ Str.occurs "Try again" (exc_value e) /\ count is_open_w evs = 1%nat) \/
         (status = 0 /\ count is_open_w evs = 0%nat) \/
         (status = -1 /\ count is_open_w evs = 0%nat))
    end.
Proof.
  intros Hfile Hclr Hload Hty Hmixed s1.
  rewrite (LoadLibrary_net env path s d Hfile Hclr).
  destruct (check_dot_net_config env (sys_executable env) s1) as [r s'] eqn:Hcheck.
  destruct (check_dot_net_config_outcome _ _ _ _ _ Hcheck) as (evs & Htr & Hloads & Hr).
  assert (Hevs : trace s'
                 = trace s ++ EExternal "Assembly.LoadFile" (resolve_path env path) :: evs).
  { rewrite Htr. subst s1. simpl. by rewrite <- app_assoc. }
  assert (Hcount : forall P, count P (EExternal "Assembly.LoadFile" (resolve_path env path) :: evs)
                             = ((if P (EExternal "Assembly.LoadFile" (resolve_path env path))
                                 then 1 else 0) + count P evs)%nat).
  { intros P. unfold count. simpl. by destruct (P _). }
  assert (Hrun : forall e,
             e = match r with
                 | Return (status, msg) => repair_failure status msg (exc_value err)
                 | Raise e' => e'
                 end ->
             load_net env (resolve_path env path) s = (Raise e, s')).
  { intros e ->. unfold load_net.
    erewrite bind_Return by reflexivity. cbv beta.
    erewrite bind_Raise; [reflexivity |].
    unfold try_except, lift. rewrite Hload.
    rewrite bool_decide_eq_true_2 by done.
    unfold on_FileLoadException. rewrite Hmixed.
    destruct r as [[status msg]|e'].
    - erewrite bind_Return by exact Hcheck. cbv beta iota.
      unfold repair_failure. by case_bool_decide.
    - by erewrite bind_Raise by exact Hcheck. }
  simpl fst. simpl snd.
  destruct r as [[status msg]|e'].
  - exists (repair_failure status msg (exc_value err)), s',
      (EExternal "Assembly.LoadFile" (resolve_path env path) :: evs).
    rewrite !Hcount. simpl is_LoadFile. simpl is_open_w. cbv iota. simpl Nat.add.
    split_and!; try done; [by apply Hrun | lia | | ].
    + destruct Hr as [(_ & _ & ->) | [(_ & _ & ->) | (_ & ->)]]; lia.
    + destruct Hr as [(-> & Hocc & ->) | [(-> & _ & ->) | (-> & ->)]]; auto.
  - exists e', s', (EExternal "Assembly.LoadFile" (resolve_path env path) :: evs).
    rewrite !Hcount. simpl is_LoadFile. simpl is_open_w. cbv iota. simpl Nat.add.
    split_and!; try done; [by apply Hrun | lia].
Qed.

(** On the fixture there is no configuration file yet: the check creates it. *)
Lemma mixed_mode_repair_once_witness :
  exists e s' evs,
    LoadLibrary__init__ Fixture.env_net "dummy_lib32" "net" Fixture.s0 = (Raise e, s') /\
    trace s' = trace Fixture.s0 ++ evs /\
    count is_LoadFile evs = 1%nat /\
    (count is_open_w evs <= 1)%nat.
Proof.
  destruct (mixed_mode_repair_once Fixture.env_net "dummy_lib32" Fixture.s0 (Text "ELF32")
              (Exc "FileLoadException"
                   "Mixed mode assembly is built against version 'v2.0.50727'" [])
              ltac:(by_eval) ltac:(by_eval) ltac:(by_eval) ltac:(by_eval) ltac:(by_eval))
    as (e & s' & evs & Hrun & _ & Htr & Hload & Hw & _).
  by exists e, s', evs.
Defined.

(** C8 (counterexample): the configuration file already enables the policy
    and the assembly is still refused: the failure says that the library
    still cannot be loaded, and does not ask to try again. *)
Lemma retry_message_counterexample :
  ~ instructs_retry Fixture.env_net "dummy_lib32" s_enabled.
Proof.
  intros H. specialize (H _ _ ltac:(by_eval)).
  vm_compute in H. discriminate H.
Qed.

(** * Further properties of the code *)

(** ** The request line of [do_GET] *)

Lemma cut_Some_inv (c : ascii) (s l r : string) :
  Str.cut c s = Some (l, r) -> s = l +:+ String c r /\ Str.cut c l = None.
Proof.
  revert l. induction s as [|a s IH]; intros l; simpl; [done |].
  unfold Str.ascii_eqb. case_bool_decide as Hac.
  - intros [= <- <-]. by subst.
  - destruct (Str.cut c s) as [[l' r']|] eqn:Hcut; [| done].
    intros [= <- <-]. destruct (IH l' eq_refl) as [-> Hl'].
    split; [done |]. simpl. unfold Str.ascii_eqb.
    rewrite bool_decide_eq_false_2 by done. by rewrite Hl'.
Qed.

Lemma split_length (c : ascii) (n : nat) (s : string) :
  (1 <= length (Str.split c n s) <= S n)%nat.
Proof.
  revert s. induction n as [|n IH]; intros s; simpl; [lia |].
  destruct (Str.cut c s) as [[l r]|]; simpl; [| lia].
  specialize (IH r). lia.
Qed.

(** The three fields that line 165 unpacks are exactly the fields of a
    request line [method:protocol:file] whose method and protocol have no
    colon; the file may have colons of its own. *)
Theorem request_line_fields (request m p f : string) (s : state) :
  RequestHandler.unpack3 (Str.split Str.colon 2 request) s = (Return (m, p, f), s) <->
  request = request_line m p f /\
  Str.cut Str.colon m = None /\ Str.cut Str.colon p = None.
Proof.
  split.
  - simpl. destruct (Str.cut Str.colon request) as [[l r]|] eqn:H1; [| done].
    destruct (Str.cut Str.colon r) as [[l2 r2]|] eqn:H2; [| done].
    simpl. intros [= <- <- <-].
    destruct (cut_Some_inv _ _ _ _ H1) as [-> Hl].
    destruct (cut_Some_inv _ _ _ _ H2) as [-> Hl2].
    done.
  - intros (-> & Hm & Hp). by rewrite split_request.
Qed.

Lemma unpack3_short (parts : list string) (s : state) :
  length parts <> 3%nat ->
  RequestHandler.unpack3 parts s
  = (Raise (Exc "ValueError"
              ("not enough values to unpack (expected 3, got "
               +:+ pretty (Z.of_nat (length parts)) +:+ ")") []), s).
Proof. by destruct parts as [|a [|b [|c [|]]]]. Qed.

Lemma at_line_Raise {A} (self : RequestHandler.t) (line : Z) (m : M A)
    (s s1 : state) (e : exception) :
  m s = (Raise e, s1) ->
  RequestHandler.at_line self line m s
  = (Raise (push_frame (RequestHandler.frame self line) e), s1).
Proof. intros H. unfold RequestHandler.at_line. by rewrite H. Qed.

(** A run of [do_GET] in which a statement of [do_GET] itself raised: the
    traceback has the frame of [do_GET] only, and that frame is reported. *)
Lemma do_GET_own_failure (env : Env) (self : RequestHandler.t) (s s1 : state)
    (ty msg : string) (line : Z) :
  Str.drop 1 (RequestHandler.path self) <> "SHUTDOWN_SERVER" ->
  RequestHandler.try_body env self (Str.drop 1 (RequestHandler.path self)) s
  = (Raise (Exc ty msg [RequestHandler.frame self line]), s1) ->
  RequestHandler.do_GET env self s
  = (Return tt,
     set_trace (trace s1 ++ failure_events (RequestHandler.frame self line)
                              (Exc ty msg [RequestHandler.frame self line])) s1).
Proof.
  intros Hreq Hbody.
  destruct (do_GET_on_raise env self s s1 _ Hreq Hbody eq_refl)
    as (tb & evs & Hrep & _ & _ & Hrun).
  destruct Hrep as [(l & Htb & _) | (l & rest & Htb)]; simpl in Htb; [| done].
  injection Htb as <-. exact Hrun.
Qed.

(** A request line with fewer than two colons (and which is not the
    shutdown request) is answered with status 501 and a [ValueError]
    located in [do_GET]; no file is opened or changed and nothing is
    invoked. *)
Theorem malformed_request (env : Env) (self : RequestHandler.t) (s : state) :
  Str.drop 1 (RequestHandler.path self) <> "SHUTDOWN_SERVER" ->
  length (Str.split Str.colon 2 (Str.drop 1 (RequestHandler.path self))) <> 3%nat ->
  exists n s',
    (n = 1 \/ n = 2) /\
    RequestHandler.do_GET env self s = (Return tt, s') /\
    files s' = files s /\
    events_since s s'
    = failure_events (RequestHandler.frame self 165)
        (Exc "ValueError"
             ("not enough values to unpack (expected 3, got " +:+ pretty n +:+ ")")
             [RequestHandler.frame self 165]).
Proof.
  intros Hreq Hlen.
  set (parts := Str.split Str.colon 2 (Str.drop 1 (RequestHandler.path self))) in *.
  pose proof (split_length Str.colon 2 (Str.drop 1 (RequestHandler.path self))) as Hb.
  fold parts in Hb.
  set (msg := "not enough values to unpack (expected 3, got "
              +:+ pretty (Z.of_nat (length parts)) +:+ ")").
  exists (Z.of_nat (length parts)),
    (set_trace (trace s ++ failure_events (RequestHandler.frame self 165)
                             (Exc "ValueError" msg [RequestHandler.frame self 165])) s).
  split; [lia |].
  split; [| split].
  - apply do_GET_own_failure; [done |].
    unfold RequestHandler.try_body. fold parts.
    erewrite bind_Raise; [reflexivity |].
    by rewrite (at_line_Raise self 165 _ s s _ (unpack3_short parts s Hlen)).
  - done.
  - by apply events_since_app.
Qed.

Lemma malformed_request_witness :
  exists s',
    RequestHandler.do_GET Fixture.env (Fixture.handler true "/send_data:2") Fixture.s0
    = (Return tt, s') /\
    files s' = files Fixture.s0 /\
    status_of (events_since Fixture.s0 s') = Some 501.
Proof.
  destruct (malformed_request Fixture.env (Fixture.handler true "/send_data:2") Fixture.s0
              ltac:(by_eval) ltac:(by_eval))
    as (n & s' & _ & Hrun & Hfiles & Hev).
  exists s'. split_and!; [done | done |]. by rewrite Hev.
Defined.

(** ** Requests that fail before or while the response is stored *)

(** The start of the [try] body on a well-formed request line. *)
Lemma try_body_fields (env : Env) (self : RequestHandler.t) (s : state)
    (method protocol file : string) :
  Str.cut Str.colon method = None ->
  Str.cut Str.colon protocol = None ->
  RequestHandler.try_body env self (request_line method protocol file) s
  = (do response <-
       (if bool_decide (method = "LIB32_PATH") then
          ret (PStr (Server32.path (RequestHandler.server self)))
        else
          do f <- RequestHandler.at_line self 169 (open_read file "rb");
          do a <- RequestHandler.at_line self 170 (pickle_load (machine env) f);
          do k <- RequestHandler.at_line self 171 (pickle_load (machine env) (snd a));
          RequestHandler.at_line self 172
            (RequestHandler.invoke self method (fst a) (fst k)));
     run RequestHandler.at_line self 174
           (open_write (machine env) file "wb" (Pickles []));
     run RequestHandler.at_line self 175
           (do p <- call_int (machine env) protocol;
            pickle_dump (machine env) response file p);
     run RequestHandler.send_response self 200;
     RequestHandler.end_headers self) s.
Proof.
  intros Hm Hp. unfold RequestHandler.try_body.
  rewrite (split_request _ _ _ Hm Hp).
  by erewrite bind_Return by (by apply at_line_Return).
Qed.

Lemma drop_request_line (self : RequestHandler.t) (method protocol file : string) :
  RequestHandler.path self = "/" +:+ request_line method protocol file ->
  Str.drop 1 (RequestHandler.path self) = request_line method protocol file.
Proof. by intros ->. Qed.



(** Lines 169 to 171 on an exchange file that holds two loadable objects. *)
Lemma load_arguments (env : Env) (self : RequestHandler.t) (s : state)
    (file : string) (a k : pickled) (rest : list pickled) {B} (cont : pyval -> pyval -> M B) :
  files s !! file = Some (Pickles (a :: k :: rest)) ->
  pk_protocol a <= HIGHEST_PROTOCOL (machine env) ->
  pk_protocol k <= HIGHEST_PROTOCOL (machine env) ->
  (do f0 <- RequestHandler.at_line self 169 (open_read file "rb");
   do x <- RequestHandler.at_line self 170 (pickle_load (machine env) f0);
   do y <- RequestHandler.at_line self 171 (pickle_load (machine env) (snd x));
   cont (fst x) (fst y)) s
  = cont (pk_obj a) (pk_obj k) (set_trace (trace s ++ [EOpen file "rb"]) s).
Proof.
  intros Hfile Ha Hk.
  erewrite bind_Return; [| by apply at_line_Return, open_read_ok].
  erewrite bind_Return; [| by apply at_line_Return, pickle_load_ok].
  by erewrite bind_Return; [| by apply at_line_Return, pickle_load_ok].
Qed.

(** A request for a name that the server does not have is answered with
    status 501 and the [AttributeError] of [getattr], located in [do_GET];
    the exchange file keeps the arguments and no other file changes. *)
Theorem unknown_method (env : Env) (self : RequestHandler.t) (s : state)
    (method protocol file : string) (a k : pickled) (rest : list pickled) :
  RequestHandler.path self = "/" +:+ request_line method protocol file ->
  Str.cut Str.colon method = None ->
  Str.cut Str.colon protocol = None ->
  method <> "LIB32_PATH" ->
  files s !! file = Some (Pickles (a :: k :: rest)) ->
  pk_protocol a <= HIGHEST_PROTOCOL (machine env) ->
  pk_protocol k <= HIGHEST_PROTOCOL (machine env) ->
  cls_attrs (Server32.cls (RequestHandler.server self)) method = None ->
  exists s',
    RequestHandler.do_GET env self s = (Return tt, s') /\
    files s' = files s /\
    events_since s s'
    = EOpen file "rb"
      :: failure_events (RequestHandler.frame self 172)
           (Exc "AttributeError"
                ("'" +:+ cls_name (Server32.cls (RequestHandler.server self))
                 +:+ "' object has no attribute '" +:+ method +:+ "'")
                [RequestHandler.frame self 172]).
Proof.
  intros Hpath Hm Hp Hlib Hfile Ha Hk Hattr.
  pose proof (drop_request_line _ _ _ _ Hpath) as Hreq.
  set (s1 := set_trace (trace s ++ [EOpen file "rb"]) s).
  eexists (set_trace (trace s1 ++ failure_events (RequestHandler.frame self 172) _) s1).
  split; [| split].
  - apply do_GET_own_failure; [rewrite Hreq; apply request_line_not_sentinel |].
    rewrite Hreq, (try_body_fields _ _ _ _ _ _ Hm Hp).
    rewrite bool_decide_eq_false_2 by done.
    erewrite bind_Raise; [reflexivity |].
    rewrite (load_arguments env self s file a k rest
               (fun x y => RequestHandler.at_line self 172
                             (RequestHandler.invoke self method x y)) Hfile Ha Hk).
    fold s1. unfold RequestHandler.at_line, RequestHandler.invoke.
    by rewrite Hattr.
  - done.
  - apply events_since_app. subst s1. simpl. by rewrite <- app_assoc.
Qed.

Lemma unknown_method_witness :
  exists s',
    RequestHandler.do_GET Fixture.env (Fixture.handler true "/nothing:2:/tmp/x.pickle")
      Fixture.s0 = (Return tt, s') /\
    files s' = files Fixture.s0 /\
    status_of (events_since Fixture.s0 s') = Some 501.
Proof.
  destruct (unknown_method Fixture.env (Fixture.handler true "/nothing:2:/tmp/x.pickle")
              Fixture.s0 "nothing" "2" "/tmp/x.pickle"
              (Pickled 2 (PTuple [PInt 111; PTuple [PInt 1; PInt 2]]))
              (Pickled 2 (kwdict [("x", PStr "abcd")])) []
              ltac:(by_eval) ltac:(by_eval) ltac:(by_eval) ltac:(by_eval) ltac:(by_eval)
              ltac:(by_eval) ltac:(by_eval) ltac:(by_eval))
    as (s' & Hrun & Hfiles & Hev).
  exists s'. split_and!; [done | done |]. by rewrite Hev.
Defined.

(** Lines 174 and 175 with a protocol field that [int] or [pickle.dump]
    refuses: the file has been truncated when the exception is raised. *)
Lemma store_refused (env : Env) (self : RequestHandler.t) (response : pyval)
    (protocol file : string) (s : state) {B} (cont : M B) :
  can_write (machine env) file = true ->
  match int (machine env) protocol with
  | Some p => p < LONG_MIN (machine env) \/ HIGHEST_PROTOCOL (machine env) < p
  | None => True
  end ->
  exists msg,
    (run RequestHandler.at_line self 174 (open_write (machine env) file "wb" (Pickles []));
     run RequestHandler.at_line self 175
           (do p <- call_int (machine env) protocol;
            pickle_dump (machine env) response file p);
     cont) s
    = (Raise (Exc (refusal (machine env) protocol) msg [RequestHandler.frame self 175]),
       State (<[file := Pickles []]> (files s)) (sys_path s) (next_tid s)
             (trace s ++ [EOpen file "wb"])).
Proof.
  intros Hw Hbad. unfold refusal.
  pose proof (HIGHEST_fits (machine env)) as Hfits.
  erewrite bind_Return; [| by apply at_line_Return, open_write_ok].
  destruct (int (machine env) protocol) as [p|] eqn:Hint.
  - case_bool_decide as Hrange.
    + eexists. erewrite bind_Raise; [reflexivity |].
      unfold RequestHandler.at_line.
      erewrite bind_Return by (by apply call_int_Some).
      unfold pickle_dump. by rewrite bool_decide_eq_true_2.
    + eexists. erewrite bind_Raise; [reflexivity |].
      unfold RequestHandler.at_line.
      erewrite bind_Return by (by apply call_int_Some).
      unfold pickle_dump. rewrite bool_decide_eq_false_2 by done.
      rewrite bool_decide_eq_true_2 by lia. reflexivity.
  - destruct (call_int_None (machine env) protocol
                (State (<[file := Pickles []]> (files s)) (sys_path s) (next_tid s)
                       (trace s ++ [EOpen file "wb"])) Hint) as [msg Hcall].
    exists msg. erewrite bind_Raise; [reflexivity |].
    unfold RequestHandler.at_line.
    by erewrite bind_Raise by exact Hcall.
Qed.

(** A method request whose protocol field line 175 cannot use (it is not
    an integer for [int], or it is an integer outside the range of a C
    [long], or above the highest protocol of the server) is answered with
    status 501 after the method has run: the method was invoked, and the
    exchange file is left empty, neither the arguments nor the result are in
    it.  The failure reported is an [OverflowError] when the integer is
    outside the range of a C [long] and a [ValueError] otherwise. *)
Theorem unusable_protocol (env : Env) (self : RequestHandler.t) (s : state)
    (method protocol file : string) (pa : Z)
    (args : list pyval) (kwargs : list (string * pyval))
    (f : server_method) (value : pyval) (files' : fs) :
  RequestHandler.path self = "/" +:+ request_line method protocol file ->
  Str.cut Str.colon method = None ->
  Str.cut Str.colon protocol = None ->
  method <> "LIB32_PATH" ->
  files s !! file = Some (exchange pa args kwargs) ->
  pa <= HIGHEST_PROTOCOL (machine env) ->
  cls_attrs (Server32.cls (RequestHandler.server self)) method = Some (Method f) ->
  Server32.bound (RequestHandler.server self) f args kwargs (files s) = (Return value, files') ->
  can_write (machine env) file = true ->
  match int (machine env) protocol with
  | Some p => p < LONG_MIN (machine env) \/ HIGHEST_PROTOCOL (machine env) < p
  | None => True
  end ->
  exists msg s',
    RequestHandler.do_GET env self s = (Return tt, s') /\
    files s' = <[file := Pickles []]> files' /\
    events_since s s'
    = [EOpen file "rb"; EInvoke method args kwargs; EOpen file "wb"]
      ++ failure_events (RequestHandler.frame self 175)
           (Exc (refusal (machine env) protocol) msg [RequestHandler.frame self 175]).
Proof.
  intros Hpath Hm Hp Hlib Hfile Hpa Hattr Hf Hw Hbad.
  pose proof (drop_request_line _ _ _ _ Hpath) as Hreq.
  set (s1 := State files' (sys_path s) (next_tid s)
                   (trace s ++ [EOpen file "rb"; EInvoke method args kwargs])).
  destruct (store_refused env self value protocol file s1
              (run RequestHandler.send_response self 200; RequestHandler.end_headers self)
              Hw Hbad) as [msg Hstore].
  set (s2 := State (<[file := Pickles []]> (files s1)) (sys_path s1) (next_tid s1)
                   (trace s1 ++ [EOpen file "wb"])) in *.
  exists msg,
    (set_trace (trace s2 ++ failure_events (RequestHandler.frame self 175)
                              (Exc (refusal (machine env) protocol) msg
                                   [RequestHandler.frame self 175])) s2).
  split; [| split].
  - apply do_GET_own_failure; [rewrite Hreq; apply request_line_not_sentinel |].
    rewrite Hreq, (try_body_fields _ _ _ _ _ _ Hm Hp).
    rewrite bool_decide_eq_false_2 by done.
    erewrite bind_Return; [| by eapply load_and_invoke].
    exact Hstore.
  - done.
  - apply events_since_app. subst s2 s1. simpl. by rewrite <- !app_assoc.
Qed.

Lemma unusable_protocol_witness :
  exists s',
    RequestHandler.do_GET Fixture.env
      (Fixture.handler true "/send_data:100000000000000000000:/tmp/x.pickle") Fixture.s0
    = (Return tt, s') /\
    files s' !! "/tmp/x.pickle" = Some (Pickles []) /\
    status_of (events_since Fixture.s0 s') = Some 501 /\
    Str.occurs "OverflowError" (body_of (events_since Fixture.s0 s')).
Proof.
  destruct (unusable_protocol Fixture.env
              (Fixture.handler true "/send_data:100000000000000000000:/tmp/x.pickle") Fixture.s0
              "send_data" "100000000000000000000" "/tmp/x.pickle" 2
              [PInt 111; PTuple [PInt 1; PInt 2]] [("x", PStr "abcd")]
              send_data
              (PTuple [PTuple [PInt 111; PTuple [PInt 1; PInt 2]];
                       kwdict [("x", PStr "abcd")]])
              (files Fixture.s0)
              ltac:(by_eval) ltac:(by_eval) ltac:(by_eval) ltac:(by_eval)
              ltac:(by_eval) ltac:(by_eval) ltac:(by_eval) ltac:(by_eval)
              ltac:(by_eval) ltac:(vm_compute; by right))
    as (msg & s' & Hrun & Hfiles & Hev).
  exists s'. split_and!; [done | | by rewrite Hev | rewrite Hev].
  - rewrite Hfiles. apply lookup_insert_eq.
  - apply contains_spec. by vm_compute.
Defined.

(** A negative protocol in the request, within the range of a C [long],
    stands for the highest protocol of the server: the result of the method
    is stored with that one. *)
Theorem negative_protocol (env : Env) (self : RequestHandler.t) (s : state)
    (method protocol file : string) (pa p : Z)
    (args : list pyval) (kwargs : list (string * pyval))
    (f : server_method) (value : pyval) (files' : fs) :
  RequestHandler.path self = "/" +:+ request_line method protocol file ->
  Str.cut Str.colon method = None ->
  Str.cut Str.colon protocol = None ->
  method <> "LIB32_PATH" ->
  files s !! file = Some (exchange pa args kwargs) ->
  pa <= HIGHEST_PROTOCOL (machine env) ->
  cls_attrs (Server32.cls (RequestHandler.server self)) method = Some (Method f) ->
  Server32.bound (RequestHandler.server self) f args kwargs (files s) = (Return value, files') ->
  can_write (machine env) file = true ->
  int (machine env) protocol = Some p ->
  LONG_MIN (machine env) <= p < 0 ->
  0 <= HIGHEST_PROTOCOL (machine env) ->
  exists s',
    RequestHandler.do_GET env self s = (Return tt, s') /\
    files s' = <[file := Pickles [Pickled (HIGHEST_PROTOCOL (machine env)) value]]> files' /\
    status_of (events_since s s') = Some 200.
Proof.
  intros Hpath Hm Hp Hlib Hfile Hpa Hattr Hf Hw Hint Hneg Hhi.
  pose proof (drop_request_line _ _ _ _ Hpath) as Hreq.
  eexists. split; [| split].
  - apply do_GET_on_return; [rewrite Hreq; apply request_line_not_sentinel |].
    rewrite Hreq, (try_body_fields _ _ _ _ _ _ Hm Hp).
    rewrite bool_decide_eq_false_2 by done.
    erewrite bind_Return; [| by eapply load_and_invoke].
    rewrite (store_and_reply env self value protocol file p _ Hw Hint) by lia.
    reflexivity.
  - simpl. rewrite bool_decide_eq_true_2; [done | lia].
  - erewrite events_since_app; [| simpl; by rewrite <- app_assoc]. done.
Qed.

Lemma negative_protocol_witness :
  exists s',
    RequestHandler.do_GET Fixture.env (Fixture.handler true "/send_data:-1:/tmp/x.pickle")
      Fixture.s0 = (Return tt, s') /\
    files s' !! "/tmp/x.pickle"
    = Some (Pickles [Pickled 4 (PTuple [PTuple [PInt 111; PTuple [PInt 1; PInt 2]];
                                        kwdict [("x", PStr "abcd")]])]).
Proof.
  destruct (negative_protocol Fixture.env
              (Fixture.handler true "/send_data:-1:/tmp/x.pickle") Fixture.s0
              "send_data" "-1" "/tmp/x.pickle" 2 (-1)
              [PInt 111; PTuple [PInt 1; PInt 2]] [("x", PStr "abcd")]
              send_data
              (PTuple [PTuple [PInt 111; PTuple [PInt 1; PInt 2]];
                       kwdict [("x", PStr "abcd")]])
              (files Fixture.s0)
              ltac:(by_eval) ltac:(by_eval) ltac:(by_eval) ltac:(by_eval)
              ltac:(by_eval) ltac:(by_eval) ltac:(by_eval) ltac:(by_eval)
              ltac:(by_eval) ltac:(by_eval) ltac:(vm_compute; split; [discriminate | done])
              ltac:(by_eval))
    as (s' & Hrun & Hfiles & _).
  exists s'. split; [done |].
  rewrite Hfiles. apply lookup_insert_eq.
Defined.

(** ** What a request leaves alone *)

Lemma count_app (P : event -> bool) (a b : list event) :
  count P (a ++ b) = (count P a + count P b)%nat.
Proof. unfold count. by rewrite List.filter_app, length_app. Qed.

Lemma count_io (P : event -> bool) (evs : list event) :
  (forall e, io_event e -> P e = false) ->
  Forall io_event evs -> count P evs = 0%nat.
Proof.
  intros HP. induction 1 as [|e evs He _ IH]; [done |].
  unfold count in *. simpl. by rewrite (HP e He).
Qed.

(** When the [try] body of a request other than the shutdown request has
    finished, exactly one status line and one end of headers have been sent
    if it returned or raised an exception derived from [Exception], whatever
    the statement that failed, and none if the exception is of another
    class and leaves [do_GET]. *)
Theorem one_status_line (env : Env) (self : RequestHandler.t) (s s1 : state)
    (r : result unit) :
  Str.drop 1 (RequestHandler.path self) <> "SHUTDOWN_SERVER" ->
  RequestHandler.try_body env self (Str.drop 1 (RequestHandler.path self)) s = (r, s1) ->
  let s' := snd (RequestHandler.do_GET env self s) in
  let n := if answered r then 1%nat else 0%nat in
  count is_status (events_since s s') = n /\
  count is_end_headers (events_since s s') = n.
Proof.
  intros Hreq Hbody. destruct r as [[]|e]; simpl.
  - destruct (do_GET_on_return env self s s1 Hreq Hbody) as (Hrun & evs & Hio & Htr).
    rewrite Hrun. simpl. rewrite (events_since_app _ _ _ Htr).
    rewrite !count_app.
    rewrite !(count_io _ evs) by (done || by intros []).
    done.
  - destruct (is_Exception e) eqn:Hexc.
    + destruct (do_GET_on_raise env self s s1 e Hreq Hbody Hexc)
        as (tb & evs & _ & Hio & Htr & Hrun).
      rewrite Hrun. simpl.
      rewrite (events_since_app _ _ (evs ++ failure_events tb e))
        by (simpl; by rewrite Htr, <- app_assoc).
      rewrite !count_app.
      rewrite !(count_io _ evs) by (done || by intros []).
      done.
    + destruct (do_GET_on_escape env self s s1 e Hreq Hbody Hexc)
        as (Hrun & evs & Hio & Htr).
      rewrite Hrun. simpl. rewrite (events_since_app _ _ _ Htr).
      rewrite !(count_io _ evs) by (done || by intros []).
      done.
Qed.

Lemma one_status_line_witness :
  count is_status
    (events_since Fixture.s0
       (snd (RequestHandler.do_GET Fixture.env
               (Fixture.handler true "/fail:2:/tmp/x.pickle") Fixture.s0))) = 1%nat /\
  count is_status
    (events_since Fixture.s0
       (snd (RequestHandler.do_GET Fixture.env
               (Fixture.probe true "/leave:2:/tmp/x.pickle") Fixture.s0))) = 0%nat.
Proof.
  split.
  - apply (one_status_line Fixture.env (Fixture.handler true "/fail:2:/tmp/x.pickle")
             Fixture.s0
             (State (files Fixture.s0) [] 1
                [EOpen "/tmp/x.pickle" "rb";
                 EInvoke "fail" [PInt 111; PTuple [PInt 1; PInt 2]] [("x", PStr "abcd")]])
             (Raise (Exc "ValueError" "bad value"
                       [RequestHandler.frame (Fixture.handler true "/fail:2:/tmp/x.pickle") 172;
                        Fixture.method_entry; Fixture.helper_entry])));
      by_eval.
  - apply (one_status_line Fixture.env (Fixture.probe true "/leave:2:/tmp/x.pickle")
             Fixture.s0
             (State (files Fixture.s0) [] 1
                [EOpen "/tmp/x.pickle" "rb";
                 EInvoke "leave" [PInt 111; PTuple [PInt 1; PInt 2]] [("x", PStr "abcd")]])
             (Raise (BaseExc "SystemExit" "0"
                       [RequestHandler.frame (Fixture.probe true "/leave:2:/tmp/x.pickle") 172;
                        Fixture.exit_entry] false)));
      by_eval.
Defined.

Section Keeps.

Context {A B : Type}.
Variable o : option string.

Lemma keeps_ret (a : A) : keeps o (ret a).
Proof. by intros s r s' [= <- <-]. Qed.

Lemma keeps_raise (e : exception) : keeps o (@raise A e).
Proof. by intros s r s' [= <- <-]. Qed.

Lemma keeps_lift (r : result A) : keeps o (lift r).
Proof. by intros s r' s' [= <- <-]. Qed.

Lemma keeps_bind (m : M A) (k : A -> M B) :
  keeps o m -> (forall a, keeps o (k a)) -> keeps o (bind m k).
Proof.
  intros Hm Hk s r s' H. unfold bind in H.
  destruct (m s) as [[a|e] s1] eqn:E.
  - destruct (Hm _ _ _ E) as [Hp1 Hf1]. destruct (Hk a _ _ _ H) as [Hp2 Hf2].
    split; [congruence |]. intros p Hp. by rewrite Hf2, Hf1.
  - injection H as <- <-. exact (Hm _ _ _ E).
Qed.

Lemma keeps_at_line (self : RequestHandler.t) (line : Z) (m : M A) :
  keeps o m -> keeps o (RequestHandler.at_line self line m).
Proof.
  intros Hm s r s' H. unfold RequestHandler.at_line in H.
  destruct (m s) as [[a|e] s1] eqn:E; injection H as <- <-; exact (Hm _ _ _ E).
Qed.

Lemma keeps_try_except (m : M A) (c : exception -> bool) (h : exception -> M A) :
  keeps o m -> (forall e, keeps o (h e)) -> keeps o (try_except m c h).
Proof.
  intros Hm Hh s r s' H. unfold try_except in H.
  destruct (m s) as [[a|e] s1] eqn:E.
  - injection H as <- <-. exact (Hm _ _ _ E).
  - destruct (c e).
    + destruct (Hm _ _ _ E) as [Hp1 Hf1]. destruct (Hh e _ _ _ H) as [Hp2 Hf2].
      split; [congruence |]. intros p Hp. by rewrite Hf2, Hf1.
    + injection H as <- <-. exact (Hm _ _ _ E).
Qed.

End Keeps.

Lemma keeps_emit (o : option string) (e : event) : keeps o (emit e).
Proof. by intros s r s' [= <- <-]. Qed.

Lemma keeps_get_files (o : option string) : keeps o get_files.
Proof. by intros s r s' [= <- <-]. Qed.

Lemma keeps_put_file (file : string) (d : file_data) : keeps (Some file) (put_file file d).
Proof.
  intros s r s' [= <- <-]. split; [done |].
  intros p Hp. simpl. apply lookup_insert_ne. congruence.
Qed.

Lemma keeps_builtin_error {A} (o : option string) (ty msg : string) :
  keeps o (@builtin_error A ty msg).
Proof. apply keeps_raise. Qed.

Create HintDb keeps.
#[local] Hint Resolve keeps_ret keeps_raise keeps_lift keeps_emit keeps_get_files
  keeps_put_file keeps_builtin_error : keeps.

Ltac keeps_step :=
  first
    [ solve [eauto with keeps]
    | apply keeps_at_line
    | apply keeps_bind; [| intros ?] ].

Lemma keeps_open_read (o : option string) (path mode : string) :
  keeps o (open_read path mode).
Proof.
  unfold open_read. repeat keeps_step.
  destruct (_ !! _); eauto with keeps.
Qed.

Lemma keeps_open_write (mc : Machine) (file mode : string) (d : file_data) :
  keeps (Some file) (open_write mc file mode d).
Proof.
  unfold open_write. repeat keeps_step.
  destruct (can_write mc file); eauto with keeps.
Qed.

Lemma keeps_pickle_load (o : option string) (mc : Machine) (f : file_data) :
  keeps o (pickle_load mc f).
Proof.
  unfold pickle_load.
  destruct f as [[|]|[|p rest]]; eauto with keeps.
  case_bool_decide; eauto with keeps.
Qed.

Lemma keeps_call_int (o : option string) (mc : Machine) (text : string) :
  keeps o (call_int mc text).
Proof. unfold call_int. destruct (parse_int mc text); eauto with keeps. Qed.

Lemma keeps_pickle_dump (mc : Machine) (obj : pyval) (file : string) (p : Z) :
  keeps (Some file) (pickle_dump mc obj file p).
Proof.
  unfold pickle_dump. do 2 (case_bool_decide; eauto with keeps).
  repeat keeps_step.
  destruct (_ !! _) as [[|]|]; eauto with keeps.
Qed.

Lemma keeps_unpack_args (o : option string) (v : pyval) : keeps o (unpack_args v).
Proof. destruct v; simpl; eauto with keeps. Qed.

Lemma keeps_unpack_kwargs (o : option string) (v : pyval) : keeps o (unpack_kwargs v).
Proof.
  destruct v; simpl; eauto with keeps.
  destruct (string_keys kv); eauto with keeps.
Qed.

Lemma keeps_unpack3 (o : option string) (parts : list string) :
  keeps o (RequestHandler.unpack3 parts).
Proof.
  unfold RequestHandler.unpack3.
  destruct parts as [|a [|b [|c [|]]]]; eauto with keeps.
Qed.

#[local] Hint Resolve keeps_open_read keeps_open_write keeps_pickle_load
  keeps_pickle_dump keeps_call_int keeps_unpack_args keeps_unpack_kwargs
  keeps_unpack3 : keeps.

Lemma keeps_invoke (o : option string) (self : RequestHandler.t) (method : string)
    (args kwargs : pyval) :
  file_preserving (Server32.cls (RequestHandler.server self)) ->
  keeps o (RequestHandler.invoke self method args kwargs).
Proof.
  intros Hpure. unfold RequestHandler.invoke.
  destruct (cls_attrs _ _) as [a|] eqn:Hattr; eauto with keeps.
  repeat keeps_step.
  destruct a as [f|v]; eauto with keeps.
  keeps_step; [keeps_step |].
  intros s r s' H. destruct (Server32.bound _ f _ _ _) as [r0 files'] eqn:Ef.
  injection H as <- <-. split; [done |].
  intros p _. simpl.
  pose proof (Hpure _ _ (Server32.quiet (RequestHandler.server self))
                (Server32._library (RequestHandler.server self)) a0 a1 (files s) Hattr)
    as Hsame.
  unfold Server32.bound in Ef. rewrite Ef in Hsame. simpl in Hsame. by subst.
Qed.

(** The handler of the [except] clause changes no file. *)
Lemma keeps_except_clause (o : option string) (self : RequestHandler.t) (e : exception) :
  keeps o (RequestHandler.except_clause self e).
Proof.
  unfold RequestHandler.except_clause, RequestHandler.send_response,
    RequestHandler.send_header, RequestHandler.end_headers, RequestHandler.wfile_write,
    RequestHandler.log_request, RequestHandler.log_message, RequestHandler.pick_entry.
  repeat keeps_step.
  destruct (exc_tb e) as [|? [|? ?]]; eauto with keeps.
Qed.

Lemma keeps_try_body (env : Env) (self : RequestHandler.t) (request : string) :
  file_preserving (Server32.cls (RequestHandler.server self)) ->
  keeps (exchange_of request) (RequestHandler.try_body env self request).
Proof.
  intros Hpure s r s' H. unfold RequestHandler.try_body, exchange_of in *.
  destruct (decide (length (Str.split Str.colon 2 request) = 3%nat)) as [Hlen|Hlen].
  - destruct (Str.split Str.colon 2 request) as [|a [|b [|c [|]]]]; try done.
    erewrite bind_Return in H by (by apply at_line_Return).
    cbv beta iota in H. revert H.
    generalize s r s'. change (keeps (Some c) ?m) with (keeps (Some c) m).
    apply keeps_bind.
    { case_bool_decide; [apply keeps_ret |].
      repeat keeps_step. by apply keeps_invoke. }
    intros response.
    unfold RequestHandler.send_response, RequestHandler.log_request,
      RequestHandler.log_message, RequestHandler.end_headers.
    repeat keeps_step.
  - erewrite bind_Raise in H
      by (by rewrite (at_line_Raise self 165 _ s s _ (unpack3_short _ s Hlen))).
    by injection H as <- <-.
Qed.


Lemma send_data_preserves_files : file_preserving Fixture.Dummy32.
Proof.
  intros name f q l args kwargs files0. simpl.
  repeat case_bool_decide; intros [= <-]; done.
Qed.


(** ** The constructor of the server, before and after the loader *)

(** When [int] refuses the port or the socket cannot be bound, the
    constructor of the server raises before the loader is tried: the socket
    is not listening, no library call is made, nothing is logged and no
    file or [sys.path] entry changes. *)
Theorem server_fails_before_loading (env : Env) (c : subclass)
    (path libtype host port : string) (q : bool) (s : state) :
  match int (machine env) port with
  | Some p => exists e, socket_bind env host p = Raise e
  | None => True
  end ->
  exists e s',
    Server32.__init__ env c path libtype host port q s = (Raise e, s') /\
    files s' = files s /\ sys_path s' = sys_path s /\
    Forall (fun ev => is_bind ev = true) (events_since s s').
Proof.
  intros Hbad. unfold Server32.__init__.
  destruct (int (machine env) port) as [p|] eqn:Hport.
  - destruct Hbad as [e Hbind].
    exists e, (set_trace (trace s ++ [EBind host p]) s).
    split_and!; try done.
    + erewrite bind_Return; [| by apply call_int_Some].
      erewrite bind_Raise; [reflexivity |].
      unfold Server32.HTTPServer__init__.
      erewrite bind_Return; [| reflexivity].
      erewrite bind_Raise; [reflexivity |].
      unfold lift. by rewrite Hbind.
    + rewrite (events_since_app _ _ [EBind host p]) by done. by repeat constructor.
  - destruct (call_int_None (machine env) port s Hport) as [msg Hcall].
    exists (Exc "ValueError" msg []), s.
    split_and!; try done.
    + by erewrite bind_Raise by exact Hcall.
    + rewrite (events_since_app _ _ []) by (by rewrite app_nil_r). constructor.
Qed.

Lemma server_fails_before_loading_witness :
  exists e s',
    Server32.__init__ Fixture.env Fixture.Dummy32 "dummy_lib32" "cdll" "127.0.0.1" "http"
      true Fixture.s0 = (Raise e, s') /\
    events_since Fixture.s0 s' = [].
Proof.
  destruct (server_fails_before_loading Fixture.env Fixture.Dummy32 "dummy_lib32" "cdll"
              "127.0.0.1" "http" true Fixture.s0 ltac:(by_eval))
    as (e & s' & Hrun & _ & _ & Hev).
  exists e, s'. split; [done |].
  vm_compute in Hrun. injection Hrun as _ <-. reflexivity.
Defined.

(** When the port is an integer, the socket can be bound and the loader
    succeeds, the constructor returns a server that keeps the [quiet] flag
    it was given and whose [path], [lib] and [net] are those of the loader's
    object; the path is the resolved path of the library. *)
Theorem server_constructed (env : Env) (c : subclass)
    (path libtype host port : string) (q : bool) (s s' : state) (p : Z) (l : LoadLibrary) :
  int (machine env) port = Some p ->
  socket_bind env host p = Return tt ->
  LoadLibrary__init__ env path libtype (listening host p s) = (Return l, s') ->
  exists srv,
    Server32.__init__ env c path libtype host port q s = (Return srv, s') /\
    Server32.quiet srv = q /\
    Server32.cls srv = c /\
    Server32.path srv = resolve_path env path /\
    Server32.lib srv = _lib l /\
    Server32.net srv = _net l.
Proof.
  intros Hport Hbind Hload.
  exists {| Server32.quiet := q; Server32._library := l; Server32.cls := c |}.
  split_and!; try done.
  - unfold Server32.__init__.
    erewrite bind_Return; [| by apply call_int_Some].
    erewrite bind_Return.
    2:{ unfold Server32.HTTPServer__init__, bind, emit, lift. simpl.
        rewrite Hbind. simpl. unfold set_trace. simpl.
        by rewrite <- app_assoc. }
    erewrite bind_Return; [done |]. exact Hload.
  - unfold Server32.path. simpl. by eapply LoadLibrary_path.
Qed.

Lemma server_constructed_witness :
  exists srv s',
    Server32.__init__ Fixture.env Fixture.Dummy32 "dummy_lib32" "cdll" "127.0.0.1" "8000"
      false Fixture.s0 = (Return srv, s') /\
    Server32.quiet srv = false /\
    Server32.path srv = "/work/dummy_lib32.so".
Proof.
  destruct (server_constructed Fixture.env Fixture.Dummy32 "dummy_lib32" "cdll"
              "127.0.0.1" "8000" false Fixture.s0
              (set_trace [EBind "127.0.0.1" 8000; EListen;
                          EExternal "ctypes.CDLL" "/work/dummy_lib32.so"] Fixture.s0)
              8000 Fixture.lib ltac:(by_eval) ltac:(by_eval) ltac:(by_eval))
    as (srv & Hrun & Hq & _ & Hpath & _).
  eexists srv, _. split_and!; [exact Hrun | done | by rewrite Hpath].
Defined.

(** ** The branches of the loader *)

(** A library type that is none of the four documented ones is refused with
    a [TypeError] that names it, once the file has been found; nothing else
    happens. *)
Theorem invalid_libtype (env : Env) (path libtype : string) (s : state) (d : file_data) :
  files s !! resolve_path env path = Some d ->
  valid_libtype libtype = false ->
  LoadLibrary__init__ env path libtype s
  = (Raise (Exc "TypeError" ("Invalid library type: " +:+ libtype) []), s).
Proof.
  intros Hfile Hbad. unfold LoadLibrary__init__.
  erewrite bind_Return by (by eapply isfile_Some).
  unfold valid_libtype in Hbad.
  apply orb_false_iff in Hbad as [Hbad Hnet].
  apply orb_false_iff in Hbad as [Hbad Hole].
  apply orb_false_iff in Hbad as [Hcdll Hwin].
  apply bool_decide_eq_false in Hnet, Hole, Hcdll, Hwin.
  simpl negb. cbv iota.
  rewrite !bool_decide_eq_false_2 by done.
  reflexivity.
Qed.

Lemma invalid_libtype_witness :
  LoadLibrary__init__ Fixture.env "dummy_lib32" "stdcall" Fixture.s0
  = (Raise (Exc "TypeError" "Invalid library type: stdcall" []), Fixture.s0).
Proof.
  apply (invalid_libtype Fixture.env "dummy_lib32" "stdcall" Fixture.s0 (Text "ELF32"));
    by_eval.
Defined.

(** When [ctypes] refuses the file, the constructor raises the very
    exception of [ctypes]: it is neither caught nor wrapped, and no object
    is returned. *)
Theorem ctypes_failure_propagates (env : Env) (path libtype class : string) (s : state)
    (d : file_data) (e : exception) :
  files s !! resolve_path env path = Some d ->
  ctypes_kind libtype = Some class ->
  ctypes_open env class (resolve_path env path) = Raise e ->
  LoadLibrary__init__ env path libtype s
  = (Raise e,
     set_trace (trace s ++ [EExternal ("ctypes." +:+ class) (resolve_path env path)]) s).
Proof.
  intros Hfile Hkind Hopen. unfold LoadLibrary__init__.
  erewrite bind_Return by (by eapply isfile_Some).
  simpl negb. cbv iota.
  unfold ctypes_kind in Hkind.
  repeat case_bool_decide; simplify_eq;
    unfold ctypes_class, bind, emit, lift; simpl; by rewrite Hopen.
Qed.

Lemma ctypes_failure_propagates_witness :
  fst (LoadLibrary__init__ Fixture.env "dummy_lib64" "cdll" Fixture.s0)
  = Raise (Exc "OSError" "/work/dummy_lib64.so: wrong ELF class: ELFCLASS64" []).
Proof.
  by rewrite (ctypes_failure_propagates Fixture.env "dummy_lib64" "cdll" "CDLL" Fixture.s0
                (Text "ELF64") _ ltac:(by_eval) ltac:(by_eval) ltac:(by_eval)).
Defined.

(** ** The .NET branch of the loader *)

(** The .NET branch when everything goes well: the assembly is loaded
    once, the directory of the library is put in front of [sys.path], the
    reference is added under the file name without its extension, and the
    module imported is the namespace of the first exported type.  No file
    is changed. *)
Theorem net_loaded (env : Env) (path : string) (s : state) (d : file_data)
    (asm : assembly) (ns head tail : string) (rest : list string) (m : lib_ref) :
  files s !! resolve_path env path = Some d ->
  clr_importable env = true ->
  Assembly_LoadFile env (resolve_path env path) = Return asm ->
  path_split env (resolve_path env path) = (head, tail) ->
  clr_AddReference env (fst (splitext env tail)) = Return tt ->
  exported_namespaces asm = ns :: rest ->
  __import__ env ns = Return m ->
  LoadLibrary__init__ env path "net" s
  = (Return {| _net := Some asm; _path := resolve_path env path; _lib := m |},
     State (files s) (head :: sys_path s) (next_tid s)
           (trace s ++ [EExternal "Assembly.LoadFile" (resolve_path env path);
                        EExternal "clr.AddReference" (fst (splitext env tail));
                        EExternal "__import__" ns])).
Proof.
  intros Hfile Hclr Hload Hsplit Href Hns Himp.
  rewrite (LoadLibrary_net env path s d Hfile Hclr).
  unfold load_net, try_except, bind, emit, lift. simpl.
  rewrite Hload, Hsplit. simpl. rewrite Href, Hns. simpl. rewrite Himp.
  unfold ret, set_trace, set_sys_path. simpl. by rewrite <- !app_assoc.
Qed.

(** A loading failure that is not the mixed-mode one: a
    [FileLoadException] is replaced by an [IOError] that says it is not
    handled (its own message is dropped), any other exception passes
    through as it is.  The configuration is not checked, and neither the
    files nor [sys.path] change. *)
Theorem load_failure_not_repaired (env : Env) (path : string) (s : state) (d : file_data)
    (err : exception) :
  files s !! resolve_path env path = Some d ->
  clr_importable env = true ->
  Assembly_LoadFile env (resolve_path env path) = Raise err ->
  (exc_type err = "FileLoadException" ->
   Str.contains "Mixed mode assembly" (exc_value err) = false) ->
  LoadLibrary__init__ env path "net" s
  = (Raise (if bool_decide (exc_type err = "FileLoadException")
            then Exc "IOError"
                     ("The above " +:+ Str.dq +:+ "System.IO.FileLoadException" +:+ Str.dq
                      +:+ " is not handled." +:+ Str.nl) []
            else err),
     set_trace (trace s ++ [EExternal "Assembly.LoadFile" (resolve_path env path)]) s).
Proof.
  intros Hfile Hclr Hload Hmixed.
  rewrite (LoadLibrary_net env path s d Hfile Hclr).
  unfold load_net.
  erewrite bind_Return; [| reflexivity].
  erewrite bind_Raise; [reflexivity |].
  unfold try_except, lift. rewrite Hload.
  case_bool_decide as Hty; [| done].
  unfold on_FileLoadException. by rewrite (Hmixed Hty).
Qed.

Lemma net_loaded_witness :
  exists l s',
    LoadLibrary__init__ NetFixture.env_loaded "dummy_lib32.dll" "net" NetFixture.s_dll
    = (Return l, s') /\
    _lib l = NetModule "DotNet" /\
    sys_path s' = ["/work"].
Proof.
  eexists _, _. split; [| split].
  - apply (net_loaded NetFixture.env_loaded "dummy_lib32.dll" NetFixture.s_dll
             (Text "PE32") (Assembly ["DotNet"; "DotNet.Util"]) "DotNet" "/work"
             "dummy_lib32.dll" ["DotNet.Util"] (NetModule "DotNet")); by_eval.
  - done.
  - done.
Defined.

Lemma load_failure_not_repaired_witness :
  LoadLibrary__init__ NetFixture.env_refused "dummy_lib32.dll" "net" NetFixture.s_dll
  = (Raise (Exc "IOError"
              ("The above " +:+ Str.dq +:+ "System.IO.FileLoadException" +:+ Str.dq
               +:+ " is not handled." +:+ Str.nl) []),
     set_trace [EExternal "Assembly.LoadFile" "/work/dummy_lib32.dll"] NetFixture.s_dll).
Proof.
  apply (load_failure_not_repaired NetFixture.env_refused "dummy_lib32.dll" NetFixture.s_dll
           (Text "PE32")
           (Exc "FileLoadException"
                "Could not load file or assembly '/work/dummy_lib32.dll'" []));
    by_eval.
Defined.

(** ** The configuration file of the interpreter *)

Lemma concat_app (a b : list string) :
  Str.concat (a ++ b) = Str.concat a +:+ Str.concat b.
Proof.
  induction a as [|x a IH]; simpl; [done |].
  by rewrite IH, append_assoc.
Qed.

(** Reading the lines of a text and writing them back gives the text. *)
Lemma readlines_concat (t : string) : Str.concat (readlines t) = t.
Proof.
  induction t as [|a t IH]; simpl; [done |].
  unfold Str.ascii_eqb. case_bool_decide.
  - simpl. by rewrite IH.
  - destruct (readlines t) as [|l ls]; simpl in *.
    + by rewrite <- IH.
    + by rewrite IH.
Qed.

Lemma insert_before_last_snoc (x l : string) (pre : list string) :
  insert_before_last x (pre ++ [l]) = pre ++ [x; l].
Proof.
  induction pre as [|a pre IH]; simpl; [done |].
  rewrite IH. by destruct pre.
Qed.

(** The lines with the fix inserted, as a text: the fix stands before the
    last line. *)
Lemma insert_before_last_text (x : string) (lines : list string) :
  Str.concat (insert_before_last x lines)
  = Str.concat (removelast lines) +:+ x +:+ List.last lines "".
Proof.
  induction lines as [|l pre _] using rev_ind.
  - simpl. by rewrite append_nil_r.
  - rewrite insert_before_last_snoc, removelast_last, last_last, concat_app.
    simpl. by rewrite append_nil_r.
Qed.

Lemma lines_text (lines : list string) :
  Str.concat lines = Str.concat (removelast lines) +:+ List.last lines "".
Proof.
  induction lines as [|l pre _] using rev_ind; [done |].
  rewrite removelast_last, last_last, concat_app. simpl. by rewrite append_nil_r.
Qed.

Lemma readlines_one_line (t : string) :
  Str.cut (ascii_of_nat 10) t = None ->
  readlines t = match t with EmptyString => [] | _ => [t] end.
Proof.
  induction t as [|a t IH]; simpl; [done |].
  destruct (Str.ascii_eqb a (ascii_of_nat 10)); [done |].
  destruct (Str.cut (ascii_of_nat 10) t) as [[? ?]|]; [done |].
  intros _. rewrite IH by done. by destruct t.
Qed.

Lemma universal_newlines_id (t : string) :
  Str.cut (ascii_of_nat 13) t = None -> universal_newlines t = t.
Proof.
  induction t as [|a t IH]; simpl; [done |].
  destruct (Str.ascii_eqb a (ascii_of_nat 13)); [done |].
  destruct (Str.cut (ascii_of_nat 13) t) as [[? ?]|]; [done |].
  intros _. by rewrite IH.
Qed.

Lemma written_with_app (linesep a b : string) :
  written_with linesep (a +:+ b) = written_with linesep a +:+ written_with linesep b.
Proof.
  induction a as [|x a IH]; simpl; [done |].
  by rewrite IH, append_assoc.
Qed.

Lemma on_disk_app (env : Env) (a b : string) :
  on_disk env (a +:+ b) = on_disk env a +:+ on_disk env b.
Proof. apply written_with_app. Qed.

Lemma occurs_on_disk (env : Env) (t s : string) :
  Str.occurs t s -> Str.occurs (on_disk env t) (on_disk env s).
Proof.
  intros (pre & post & ->). exists (on_disk env pre), (on_disk env post).
  by rewrite !on_disk_app.
Qed.

#[local] Arguments on_disk : simpl never.

(** The message of the answer 1. *)
Lemma check_creates (env : Env) (exe : string) (s : state) :
  files s !! (exe +:+ ".config") = None ->
  can_write (machine env) (exe +:+ ".config") = true ->
  exists msg,
    Str.occurs "Try again" msg /\
    check_dot_net_config env exe s
    = (Return (1, msg),
       State (<[exe +:+ ".config" := Text (on_disk env created_config)]> (files s))
             (sys_path s) (next_tid s) (trace s ++ [EOpen (exe +:+ ".config") "w"])).
Proof.
  intros Hcfg Hw. unfold check_dot_net_config. cbv zeta.
  eexists. split; [| erewrite bind_Return by (by apply isfile_None); cbv beta iota;
                     erewrite bind_Return by (by apply open_write_ok); cbv beta;
                     erewrite bind_Return by reflexivity; cbv beta;
                     unfold ret, set_files; simpl; rewrite insert_insert_eq; reflexivity].
  occurs_tac.
Qed.

Lemma check_enabled (env : Env) (exe t : string) (s : state) (root policy : element) :
  files s !! (exe +:+ ".config") = Some (Text t) ->
  ET_parse env t = Some root ->
  el_tag root = "configuration" ->
  find_policy root = Some policy ->
  Str.lower (default EmptyString (assoc policy_key (el_attrib policy))) = "true" ->
  check_dot_net_config env exe s
  = (Return (0, "The useLegacyV2RuntimeActivationPolicy property is enabled"),
     set_trace (trace s ++ [EOpen (exe +:+ ".config") "r";
                            EExternal "ET.parse" (exe +:+ ".config")]) s).
Proof.
  intros Hcfg Hparse Htag Hpol Htrue. unfold check_dot_net_config. cbv zeta.
  erewrite bind_Return by (by eapply isfile_Some). cbv beta iota.
  erewrite bind_Return by (by apply open_read_ok). cbv beta.
  erewrite bind_Return by reflexivity. cbv beta.
  erewrite bind_Return by reflexivity. cbv beta.
  rewrite Hparse, Htag, Hpol, Htrue.
  rewrite !bool_decide_eq_true_2 by done. change (negb true) with false. cbv iota.
  unfold ret, set_trace. simpl. by rewrite <- app_assoc.
Qed.

Lemma check_inserts (env : Env) (exe t : string) (s : state) (root : element) :
  files s !! (exe +:+ ".config") = Some (Text t) ->
  ET_parse env t = Some root ->
  el_tag root = "configuration" ->
  find_policy root = None ->
  can_write (machine env) (exe +:+ ".config") = true ->
  exists msg,
    Str.occurs "Try again" msg /\
    check_dot_net_config env exe s
    = (Return (1, msg),
       State (<[exe +:+ ".config" :=
                  Text (on_disk env
                          (Str.concat (insert_before_last NET_FRAMEWORK_FIX
                                         (readlines (universal_newlines t)))))]>
                (files s))
             (sys_path s) (next_tid s)
             (trace s ++ [EOpen (exe +:+ ".config") "r";
                          EExternal "ET.parse" (exe +:+ ".config");
                          EOpen (exe +:+ ".config") "w"])).
Proof.
  intros Hcfg Hparse Htag Hpol Hw. unfold check_dot_net_config. cbv zeta.
  eexists. split; [| erewrite bind_Return by (by eapply isfile_Some); cbv beta iota;
                     erewrite bind_Return by (by apply open_read_ok); cbv beta;
                     erewrite bind_Return by reflexivity; cbv beta;
                     erewrite bind_Return by reflexivity; cbv beta;
                     rewrite Hparse, Htag, Hpol;
                     rewrite bool_decide_eq_true_2 by done; change (negb true) with false; cbv iota;
                     erewrite bind_Return by (by apply open_write_ok); cbv beta;
                     erewrite bind_Return by reflexivity; cbv beta;
                     unfold ret, set_files, set_trace; simpl;
                     rewrite insert_insert_eq, <- !app_assoc; reflexivity].
  occurs_tac.
Qed.

(** The repair converges: when there is no configuration file, the check
    creates it and answers 1; a second check, on a parser that reads what
    the file then holds as a [configuration] with an enabled [startup]
    policy, answers 0 and leaves the file as the first check wrote it. *)
Theorem check_then_enabled (env : Env) (exe : string) (s : state) (root policy : element) :
  files s !! (exe +:+ ".config") = None ->
  can_write (machine env) (exe +:+ ".config") = true ->
  ET_parse env (on_disk env created_config) = Some root ->
  el_tag root = "configuration" ->
  find_policy root = Some policy ->
  Str.lower (default EmptyString (assoc policy_key (el_attrib policy))) = "true" ->
  exists msg s1 s2,
    check_dot_net_config env exe s = (Return (1, msg), s1) /\
    files s1 = <[exe +:+ ".config" := Text (on_disk env created_config)]> (files s) /\
    check_dot_net_config env exe s1
    = (Return (0, "The useLegacyV2RuntimeActivationPolicy property is enabled"), s2) /\
    files s2 = files s1.
Proof.
  intros Hcfg Hw Hparse Htag Hpol Htrue.
  destruct (check_creates env exe s Hcfg Hw) as (msg & _ & Hrun1).
  eexists msg, _, _. split; [exact Hrun1 |]. split; [done |].
  split.
  - eapply check_enabled; try done.
    simpl. apply lookup_insert_eq.
  - done.
Qed.

Lemma check_then_enabled_witness :
  exists msg s1 s2,
    check_dot_net_config Fixture.env "/usr/bin/python" Fixture.s0 = (Return (1, msg), s1) /\
    check_dot_net_config Fixture.env "/usr/bin/python" s1
    = (Return (0, "The useLegacyV2RuntimeActivationPolicy property is enabled"), s2) /\
    files s2 = files s1.
Proof.
  destruct (check_then_enabled Fixture.env "/usr/bin/python" Fixture.s0
              (Element "configuration" [] [Element "startup" [(policy_key, "true")] []])
              (Element "startup" [(policy_key, "true")] [])
              ltac:(by_eval) ltac:(by_eval) ltac:(by_eval) ltac:(by_eval) ltac:(by_eval)
              ltac:(by_eval))
    as (msg & s1 & s2 & H1 & _ & H2 & H3).
  by exists msg, s1, s2.
Defined.

(** When the configuration file has a [configuration] root without the
    policy, the check answers 1 and writes the file back from the lines it
    read in text mode (every line end read as one line feed), with the fix
    inserted before the last of them, every line feed written as the line
    separator of the platform. *)
Theorem fix_inserted_before_last_line (env : Env) (exe t : string) (s : state)
    (root : element) :
  files s !! (exe +:+ ".config") = Some (Text t) ->
  ET_parse env t = Some root ->
  el_tag root = "configuration" ->
  find_policy root = None ->
  can_write (machine env) (exe +:+ ".config") = true ->
  exists msg s' before last_line,
    check_dot_net_config env exe s = (Return (1, msg), s') /\
    universal_newlines t = before +:+ last_line /\
    last_line = List.last (readlines (universal_newlines t)) "" /\
    files s'
    = <[exe +:+ ".config" := Text (on_disk env (before +:+ NET_FRAMEWORK_FIX +:+ last_line))]>
        (files s).
Proof.
  intros Hcfg Hparse Htag Hpol Hw.
  destruct (check_inserts env exe t s root Hcfg Hparse Htag Hpol Hw) as (msg & _ & Hrun).
  eexists msg, _, (Str.concat (removelast (readlines (universal_newlines t)))),
    (List.last (readlines (universal_newlines t)) "").
  split; [exact Hrun |]. split; [| split; [done |]].
  - by rewrite <- lines_text, readlines_concat.
  - simpl. by rewrite insert_before_last_text.
Qed.

(** A configuration file written on one line (neither a line feed nor a
    carriage return in it) gets the fix in front of the whole text, before
    its root element. *)
Theorem one_line_config (env : Env) (exe t : string) (s : state) (root : element) :
  files s !! (exe +:+ ".config") = Some (Text t) ->
  ET_parse env t = Some root ->
  el_tag root = "configuration" ->
  find_policy root = None ->
  can_write (machine env) (exe +:+ ".config") = true ->
  Str.cut (ascii_of_nat 10) t = None ->
  Str.cut (ascii_of_nat 13) t = None ->
  exists msg s',
    check_dot_net_config env exe s = (Return (1, msg), s') /\
    files s' = <[exe +:+ ".config" := Text (on_disk env (NET_FRAMEWORK_FIX +:+ t))]> (files s).
Proof.
  intros Hcfg Hparse Htag Hpol Hw Hlf Hcr.
  destruct (check_inserts env exe t s root Hcfg Hparse Htag Hpol Hw) as (msg & _ & Hrun).
  eexists msg, _. split; [exact Hrun |].
  simpl. rewrite (universal_newlines_id t Hcr).
  rewrite insert_before_last_text, (readlines_one_line t Hlf).
  by destruct t.
Qed.

Lemma events_since_refl_app (s : state) (evs : list event) (f : fs) (p : list string)
    (n : nat) :
  events_since s (State f p n (trace s ++ evs)) = evs.
Proof. by apply events_since_app. Qed.

Ltac effects_trace :=
  unfold set_trace, set_files; simpl; rewrite <- ?app_assoc; simpl;
  rewrite ?events_since_refl_app.

(** What one check of the configuration changes and logs: [sys.path]
    never; the files only when it answers 1, and then the configuration
    file alone, which then holds the fix as text mode writes it; a warning
    exactly when it answers -1, and the warning is the message it returns.
    When the check raises, no file has changed. *)
Theorem check_effects (env : Env) (exe : string) (s s' : state)
    (r : result (Z * string)) :
  check_dot_net_config env exe s = (r, s') ->
  sys_path s' = sys_path s /\
  match r with
  | Return (status, msg) =>
      (status = 1 /\ log_messages (events_since s s') = [] /\
       (forall p, p <> exe +:+ ".config" -> files s' !! p = files s !! p) /\
       exists t, files s' !! (exe +:+ ".config") = Some (Text t) /\
                 Str.occurs (on_disk env NET_FRAMEWORK_FIX) t) \/
      (status = 0 /\ log_messages (events_since s s') = [] /\ files s' = files s) \/
      (status = -1 /\ log_messages (events_since s s') = [msg] /\ files s' = files s)
  | Raise _ => files s' = files s
  end.
Proof.
  intros Hrun.
  destruct (files s !! (exe +:+ ".config")) as [d|] eqn:Hcfg.
  - unfold check_dot_net_config in Hrun. cbv zeta in Hrun.
    step Hrun. step Hrun.
    destruct (read_text d (set_trace (trace s ++ [EOpen (exe +:+ ".config") "r"]) s))
      as [[text|e] s1] eqn:Hread;
      pose proof (read_text_state _ _ _ _ Hread) as ->.
    2:{ erewrite bind_Raise in Hrun by exact Hread. by injection Hrun as <- <-. }
    erewrite bind_Return in Hrun by exact Hread.
    cbv beta iota in Hrun. step Hrun.
    destruct (ET_parse env text) as [root|] eqn:Hparse.
    2:{ step Hrun. injection Hrun as <- <-. split; [done |].
        right; right. effects_trace. done. }
    destruct (negb (bool_decide (el_tag root = "configuration"))) eqn:Htag.
    { step Hrun. injection Hrun as <- <-. split; [done |].
      right; right. effects_trace. done. }
    destruct (find_policy root) as [policy|] eqn:Hpol.
    + destruct (negb (bool_decide (Str.lower _ = "true"))).
      * step Hrun. injection Hrun as <- <-. split; [done |].
        right; right. effects_trace. done.
      * injection Hrun as <- <-. split; [done |].
        right; left. effects_trace. done.
    + destruct (can_write (machine env) (exe +:+ ".config")) eqn:Hw.
      * step Hrun. step Hrun. injection Hrun as <- <-. split; [done |].
        left. effects_trace. split_and!; try done.
        -- intros p Hp. by rewrite !lookup_insert_ne.
        -- eexists. split; [apply lookup_insert_eq |].
           apply occurs_on_disk. rewrite insert_before_last_text.
           apply occurs_app_r, occurs_app_l, occurs_refl.
      * destruct (open_write_fail (machine env) (exe +:+ ".config") "w" (Text "")
                    (set_trace ((trace s ++ [EOpen (exe +:+ ".config") "r"])
                                ++ [EExternal "ET.parse" (exe +:+ ".config")])
                       (set_trace (trace s ++ [EOpen (exe +:+ ".config") "r"]) s)) Hw)
          as [e He].
        erewrite bind_Raise in Hrun by exact He.
        by injection Hrun as <- <-.
  - unfold check_dot_net_config in Hrun. cbv zeta in Hrun.
    step Hrun.
    destruct (can_write (machine env) (exe +:+ ".config")) eqn:Hw.
    + step Hrun. step Hrun. injection Hrun as <- <-. split; [done |].
      left. effects_trace. split_and!; try done.
      * intros p Hp. by rewrite !lookup_insert_ne.
      * exists (on_disk env created_config). split; [apply lookup_insert_eq |].
        apply occurs_on_disk, contains_spec. by vm_compute.
    + destruct (open_write_fail (machine env) (exe +:+ ".config") "w" (Text "") s Hw)
        as [e He].
      erewrite bind_Raise in Hrun by exact He.
      by injection Hrun as <- <-.
Qed.

(** ** What the loader leaves alone *)

Lemma keeps_isfile (o : option string) (p : string) : keeps o (isfile p).
Proof. by intros s r s' [= <- <-]. Qed.

Lemma keeps_read_text (o : option string) (d : file_data) : keeps o (read_text d).
Proof. destruct d as [t|[|? ?]]; simpl; eauto with keeps. Qed.

Lemma keeps_check (env : Env) (exe : string) :
  keeps (Some (exe +:+ ".config")) (check_dot_net_config env exe).
Proof.
  unfold check_dot_net_config. cbv zeta.
  apply keeps_bind; [apply keeps_isfile |]. intros [|].
  - apply keeps_bind; [eauto with keeps |]. intros fp.
    apply keeps_bind; [apply keeps_read_text |]. intros text.
    apply keeps_bind; [eauto with keeps |]. intros _.
    destruct (ET_parse env text) as [root|].
    2:{ repeat keeps_step. }
    destruct (negb _); [repeat keeps_step |].
    destruct (find_policy root) as [policy|].
    + destruct (negb _); repeat keeps_step.
    + repeat keeps_step.
  - repeat keeps_step.
Qed.

Lemma check_frame (env : Env) (exe : string) (s s' : state) (r : result (Z * string)) :
  check_dot_net_config env exe s = (r, s') ->
  sys_path s' = sys_path s /\
  forall p, p <> exe +:+ ".config" -> files s' !! p = files s !! p.
Proof.
  intros Hrun. destruct (keeps_check env exe _ _ _ Hrun) as [Hsp Hf].
  split; [done |]. intros p Hp. apply Hf. congruence.
Qed.

Lemma load_net_frame (env : Env) (path : string) (s s' : state) (r : result LoadLibrary) :
  load_net env path s = (r, s') ->
  (forall p, p <> sys_executable env +:+ ".config" -> files s' !! p = files s !! p) /\
  (sys_path s' = sys_path s \/ sys_path s' = fst (path_split env path) :: sys_path s).
Proof.
  unfold load_net, bind, emit, try_except, lift. simpl.
  destruct (Assembly_LoadFile env path) as [asm|err].
  - destruct (path_split env path) as [head tail]. simpl.
    destruct (clr_AddReference env _); simpl; [| intros [= <- <-]; auto].
    destruct (exported_namespaces asm) as [|ns ?]; simpl; [intros [= <- <-]; auto |].
    destruct (__import__ env ns); simpl; intros [= <- <-]; auto.
  - case_bool_decide; [| intros [= <- <-]; auto].
    unfold on_FileLoadException.
    destruct (Str.contains _ _); [| intros [= <- <-]; auto].
    unfold bind.
    destruct (check_dot_net_config _ _ _) as [r0 s1] eqn:Hcheck.
    destruct (check_frame _ _ _ _ _ Hcheck) as [Hsp Hf].
    destruct r0 as [[status msg]|e].
    + case_bool_decide; intros [= <- <-]; auto.
    + intros [= <- <-]; auto.
Qed.

(** The constructor of the loader writes to no file but the configuration
    file beside the interpreter, whatever the path and the library type;
    and it changes [sys.path] only for the type [net], by putting the
    directory of the library in front. *)
Theorem loader_touches_config_only (env : Env) (path libtype : string) (s : state) :
  let s' := snd (LoadLibrary__init__ env path libtype s) in
  (forall p, p <> sys_executable env +:+ ".config" -> files s' !! p = files s !! p) /\
  (sys_path s' = sys_path s \/
   libtype = "net" /\
   sys_path s' = fst (path_split env (resolve_path env path)) :: sys_path s).
Proof.
  unfold LoadLibrary__init__, bind, isfile. simpl.
  destruct (bool_decide (is_Some _)); simpl; [| auto].
  repeat (case_bool_decide;
          [ unfold ctypes_class, bind, lift, emit; simpl;
            destruct (ctypes_open _ _ _); simpl; auto | ]).
  case_bool_decide as Hnet; [| simpl; auto].
  unfold is_python_net_installed.
  destruct (clr_importable env); simpl; [| auto].
  destruct (load_net env (resolve_path env path) s) as [r s'] eqn:Hrun.
  destruct (load_net_frame _ _ _ _ _ Hrun) as [Hf [Hsp | Hsp]]; simpl; auto.
Qed.

Lemma fix_inserted_before_last_line_witness :
  exists msg s',
    check_dot_net_config Fixture.env "/usr/bin/python" NetFixture.s_crlf
    = (Return (1, msg), s') /\
    files s' !! "/usr/bin/python.config"
    = Some (Text ("<configuration>" +:+ Str.nl +:+ NET_FRAMEWORK_FIX
                  +:+ "</configuration>" +:+ Str.nl)).
Proof.
  destruct (fix_inserted_before_last_line Fixture.env "/usr/bin/python"
              ("<configuration>" +:+ String (ascii_of_nat 13) Str.nl
               +:+ "</configuration>" +:+ String (ascii_of_nat 13) Str.nl)
              NetFixture.s_crlf (Element "configuration" [] [])
              ltac:(by_eval) ltac:(by_eval) ltac:(by_eval) ltac:(by_eval) ltac:(by_eval))
    as (msg & s' & before & last_line & Hrun & _ & _ & _).
  exists msg, s'. split; [exact Hrun |].
  vm_compute in Hrun. injection Hrun as _ <-. reflexivity.
Defined.

Lemma one_line_config_witness :
  exists msg s',
    check_dot_net_config Fixture.env "/usr/bin/python" NetFixture.s_one_line
    = (Return (1, msg), s') /\
    files s' !! "/usr/bin/python.config"
    = Some (Text (NET_FRAMEWORK_FIX +:+ "<configuration></configuration>")).
Proof.
  destruct (one_line_config Fixture.env "/usr/bin/python" "<configuration></configuration>"
              NetFixture.s_one_line (Element "configuration" [] [])
              ltac:(by_eval) ltac:(by_eval) ltac:(by_eval) ltac:(by_eval) ltac:(by_eval)
              ltac:(by_eval) ltac:(by_eval))
    as (msg & s' & Hrun & Hfiles).
  exists msg, s'. split; [done |].
  rewrite Hfiles. apply lookup_insert_eq.
Defined.

Lemma check_effects_witness :
  exists s',
    check_dot_net_config Fixture.env "/usr/bin/python" s_enabled
    = (Return (0, "The useLegacyV2RuntimeActivationPolicy property is enabled"), s') /\
    files s' = files s_enabled.
Proof.
  exists (set_trace [EOpen "/usr/bin/python.config" "r";
                     EExternal "ET.parse" "/usr/bin/python.config"] s_enabled).
  assert (Hrun : check_dot_net_config Fixture.env "/usr/bin/python" s_enabled
                 = (Return (0, "The useLegacyV2RuntimeActivationPolicy property is enabled"),
                    set_trace [EOpen "/usr/bin/python.config" "r";
                               EExternal "ET.parse" "/usr/bin/python.config"] s_enabled))
    by by_eval.
  split; [exact Hrun |].
  destruct (check_effects _ _ _ _ _ Hrun) as [_ [(Hst & _) | [(_ & _ & Hf) | (Hst & _)]]];
    [discriminate Hst | exact Hf | discriminate Hst].
Defined.

Lemma loader_touches_config_only_witness :
  files (snd (LoadLibrary__init__ Fixture.env_net "dummy_lib32" "net" Fixture.s0))
  !! "/work/dummy_lib32.so" = files Fixture.s0 !! "/work/dummy_lib32.so".
Proof.
  apply (loader_touches_config_only Fixture.env_net "dummy_lib32" "net" Fixture.s0).
  by_eval.
Defined.
